(** * Representor TC offload glue (mlx5 core, en/rep/tc.c)

    A shallow embedding of the control-plane and receive-path functions of
    [drivers/net/ethernet/mellanox/mlx5/core/en/rep/tc.c], and the
    properties the design document states about them.

    Conventions of the embedding.
    - C integers are [Z]; a [u32] field carries its wrap-around explicitly
      ([u32_wrap]).  A function returning [int] returns [0] or a negated
      errno.
    - Every function of another compilation unit is an _external
      collaborator_.  A call to one is logged as an event (newest event at
      the head of the log) and its result is read from an oracle that sees
      the log so far, so collaborators may be stateful and may fail at any
      call.
    - A pointer argument that the callee may write through is modelled by
      passing the pointee and receiving the updated pointee back. *)

From stdpp Require Import base numbers list option gmap.

Local Open Scope Z_scope.

(** ** Errno values (include/uapi/asm-generic/errno-base.h, errno.h) *)

Definition ENOENT : Z := 2.
Definition ENOMEM : Z := 12.
Definition EEXIST : Z := 17.
Definition EOPNOTSUPP : Z := 95.

(** ** Fixed-width arithmetic *)

Definition u32_wrap (x : Z) : Z := x mod 2 ^ 32.

Definition is_u32 (x : Z) : Prop := 0 ≤ x < 2 ^ 32.

Lemma u32_wrap_small x : is_u32 x → u32_wrap x = x.
Proof. intros Hx. unfold u32_wrap. apply Z.mod_small. exact Hx. Qed.

Lemma u32_wrap_range x : is_u32 (u32_wrap x).
Proof. unfold is_u32, u32_wrap. apply Z.mod_pos_bound. lia. Qed.

(** [BIT(n)] of include/linux/bits.h. *)
Definition BIT (n : Z) : Z := Z.shiftl 1 n.

(** ** Setup types shared by the callbacks *)

(** [enum tc_setup_type]: the values this file switches on, and one
    constructor for every other value. *)
Inductive tc_setup_type :=
| TC_SETUP_CLSFLOWER
| TC_SETUP_CLSMATCHALL
| TC_SETUP_BLOCK
| TC_SETUP_FT
| TC_SETUP_ACT
| TC_SETUP_OTHER (raw : Z).

(** A network device is identified by its address. *)
Definition net_device := Z.

(** * Flow rule dispatcher and the flow-table remap *)

Module Dispatch.

(** [enum flow_cls_command]. *)
Inductive flow_cls_command :=
| FLOW_CLS_REPLACE
| FLOW_CLS_DESTROY
| FLOW_CLS_STATS
| FLOW_CLS_OTHER (raw : Z).

(** Bit numbers behind [MLX5_TC_FLAG(...)]. *)
Inductive tc_flag_bit :=
| INGRESS | EGRESS | NIC_OFFLOAD | ESW_OFFLOAD | FT_OFFLOAD.

(** The three entry points of the hardware rule installer (en_tc.c). *)
Inductive flower_op := Configure | Delete | Stats.

Section WithStats.

(** [struct flow_stats] and the rest of the classifier descriptor (cookie,
    rule, class id) are declared outside this file; their contents are not
    inspected here, only copied. *)
Context {flow_stats flow_rest : Type}.

Record flow_cls_common_offload := mk_common {
  chain_index : Z;   (* u32 *)
  prio : Z;          (* u32 *)
}.

Record flow_cls_offload := mk_cls {
  common : flow_cls_common_offload;
  command : flow_cls_command;
  rest : flow_rest;
  stats : flow_stats;
}.

Definition set_chain_index (c : Z) (f : flow_cls_offload) : flow_cls_offload :=
  mk_cls (mk_common c (prio (common f))) (command f) (rest f) (stats f).

Definition set_prio (p : Z) (f : flow_cls_offload) : flow_cls_offload :=
  mk_cls (mk_common (chain_index (common f)) p) (command f) (rest f) (stats f).

Definition set_stats (s : flow_stats) (f : flow_cls_offload) : flow_cls_offload :=
  mk_cls (common f) (command f) (rest f) s.

(** [struct mlx5e_priv], as far as the dispatcher reads it.  [netdev] may
    be NULL while the representor is being torn down; in the fields read
    here an eswitch is identified with its chains-and-priorities manager
    ([esw_chains(priv->mdev->priv.eswitch)]). *)
Record mlx5e_priv := mk_priv {
  netdev : option net_device;
  esw_chains : Z;
}.

(** [struct mlx5e_rep_indr_block_priv]: the foreign device, the owning
    representor's device and the bind direction (egress or not). *)
Record mlx5e_rep_indr_block_priv := mk_indr {
  indr_netdev : net_device;
  rpriv_netdev : net_device;
  binder_egress : bool;
}.

(** A logged installer call: entry point, device, private data,
    descriptor, flags. *)
Inductive event :=
| EvFlower (op : flower_op) (dev : option net_device) (priv : mlx5e_priv)
           (f : flow_cls_offload) (flags : Z).

Definition log := list event.

(** External collaborators of the dispatcher. *)
Record env := mk_env {
  (* MLX5E_TC_FLAG_*_BIT of en_tc.h *)
  flag_bit : tc_flag_bit → Z;
  (* mlx5e_configure_flower / mlx5e_delete_flower / mlx5e_stats_flower:
     the return value and the descriptor as the installer leaves it *)
  flower : log → flower_op → option net_device → mlx5e_priv →
           flow_cls_offload → Z → Z * flow_cls_offload;
  netif_device_present : net_device → bool;
  netdev_priv : net_device → mlx5e_priv;
  (* lib/fs_chains.c *)
  mlx5_chains_prios_supported : Z → bool;
  mlx5_chains_get_prio_range : Z → Z;
  mlx5_chains_get_nf_ft_chain : Z → Z;
}.

Context (E : env).

Definition MLX5_TC_FLAG (b : tc_flag_bit) : Z := BIT (flag_bit E b).

(** State: the event log. *)
Definition M (A : Type) : Type := log → A * log.

Definition call_flower (op : flower_op) (dev : option net_device)
    (priv : mlx5e_priv) (f : flow_cls_offload) (flags : Z)
    : M (Z * flow_cls_offload) :=
  λ tr, (flower E tr op dev priv f flags, EvFlower op dev priv f flags :: tr).

Definition mlx5e_rep_setup_tc_cls_flower (priv : mlx5e_priv)
    (cls_flower : flow_cls_offload) (flags : Z) : M (Z * flow_cls_offload) :=
  match command cls_flower with
  | FLOW_CLS_REPLACE =>
      call_flower Configure (netdev priv) priv cls_flower flags
  | FLOW_CLS_DESTROY =>
      call_flower Delete (netdev priv) priv cls_flower flags
  | FLOW_CLS_STATS =>
      call_flower Stats (netdev priv) priv cls_flower flags
  | FLOW_CLS_OTHER _ => λ tr, ((- EOPNOTSUPP, cls_flower), tr)
  end.

(** The callback returns the error code and the caller's descriptor [*f]
    as it leaves it. *)
Definition mlx5e_rep_setup_ft_cb (type : tc_setup_type)
    (f : flow_cls_offload) (priv : mlx5e_priv) : M (Z * flow_cls_offload) :=
  let flags := Z.lor (Z.lor (MLX5_TC_FLAG INGRESS) (MLX5_TC_FLAG ESW_OFFLOAD))
                     (MLX5_TC_FLAG FT_OFFLOAD) in
  let esw := esw_chains priv in
  match type with
  | TC_SETUP_CLSFLOWER =>
      let tmp := f in
      if negb (mlx5_chains_prios_supported E esw) then
        λ tr, ((- EOPNOTSUPP, f), tr)
      else if mlx5_chains_get_prio_range E esw <=? prio (common tmp) then
        λ tr, ((- EOPNOTSUPP, f), tr)
      else if negb (chain_index (common tmp) =? 0) then
        λ tr, ((- EOPNOTSUPP, f), tr)
      else
        let tmp := set_chain_index (mlx5_chains_get_nf_ft_chain E esw) tmp in
        let tmp := set_prio (u32_wrap (prio (common tmp) + 1)) tmp in
        λ tr,
          let '((err, tmp), tr) :=
            mlx5e_rep_setup_tc_cls_flower priv tmp flags tr in
          ((err, set_stats (stats tmp) f), tr)
  | _ => λ tr, ((- EOPNOTSUPP, f), tr)
  end.

Definition mlx5e_rep_indr_offload (dev : net_device)
    (flower : flow_cls_offload) (indr_priv : mlx5e_rep_indr_block_priv)
    (flags : Z) : M (Z * flow_cls_offload) :=
  let priv := netdev_priv E (rpriv_netdev indr_priv) in
  if negb (netif_device_present E (rpriv_netdev indr_priv)) then
    λ tr, ((- EOPNOTSUPP, flower), tr)
  else
    match command flower with
    | FLOW_CLS_REPLACE => call_flower Configure (Some dev) priv flower flags
    | FLOW_CLS_DESTROY => call_flower Delete (Some dev) priv flower flags
    | FLOW_CLS_STATS => call_flower Stats (Some dev) priv flower flags
    | FLOW_CLS_OTHER _ => λ tr, ((- EOPNOTSUPP, flower), tr)
    end.

Definition mlx5e_rep_indr_setup_ft_cb (type : tc_setup_type)
    (f : flow_cls_offload) (priv : mlx5e_rep_indr_block_priv)
    : M (Z * flow_cls_offload) :=
  let mpriv := netdev_priv E (rpriv_netdev priv) in
  let esw := esw_chains mpriv in
  let flags := Z.lor (Z.lor (MLX5_TC_FLAG EGRESS) (MLX5_TC_FLAG ESW_OFFLOAD))
                     (MLX5_TC_FLAG FT_OFFLOAD) in
  match type with
  | TC_SETUP_CLSFLOWER =>
      let tmp := f in
      if negb (mlx5_chains_prios_supported E esw)
         || (mlx5_chains_get_prio_range E esw <=? prio (common tmp))
         || negb (chain_index (common tmp) =? 0) then
        λ tr, ((- EOPNOTSUPP, f), tr)
      else
        let tmp := set_chain_index (mlx5_chains_get_nf_ft_chain E esw) tmp in
        let tmp := set_prio (u32_wrap (prio (common tmp) + 1)) tmp in
        λ tr,
          let '((err, tmp), tr) :=
            mlx5e_rep_indr_offload (indr_netdev priv) tmp priv flags tr in
          ((err, set_stats (stats tmp) f), tr)
  | _ => λ tr, ((- EOPNOTSUPP, f), tr)
  end.

(** The descriptor the remap hands to the primary path: reserved chain,
    priority plus one (as an integer, not wrapped). *)
Definition ft_rewrite (esw : Z) (f : flow_cls_offload) : flow_cls_offload :=
  mk_cls (mk_common (mlx5_chains_get_nf_ft_chain E esw) (prio (common f) + 1))
         (command f) (rest f) (stats f).

Definition ft_flags (dir : tc_flag_bit) : Z :=
  Z.lor (Z.lor (MLX5_TC_FLAG dir) (MLX5_TC_FLAG ESW_OFFLOAD))
        (MLX5_TC_FLAG FT_OFFLOAD).

Definition op_of_command (c : flow_cls_command) : option flower_op :=
  match c with
  | FLOW_CLS_REPLACE => Some Configure
  | FLOW_CLS_DESTROY => Some Delete
  | FLOW_CLS_STATS => Some Stats
  | FLOW_CLS_OTHER _ => None
  end.

(** The remap's three guards. *)
Definition ft_rejects (esw : Z) (f : flow_cls_offload) : Prop :=
  mlx5_chains_prios_supported E esw = false
  ∨ chain_index (common f) ≠ 0
  ∨ mlx5_chains_get_prio_range E esw ≤ prio (common f).

Definition ft_accepts (esw : Z) (f : flow_cls_offload) : Prop :=
  mlx5_chains_prios_supported E esw = true
  ∧ chain_index (common f) = 0
  ∧ prio (common f) < mlx5_chains_get_prio_range E esw.

(** [replays P r tr g] : the run [r] of a remap callback from log [tr] is
    one run of the primary path [P] on the descriptor [g], with the stats
    it leaves copied into the caller's descriptor [f] and nothing else of
    [f] changed; the installer is entered at most once, and then on [g]. *)
Definition replays (P : M (Z * flow_cls_offload))
    (r : Z * flow_cls_offload * log) (tr : log)
    (f g : flow_cls_offload) : Prop :=
  ∃ err tmp' tr',
    P tr = ((err, tmp'), tr')
    ∧ r = ((err, mk_cls (common f) (command f) (rest f) (stats tmp')), tr')
    ∧ (tr' = tr ∨ ∃ op dev priv flags, tr' = EvFlower op dev priv g flags :: tr).

Lemma setup_tc_cls_flower_log priv g flags tr :
  let tr' := (mlx5e_rep_setup_tc_cls_flower priv g flags tr).2 in
  tr' = tr ∨ ∃ op dev pr fl, tr' = EvFlower op dev pr g fl :: tr.
Proof.
  unfold mlx5e_rep_setup_tc_cls_flower, call_flower.
  destruct (command g); simpl; eauto 6.
Qed.

Lemma indr_offload_log dev g ip flags tr :
  let tr' := (mlx5e_rep_indr_offload dev g ip flags tr).2 in
  tr' = tr ∨ ∃ op dev pr fl, tr' = EvFlower op dev pr g fl :: tr.
Proof.
  unfold mlx5e_rep_indr_offload, call_flower.
  destruct (netif_device_present E _); simpl; [|by left].
  destruct (command g); simpl; eauto 6.
Qed.

Lemma ft_rewrite_eq esw f :
  is_u32 (mlx5_chains_get_prio_range E esw) →
  is_u32 (prio (common f)) →
  prio (common f) < mlx5_chains_get_prio_range E esw →
  set_prio (u32_wrap (prio (common
      (set_chain_index (mlx5_chains_get_nf_ft_chain E esw) f)) + 1))
    (set_chain_index (mlx5_chains_get_nf_ft_chain E esw) f)
  = ft_rewrite esw f.
Proof.
  intros Hr Hp Hlt. unfold set_prio, set_chain_index, ft_rewrite. simpl.
  rewrite u32_wrap_small; [done|]. unfold is_u32 in *. lia.
Qed.

End WithStats.

Arguments flow_cls_offload : clear implicits.
Arguments event : clear implicits.
Arguments env : clear implicits.

(** ** A concrete environment, for closed examples *)

(** Flag bits as numbered in en_tc.h; an installer that accepts every
    rule and bumps a packet counter; chains whose priorities are supported
    exactly for manager [1]; eight priorities; reserved chain [0xffff]. *)
Definition env0 : env Z unit :=
  mk_env
    (λ b, match b with
          | INGRESS => 0 | EGRESS => 1 | NIC_OFFLOAD => 2
          | ESW_OFFLOAD => 3 | FT_OFFLOAD => 4
          end)
    (λ _ _ _ _ f _, (0, set_stats (stats f + 1) f))
    (λ _, true)
    (λ d, mk_priv (Some d) 1)
    (λ c, c =? 1)
    (λ c, if c =? 1 then 8 else 1)
    (λ _, 65535).

Definition cls0 (chain p : Z) (c : flow_cls_command) : flow_cls_offload Z unit :=
  mk_cls (mk_common chain p) c tt 0.

Example ft_cb_scenario :
  mlx5e_rep_setup_ft_cb env0 TC_SETUP_CLSFLOWER (cls0 0 5 FLOW_CLS_REPLACE)
    (mk_priv (Some 7) 1) []
  = ((0, mk_cls (mk_common 0 5) FLOW_CLS_REPLACE tt 1),
     [EvFlower Configure (Some 7) (mk_priv (Some 7) 1)
        (mk_cls (mk_common 65535 6) FLOW_CLS_REPLACE tt 0) 25]).
Proof. reflexivity. Qed.

Section Remap.

Context {flow_stats flow_rest : Type} (E : env flow_stats flow_rest).
Implicit Types (f : flow_cls_offload flow_stats flow_rest).

Lemma setup_ft_cb_rejects f priv tr :
  ft_rejects E (esw_chains priv) f →
  mlx5e_rep_setup_ft_cb E TC_SETUP_CLSFLOWER f priv tr
  = ((- EOPNOTSUPP, f), tr).
Proof.
  intros Hrej. unfold mlx5e_rep_setup_ft_cb.
  destruct (mlx5_chains_prios_supported E _) eqn:Hs; simpl; [|done].
  destruct (Z.leb_spec (mlx5_chains_get_prio_range E (esw_chains priv))
              (prio (common f))); [done|].
  destruct (Z.eqb_spec (chain_index (common f)) 0); simpl; [|done].
  destruct Hrej as [?|[?|?]]; [congruence|done|lia].
Qed.

Lemma indr_setup_ft_cb_rejects f ip tr :
  ft_rejects E (esw_chains (netdev_priv E (rpriv_netdev ip))) f →
  mlx5e_rep_indr_setup_ft_cb E TC_SETUP_CLSFLOWER f ip tr
  = ((- EOPNOTSUPP, f), tr).
Proof.
  intros Hrej. unfold mlx5e_rep_indr_setup_ft_cb.
  destruct (mlx5_chains_prios_supported E _) eqn:Hs; simpl; [|done].
  destruct (Z.leb_spec
              (mlx5_chains_get_prio_range E
                 (esw_chains (netdev_priv E (rpriv_netdev ip))))
              (prio (common f))); simpl; [done|].
  destruct (Z.eqb_spec (chain_index (common f)) 0); simpl; [|done].
  destruct Hrej as [?|[?|?]]; [congruence|done|lia].
Qed.

Lemma setup_ft_cb_accepts f priv tr :
  is_u32 (prio (common f)) →
  is_u32 (mlx5_chains_get_prio_range E (esw_chains priv)) →
  ft_accepts E (esw_chains priv) f →
  mlx5e_rep_setup_ft_cb E TC_SETUP_CLSFLOWER f priv tr
  = let '((err, tmp), tr') :=
      mlx5e_rep_setup_tc_cls_flower E priv (ft_rewrite E (esw_chains priv) f)
        (ft_flags E INGRESS) tr in
    ((err, set_stats (stats tmp) f), tr').
Proof.
  intros Hp Hr (Hs & Hc & Hlt). unfold mlx5e_rep_setup_ft_cb.
  rewrite Hs. simpl negb. cbv iota.
  destruct (Z.leb_spec (mlx5_chains_get_prio_range E (esw_chains priv))
              (prio (common f))); [lia|].
  destruct (Z.eqb_spec (chain_index (common f)) 0) as [_|]; [|done].
  cbv zeta. simpl negb. cbv iota.
  rewrite (ft_rewrite_eq E _ f Hr Hp Hlt). done.
Qed.

Lemma indr_setup_ft_cb_accepts f ip tr :
  let esw := esw_chains (netdev_priv E (rpriv_netdev ip)) in
  is_u32 (prio (common f)) →
  is_u32 (mlx5_chains_get_prio_range E esw) →
  ft_accepts E esw f →
  mlx5e_rep_indr_setup_ft_cb E TC_SETUP_CLSFLOWER f ip tr
  = let '((err, tmp), tr') :=
      mlx5e_rep_indr_offload E (indr_netdev ip) (ft_rewrite E esw f) ip
        (ft_flags E EGRESS) tr in
    ((err, set_stats (stats tmp) f), tr').
Proof.
  intros esw Hp Hr (Hs & Hc & Hlt). unfold mlx5e_rep_indr_setup_ft_cb.
  fold esw. rewrite Hs.
  destruct (Z.leb_spec (mlx5_chains_get_prio_range E esw)
              (prio (common f))); [lia|].
  destruct (Z.eqb_spec (chain_index (common f)) 0) as [_|]; [|done].
  cbv zeta. simpl negb. simpl orb. cbv iota.
  rewrite (ft_rewrite_eq E _ f Hr Hp Hlt). done.
Qed.

(** Both callbacks, once past the guards, are one replay of their primary
    path. *)
Lemma replays_intro (P : M (Z * flow_cls_offload flow_stats flow_rest))
    f g tr :
  ((P tr).2 = tr ∨ ∃ op dev pr fl, (P tr).2 = EvFlower op dev pr g fl :: tr) →
  replays P (let '((err, tmp), tr') := P tr in
             ((err, set_stats (stats tmp) f), tr')) tr f g.
Proof.
  intros Hlog. destruct (P tr) as [[err tmp'] tr'] eqn:HP.
  exists err, tmp', tr'. split; [done|]. split; [done|]. exact Hlog.
Qed.

(** C1, as amended.  A flow-table-offload classifier command (type
    [TC_SETUP_CLSFLOWER]) entering the remap, on the direct path
    [mlx5e_rep_setup_ft_cb] or the indirect path
    [mlx5e_rep_indr_setup_ft_cb], is rejected with [-EOPNOTSUPP], leaving
    the descriptor and the installer untouched, when chains-and-priorities
    support is absent, or the chain index is not 0, or the priority is not
    below the priority range.  Otherwise the command is replayed through
    the primary path exactly once, on the descriptor rewritten to the
    reserved chain with priority plus one; the installer is entered at
    most once, and then on that descriptor; the stats that run leaves are
    copied into the caller's descriptor, whose other fields keep their
    values; the error code is the primary path's. *)
Theorem ft_remap_replays_once f priv ip tr :
  is_u32 (prio (common f)) →
  (∀ c, is_u32 (mlx5_chains_get_prio_range E c)) →
  let esw := esw_chains priv in
  let iesw := esw_chains (netdev_priv E (rpriv_netdev ip)) in
  (ft_rejects E esw f →
     mlx5e_rep_setup_ft_cb E TC_SETUP_CLSFLOWER f priv tr
     = ((- EOPNOTSUPP, f), tr))
  ∧ (ft_accepts E esw f →
     replays
       (mlx5e_rep_setup_tc_cls_flower E priv (ft_rewrite E esw f)
          (ft_flags E INGRESS))
       (mlx5e_rep_setup_ft_cb E TC_SETUP_CLSFLOWER f priv tr)
       tr f (ft_rewrite E esw f))
  ∧ (ft_rejects E iesw f →
     mlx5e_rep_indr_setup_ft_cb E TC_SETUP_CLSFLOWER f ip tr
     = ((- EOPNOTSUPP, f), tr))
  ∧ (ft_accepts E iesw f →
     replays
       (mlx5e_rep_indr_offload E (indr_netdev ip) (ft_rewrite E iesw f) ip
          (ft_flags E EGRESS))
       (mlx5e_rep_indr_setup_ft_cb E TC_SETUP_CLSFLOWER f ip tr)
       tr f (ft_rewrite E iesw f)).
Proof.
  intros Hp Hr esw iesw. repeat split.
  - apply setup_ft_cb_rejects.
  - intros Hacc. rewrite setup_ft_cb_accepts by auto.
    apply replays_intro, setup_tc_cls_flower_log.
  - apply indr_setup_ft_cb_rejects.
  - intros Hacc. rewrite indr_setup_ft_cb_accepts by auto.
    apply replays_intro, indr_offload_log.
Qed.

(** For a Replace, Destroy or Stats command the replay enters the
    installer exactly once (on the indirect path: when the representor's
    device is present). *)
Lemma ft_remap_installer_once f priv tr op :
  is_u32 (prio (common f)) →
  is_u32 (mlx5_chains_get_prio_range E (esw_chains priv)) →
  ft_accepts E (esw_chains priv) f →
  op_of_command (command f) = Some op →
  (mlx5e_rep_setup_ft_cb E TC_SETUP_CLSFLOWER f priv tr).2
  = EvFlower op (netdev priv) priv (ft_rewrite E (esw_chains priv) f)
      (ft_flags E INGRESS) :: tr.
Proof.
  intros Hp Hr Hacc Hop. rewrite setup_ft_cb_accepts by auto.
  unfold mlx5e_rep_setup_tc_cls_flower, call_flower.
  change (command (ft_rewrite E (esw_chains priv) f)) with (command f).
  destruct (command f); simplify_eq/=;
    by destruct (flower E _ _ _ _ _ _).
Qed.

Lemma ft_remap_indr_installer_once f ip tr op :
  let esw := esw_chains (netdev_priv E (rpriv_netdev ip)) in
  is_u32 (prio (common f)) →
  is_u32 (mlx5_chains_get_prio_range E esw) →
  ft_accepts E esw f →
  netif_device_present E (rpriv_netdev ip) = true →
  op_of_command (command f) = Some op →
  (mlx5e_rep_indr_setup_ft_cb E TC_SETUP_CLSFLOWER f ip tr).2
  = EvFlower op (Some (indr_netdev ip)) (netdev_priv E (rpriv_netdev ip))
      (ft_rewrite E esw f) (ft_flags E EGRESS) :: tr.
Proof.
  intros esw Hp Hr Hacc Hpres Hop. rewrite indr_setup_ft_cb_accepts by auto.
  unfold mlx5e_rep_indr_offload, call_flower. rewrite Hpres. simpl.
  change (command (ft_rewrite E
            (esw_chains (netdev_priv E (rpriv_netdev ip))) f))
    with (command f).
  destruct (command f); simplify_eq/=;
    by destruct (flower E _ _ _ _ _ _).
Qed.

End Remap.

(** Priority 5 of 8 on chain 0: accepted, and replayed at priority 6 on
    the reserved chain. *)
Lemma ft_remap_replays_once_witness :
  let f := cls0 0 5 FLOW_CLS_REPLACE in
  let priv := mk_priv (Some 7) 1 in
  replays
    (mlx5e_rep_setup_tc_cls_flower env0 priv (ft_rewrite env0 1 f)
       (ft_flags env0 INGRESS))
    (mlx5e_rep_setup_ft_cb env0 TC_SETUP_CLSFLOWER f priv [])
    [] f (ft_rewrite env0 1 f).
Proof.
  intros f priv.
  refine (proj1 (proj2 (ft_remap_replays_once env0 f priv (mk_indr 9 7 false) []
                          _ _)) _).
  - unfold is_u32. simpl. lia.
  - intros c. unfold is_u32. simpl. destruct (c =? 1); lia.
  - unfold ft_accepts. simpl. repeat split; lia.
Defined.

(** C1 as the design document states it fails where priorities are
    unsupported: chain 0 and priority 0 below the range 1, yet both paths
    reject the command and never enter the installer. *)
Lemma ft_remap_prios_unsupported_rejected :
  let f := cls0 0 0 FLOW_CLS_REPLACE in
  let priv := mk_priv (Some 7) 2 in
  let ip := mk_indr 9 7 false in
  let E := mk_env (flag_bit env0) (flower env0) (netif_device_present env0)
             (λ _, priv) (mlx5_chains_prios_supported env0)
             (mlx5_chains_get_prio_range env0)
             (mlx5_chains_get_nf_ft_chain env0) in
  chain_index (common f) = 0
  ∧ prio (common f) < mlx5_chains_get_prio_range E (esw_chains priv)
  ∧ mlx5e_rep_setup_ft_cb E TC_SETUP_CLSFLOWER f priv []
    = ((- EOPNOTSUPP, f), [])
  ∧ mlx5e_rep_indr_setup_ft_cb E TC_SETUP_CLSFLOWER f ip []
    = ((- EOPNOTSUPP, f), []).
Proof. repeat split. Qed.

(** ** The plain callbacks and the match-all dispatcher *)

(** [enum tc_matchall_command] *)
Inductive tc_matchall_command :=
| TC_CLSMATCHALL_REPLACE
| TC_CLSMATCHALL_DESTROY
| TC_CLSMATCHALL_STATS
| TC_CLSMATCHALL_OTHER (raw : Z).

(** The three entry points of the match-all installer (en_tc.c). *)
Inductive matchall_op := MaConfigure | MaDelete | MaStats.

(** [struct tc_cls_matchall_offload]: the command and the rest, which
    is only handed on. *)
Record tc_cls_matchall_offload := mk_ma {
  ma_command : tc_matchall_command;
  ma_rest : Z;
}.

(** A logged match-all installer call. *)
Inductive matchall_event :=
| EvMatchall (op : matchall_op) (priv : mlx5e_priv)
             (ma : tc_cls_matchall_offload).

(** [mlx5e_tc_configure_matchall], [mlx5e_tc_delete_matchall] and
    [mlx5e_tc_stats_matchall]: the return value (ignored for the last,
    which returns nothing) and the command as the installer leaves it.
    The oracle sees the match-all calls logged so far. *)
Record matchall_env := mk_matchall_env {
  matchall : list matchall_event → matchall_op → mlx5e_priv →
             tc_cls_matchall_offload → Z * tc_cls_matchall_offload;
}.

(** What a callback is handed: [type] together with what [type_data]
    points to for that type.  For the types the callbacks do not handle
    the pointee is never read. *)
Inductive tc_setup_request {flow_stats flow_rest : Type} :=
| SetupClsFlower (f : flow_cls_offload flow_stats flow_rest)
| SetupClsMatchall (ma : tc_cls_matchall_offload)
| SetupOther (type : tc_setup_type).
Arguments tc_setup_request : clear implicits.

Section Callbacks.

Context {flow_stats flow_rest : Type} (E : env flow_stats flow_rest)
        (EM : matchall_env).
Implicit Types (f : flow_cls_offload flow_stats flow_rest).

Definition call_matchall (op : matchall_op) (priv : mlx5e_priv)
    (ma : tc_cls_matchall_offload) (mtr : list matchall_event)
    : Z * tc_cls_matchall_offload * list matchall_event :=
  (matchall EM mtr op priv ma, EvMatchall op priv ma :: mtr).

Definition mlx5e_rep_setup_tc_cls_matchall (priv : mlx5e_priv)
    (ma : tc_cls_matchall_offload) (mtr : list matchall_event)
    : Z * tc_cls_matchall_offload * list matchall_event :=
  match ma_command ma with
  | TC_CLSMATCHALL_REPLACE => call_matchall MaConfigure priv ma mtr
  | TC_CLSMATCHALL_DESTROY => call_matchall MaDelete priv ma mtr
  | TC_CLSMATCHALL_STATS =>
      let '(_, ma', mtr) := call_matchall MaStats priv ma mtr in
      (0, ma', mtr)
  | TC_CLSMATCHALL_OTHER _ => (- EOPNOTSUPP, ma, mtr)
  end.

(** Returns the error code and the request as the callback leaves it.
    The state is the installer log and the match-all installer log. *)
Definition mlx5e_rep_setup_tc_cb (req : tc_setup_request flow_stats flow_rest)
    (priv : mlx5e_priv) (tr : log) (mtr : list matchall_event)
    : Z * tc_setup_request flow_stats flow_rest * log * list matchall_event :=
  let flags := Z.lor (MLX5_TC_FLAG E INGRESS) (MLX5_TC_FLAG E ESW_OFFLOAD) in
  if match netdev priv with
     | None => true
     | Some d => negb (netif_device_present E d)
     end
  then (- EOPNOTSUPP, req, tr, mtr)
  else
    match req with
    | SetupClsFlower f =>
        let '((err, f), tr) :=
          mlx5e_rep_setup_tc_cls_flower E priv f flags tr in
        (err, SetupClsFlower f, tr, mtr)
    | SetupClsMatchall ma =>
        let '(err, ma, mtr) := mlx5e_rep_setup_tc_cls_matchall priv ma mtr in
        (err, SetupClsMatchall ma, tr, mtr)
    | SetupOther _ => (- EOPNOTSUPP, req, tr, mtr)
    end.

(** The callback of an indirect binding.  A match-all request, like any
    other type than flower, is not handled. *)
Definition mlx5e_rep_indr_setup_tc_cb
    (req : tc_setup_request flow_stats flow_rest)
    (priv : mlx5e_rep_indr_block_priv) (tr : log)
    : Z * tc_setup_request flow_stats flow_rest * log :=
  let flags := MLX5_TC_FLAG E ESW_OFFLOAD in
  let flags :=
    Z.lor flags (if binder_egress priv then MLX5_TC_FLAG E EGRESS
                 else MLX5_TC_FLAG E INGRESS) in
  match req with
  | SetupClsFlower f =>
      let '((err, f), tr) :=
        mlx5e_rep_indr_offload E (indr_netdev priv) f priv flags tr in
      (err, SetupClsFlower f, tr)
  | _ => (- EOPNOTSUPP, req, tr)
  end.

End Callbacks.

Section CallbackProperties.

Context {flow_stats flow_rest : Type} (E : env flow_stats flow_rest)
        (EM : matchall_env).
Implicit Types (f : flow_cls_offload flow_stats flow_rest).


(** X1.  Whatever the type, the descriptor and the verdict of the
    guards, the two flow-table callbacks hand the caller's descriptor
    back with its chain index, priority, command and payload as they
    came: the reserved chain and the raised priority live in the
    temporary copy only. *)
Theorem ft_cb_keeps_caller_descriptor type f priv ip tr :
  let d := (mlx5e_rep_setup_ft_cb E type f priv tr).1.2 in
  let i := (mlx5e_rep_indr_setup_ft_cb E type f ip tr).1.2 in
  (common d = common f ∧ command d = command f ∧ rest d = rest f)
  ∧ (common i = common f ∧ command i = command f ∧ rest i = rest f).
Proof.
  split.
  - unfold mlx5e_rep_setup_ft_cb.
    destruct type; try done.
    destruct (negb _); [done|]. destruct (_ <=? _); [done|].
    destruct (negb _); [done|].
    by destruct (mlx5e_rep_setup_tc_cls_flower _ _ _ _ _) as [[err tmp] tr'].
  - unfold mlx5e_rep_indr_setup_ft_cb.
    destruct type; try done.
    destruct (_ || _); [done|].
    by destruct (mlx5e_rep_indr_offload _ _ _ _ _ _) as [[err tmp] tr'].
Qed.


(** Whether bit [b] of [MLX5_TC_FLAG] is set in [flags]. *)
Definition has_flag (flags : Z) (b : tc_flag_bit) : bool :=
  Z.testbit flags (flag_bit E b).

(** The installer calls a run added to the log: none, or one whose
    flags satisfy [P]. *)
Definition installs_with (P : Z → Prop)
    (tr tr' : @log flow_stats flow_rest) : Prop :=
  tr' = tr ∨ ∃ op dev pr g fl, tr' = EvFlower op dev pr g fl :: tr ∧ P fl.

Lemma has_flag_BIT b b' :
  (∀ x, 0 ≤ flag_bit E x) →
  (∀ x y, flag_bit E x = flag_bit E y → x = y) →
  has_flag (MLX5_TC_FLAG E b) b' = true ↔ b = b'.
Proof.
  intros Hnn Hinj. unfold has_flag, MLX5_TC_FLAG, BIT.
  rewrite Z.shiftl_1_l, Z.pow2_bits_eqb by apply Hnn.
  rewrite Z.eqb_eq. split; [apply Hinj|by intros ->].
Qed.

Lemma has_flag_lor a b x : has_flag (Z.lor a b) x = has_flag a x || has_flag b x.
Proof. unfold has_flag. apply Z.lor_spec. Qed.

Lemma has_flag_two b1 b2 x :
  (∀ x, 0 ≤ flag_bit E x) →
  (∀ x y, flag_bit E x = flag_bit E y → x = y) →
  has_flag (Z.lor (MLX5_TC_FLAG E b1) (MLX5_TC_FLAG E b2)) x = true
  ↔ x = b1 ∨ x = b2.
Proof.
  intros Hnn Hinj. rewrite has_flag_lor, orb_true_iff.
  rewrite !has_flag_BIT by done.
  split; intros [?|?]; subst; auto.
Qed.

Lemma has_flag_three b1 b2 b3 x :
  (∀ x, 0 ≤ flag_bit E x) →
  (∀ x y, flag_bit E x = flag_bit E y → x = y) →
  has_flag (Z.lor (Z.lor (MLX5_TC_FLAG E b1) (MLX5_TC_FLAG E b2))
              (MLX5_TC_FLAG E b3)) x = true
  ↔ x = b1 ∨ x = b2 ∨ x = b3.
Proof.
  intros Hnn Hinj. rewrite has_flag_lor, orb_true_iff.
  rewrite has_flag_two, has_flag_BIT by done.
  split; [intros [[?|?]|?]|intros [?|[?|?]]]; subst; auto.
Qed.

Lemma installs_with_flower (P : Z → Prop) priv g flags tr :
  P flags →
  installs_with P tr (mlx5e_rep_setup_tc_cls_flower E priv g flags tr).2.
Proof.
  intros HP. unfold mlx5e_rep_setup_tc_cls_flower, call_flower.
  destruct (command g); simpl; [right; eauto 10..|by left].
Qed.

Lemma installs_with_indr (P : Z → Prop) dev g ip flags tr :
  P flags →
  installs_with P tr (mlx5e_rep_indr_offload E dev g ip flags tr).2.
Proof.
  intros HP. unfold mlx5e_rep_indr_offload, call_flower.
  destruct (negb _); [by left|].
  destruct (command g); simpl; [right; eauto 10..|by left].
Qed.

(** X3.  With the flag bits distinct, each entry point marks the rules
    it installs: the plain callback with ingress and switch-offload
    only; the flow-table callback with ingress, switch-offload and
    flow-table; an indirect binding's callback with switch-offload and
    the binding's own direction; the indirect flow-table callback with
    egress, switch-offload and flow-table, whatever the direction of the
    binding.  No run enters the installer more than once. *)
Theorem flags_by_entry_point f type priv ip tr mtr :
  (∀ x, 0 ≤ flag_bit E x) →
  (∀ x y, flag_bit E x = flag_bit E y → x = y) →
  installs_with
    (λ fl, ∀ x, has_flag fl x = true ↔ x = INGRESS ∨ x = ESW_OFFLOAD)
    tr (mlx5e_rep_setup_tc_cb E EM (SetupClsFlower f) priv tr mtr).1.2
  ∧ installs_with
      (λ fl, ∀ x, has_flag fl x = true
                  ↔ x = INGRESS ∨ x = ESW_OFFLOAD ∨ x = FT_OFFLOAD)
      tr (mlx5e_rep_setup_ft_cb E type f priv tr).2
  ∧ installs_with
      (λ fl, ∀ x, has_flag fl x = true
                  ↔ x = ESW_OFFLOAD
                    ∨ x = (if binder_egress ip then EGRESS else INGRESS))
      tr (mlx5e_rep_indr_setup_tc_cb E (SetupClsFlower f) ip tr).2
  ∧ installs_with
      (λ fl, ∀ x, has_flag fl x = true
                  ↔ x = EGRESS ∨ x = ESW_OFFLOAD ∨ x = FT_OFFLOAD)
      tr (mlx5e_rep_indr_setup_ft_cb E type f ip tr).2.
Proof.
  intros Hnn Hinj. split; [|split; [|split]].
  - unfold mlx5e_rep_setup_tc_cb.
    destruct (match netdev priv with Some _ => _ | None => _ end);
      [by left|].
    pose proof (installs_with_flower
      (λ w, ∀ x, has_flag w x = true ↔ x = INGRESS ∨ x = ESW_OFFLOAD)
      priv f _ tr (λ x, has_flag_two INGRESS ESW_OFFLOAD x Hnn Hinj)) as H.
    by destruct (mlx5e_rep_setup_tc_cls_flower _ _ _ _ _) as [[err g] tr'].
  - unfold mlx5e_rep_setup_ft_cb.
    destruct type; try by left.
    destruct (negb _); [by left|]. destruct (_ <=? _); [by left|].
    destruct (negb _); [by left|].
    match goal with
    | |- context [mlx5e_rep_setup_tc_cls_flower E priv ?g ?fl tr] =>
        pose proof (installs_with_flower
          (λ w, ∀ x, has_flag w x = true
                      ↔ x = INGRESS ∨ x = ESW_OFFLOAD ∨ x = FT_OFFLOAD)
          priv g fl tr
          (λ x, has_flag_three INGRESS ESW_OFFLOAD FT_OFFLOAD x Hnn Hinj))
          as H;
        by destruct (mlx5e_rep_setup_tc_cls_flower E priv g fl tr)
             as [[err g'] tr']
    end.
  - unfold mlx5e_rep_indr_setup_tc_cb.
    match goal with
    | |- context [mlx5e_rep_indr_offload E ?d f ip ?fl tr] =>
        assert (H : installs_with
          (λ w, ∀ x, has_flag w x = true
                      ↔ x = ESW_OFFLOAD
                        ∨ x = (if binder_egress ip then EGRESS else INGRESS))
          tr (mlx5e_rep_indr_offload E d f ip fl tr).2);
        [|by destruct (mlx5e_rep_indr_offload E d f ip fl tr)
               as [[err g'] tr']]
    end.
    apply installs_with_indr. intros x.
    destruct (binder_egress ip); by apply has_flag_two.
  - unfold mlx5e_rep_indr_setup_ft_cb.
    destruct type; try by left.
    destruct (_ || _); [by left|].
    match goal with
    | |- context [mlx5e_rep_indr_offload E ?d ?g ip ?fl tr] =>
        pose proof (installs_with_indr
          (λ w, ∀ x, has_flag w x = true
                      ↔ x = EGRESS ∨ x = ESW_OFFLOAD ∨ x = FT_OFFLOAD)
          d g ip fl tr
          (λ x, has_flag_three EGRESS ESW_OFFLOAD FT_OFFLOAD x Hnn Hinj))
          as H;
        by destruct (mlx5e_rep_indr_offload E d g ip fl tr)
             as [[err g'] tr']
    end.
Qed.

(** X4.  The match-all dispatcher enters its installer once for
    Replace, Destroy and Stats, on the command as it came, and not at
    all for any other command, which gets [-EOPNOTSUPP]; Replace and
    Destroy return what the installer returns, Stats returns [0]
    whatever the installer reports. *)
Theorem matchall_dispatch priv ma mtr :
  let r := mlx5e_rep_setup_tc_cls_matchall EM priv ma mtr in
  (ma_command ma = TC_CLSMATCHALL_STATS →
     r.1.1 = 0 ∧ r.2 = EvMatchall MaStats priv ma :: mtr)
  ∧ (ma_command ma = TC_CLSMATCHALL_REPLACE →
     r.1 = matchall EM mtr MaConfigure priv ma
     ∧ r.2 = EvMatchall MaConfigure priv ma :: mtr)
  ∧ (ma_command ma = TC_CLSMATCHALL_DESTROY →
     r.1 = matchall EM mtr MaDelete priv ma
     ∧ r.2 = EvMatchall MaDelete priv ma :: mtr)
  ∧ (∀ raw, ma_command ma = TC_CLSMATCHALL_OTHER raw →
     r = (- EOPNOTSUPP, ma, mtr)).
Proof.
  unfold mlx5e_rep_setup_tc_cls_matchall, call_matchall.
  repeat split; intros; simplify_eq/=;
    repeat match goal with H : ma_command ma = _ |- _ => rewrite H end;
    try done; by destruct (matchall EM _ _ _ _).
Qed.

End CallbackProperties.


Definition em0 : matchall_env := mk_matchall_env (λ _ _ _ ma, (- ENOMEM, ma)).


Lemma flags_by_entry_point_witness :
  installs_with
    (λ fl, ∀ x, has_flag env0 fl x = true
                ↔ x = EGRESS ∨ x = ESW_OFFLOAD ∨ x = FT_OFFLOAD)
    [] (mlx5e_rep_indr_setup_ft_cb env0 TC_SETUP_CLSFLOWER
          (cls0 0 5 FLOW_CLS_REPLACE) (mk_indr 9 7 false) []).2.
Proof.
  apply (flags_by_entry_point env0 em0 (cls0 0 5 FLOW_CLS_REPLACE)
           TC_SETUP_CLSFLOWER (mk_priv (Some 7) 1) (mk_indr 9 7 false) [] []).
  - intros x. destruct x; simpl; lia.
  - intros x y. destruct x, y; simpl; intros; congruence.
Defined.

(** An ingress binding's flow-table rule is still installed as egress:
    flags [2^1 + 2^3 + 2^4]. *)
Example indr_ft_cb_flags :
  (mlx5e_rep_indr_setup_ft_cb env0 TC_SETUP_CLSFLOWER
     (cls0 0 5 FLOW_CLS_REPLACE) (mk_indr 9 7 false) []).2
  = [EvFlower Configure (Some 9) (mk_priv (Some 7) 1)
       (mk_cls (mk_common 65535 6) FLOW_CLS_REPLACE tt 0) 26].
Proof. reflexivity. Qed.

(** A match-all Stats whose installer reports an error still returns 0. *)
Example matchall_stats_returns_zero :
  mlx5e_rep_setup_tc_cb env0 em0 (SetupClsMatchall (mk_ma TC_CLSMATCHALL_STATS 0))
    (mk_priv (Some 7) 1) [] []
  = (0, SetupClsMatchall (mk_ma TC_CLSMATCHALL_STATS 0), [],
     [EvMatchall MaStats (mk_priv (Some 7) 1) (mk_ma TC_CLSMATCHALL_STATS 0)]).
Proof. reflexivity. Qed.

End Dispatch.

(** * Encapsulation manager: neighbour attach/detach and flow update *)

Module Encap.

(** An Ethernet address: six bytes. *)
Definition mac := list Z.

Definition ETH_ALEN : nat := 6.

(** [ether_addr_equal]: the two addresses agree on their six bytes. *)
Definition ether_addr_equal (a b : mac) : bool :=
  bool_decide (take ETH_ALEN a = take ETH_ALEN b).

(** [ether_addr_copy(dst, src)] where [dst] points [off] bytes into the
    buffer [buf]: six bytes are overwritten in place. *)
Definition ether_addr_copy_at (off : nat) (src : mac) (buf : list Z) : list Z :=
  take off buf ++ take ETH_ALEN src ++ drop (off + ETH_ALEN) buf.

(** [struct mlx5e_encap_entry], as far as this file reads and writes it.
    [nhe] is the back-reference to the neighbour entry (by neighbour key);
    [encap_header] starts with a [struct ethhdr]: destination address at
    offset 0, source address at offset 6. *)
Record mlx5e_encap_entry := mk_encap {
  encap_id : Z;
  reformat_type : Z;
  nhe : option Z;
  flags : Z;
  h_dest : mac;
  encap_header : list Z;
  route_dev_ifindex : Z;
}.

Definition set_nhe (n : option Z) (e : mlx5e_encap_entry) : mlx5e_encap_entry :=
  mk_encap (encap_id e) (reformat_type e) n (flags e) (h_dest e)
           (encap_header e) (route_dev_ifindex e).

Definition set_h_dest (m : mac) (e : mlx5e_encap_entry) : mlx5e_encap_entry :=
  mk_encap (encap_id e) (reformat_type e) (nhe e) (flags e) (take ETH_ALEN m)
           (encap_header e) (route_dev_ifindex e).

Definition set_encap_header (h : list Z) (e : mlx5e_encap_entry)
    : mlx5e_encap_entry :=
  mk_encap (encap_id e) (reformat_type e) (nhe e) (flags e) (h_dest e)
           h (route_dev_ifindex e).

(** [struct mlx5e_neigh_hash_entry]: the encap entries that wait on this
    neighbour (newest first, as [list_add_rcu] links them) and the
    reference count. *)
Record mlx5e_neigh_hash_entry := mk_nhe {
  encap_list : list Z;
  refcnt : Z;
}.

Inductive lock := encap_lock | encap_list_lock (k : Z) | encap_tbl_lock.

(** Flows are opaque handles. *)
Definition flow := Z.

Inductive event :=
| EvLock (l : lock)
| EvUnlock (l : lock)
| EvEntropyInc (reformat : Z)
| EvEntropyDec (reformat : Z)
| EvNeighLookup (k : Z)
| EvNeighCreate (k : Z) (dev : net_device)
| EvNeighRelease (k : Z)
| EvAssertRtnl
| EvTakeAllEncapFlows (e : mlx5e_encap_entry)
| EvEncapFlowsDel (e : mlx5e_encap_entry) (fl : list flow)
| EvEncapFlowsAdd (e : mlx5e_encap_entry) (fl : list flow)
| EvDevGetByIndex (ifindex : Z)
| EvPutFlowList (fl : list flow).

Definition log := list event.

(** What the representor's uplink holds: the entropy reference counts per
    reformat type, the neighbour table, and the log of calls. *)
Record state := mk_state {
  entropy : gmap Z Z;
  neigh_tbl : gmap Z mlx5e_neigh_hash_entry;
  trace : log;
}.

Definition emit (ev : event) (s : state) : state :=
  mk_state (entropy s) (neigh_tbl s) (ev :: trace s).

(** External collaborators. Each oracle sees the log before its call. *)
Record env := mk_env {
  (* MLX5_ENCAP_ENTRY_VALID of en_rep.h *)
  MLX5_ENCAP_ENTRY_VALID : Z;
  (* error code of mlx5_tun_entropy_refcount_inc (0: granted) *)
  entropy_inc_err : log → Z → Z;
  (* error code of mlx5e_rep_neigh_entry_create (0: created) *)
  neigh_create_err : log → Z → net_device → Z;
  (* mlx5e_take_all_encap_flows: the flows snapshotted *)
  take_all_encap_flows : log → mlx5e_encap_entry → list flow;
  (* mlx5e_tc_encap_flows_del / _add: the entry and the flow list as they
     leave them *)
  encap_flows_del : log → mlx5e_encap_entry → list flow →
                    mlx5e_encap_entry * list flow;
  encap_flows_add : log → mlx5e_encap_entry → list flow →
                    mlx5e_encap_entry * list flow;
  (* __dev_get_by_index: the route device's address, if it exists *)
  dev_get_by_index : log → Z → option mac;
}.

Section WithEnv.

Context (E : env).

(** The entropy reference count of reformat type [t]. *)
Definition entropy_count (s : state) (t : Z) : Z := default 0 (entropy s !! t).

(** Modelled from the spec: [mlx5_tun_entropy_refcount_inc]
    (lib/port_tun.c) is not part of this file.  The design document
    describes a shared entropy-classification reference count keyed by
    reformat type, whose increment may fail, and then takes nothing. *)
Definition mlx5_tun_entropy_refcount_inc (t : Z) (s : state) : Z * state :=
  let err := entropy_inc_err E (trace s) t in
  let s := emit (EvEntropyInc t) s in
  if err =? 0 then
    (0, mk_state (<[t := entropy_count s t + 1]> (entropy s))
                 (neigh_tbl s) (trace s))
  else (err, s).

(** Modelled from the spec: [mlx5_tun_entropy_refcount_dec]
    (lib/port_tun.c), the decrement of that count. *)
Definition mlx5_tun_entropy_refcount_dec (t : Z) (s : state) : state :=
  let s := emit (EvEntropyDec t) s in
  mk_state (<[t := entropy_count s t - 1]> (entropy s)) (neigh_tbl s) (trace s).

(** Modelled from the spec: [mlx5e_rep_neigh_entry_lookup] (neigh.c) is
    not part of this file.  The design document has one neighbour entry
    per key, owned by its encap entries through a reference count: a
    lookup that finds the entry takes a reference. *)
Definition mlx5e_rep_neigh_entry_lookup (k : Z) (s : state) : option Z * state :=
  let s := emit (EvNeighLookup k) s in
  match neigh_tbl s !! k with
  | Some n =>
      (Some k, mk_state (entropy s)
                 (<[k := mk_nhe (encap_list n) (refcnt n + 1)]> (neigh_tbl s))
                 (trace s))
  | None => (None, s)
  end.

(** Modelled from the spec: [mlx5e_rep_neigh_entry_create] (neigh.c).
    The entry is created on the first attach for its key, holding one
    reference; creation may fail, and then the table is as it was. *)
Definition mlx5e_rep_neigh_entry_create (k : Z) (dev : net_device) (s : state)
    : Z * state :=
  let err := neigh_create_err E (trace s) k dev in
  let s := emit (EvNeighCreate k dev) s in
  if err =? 0 then
    (0, mk_state (entropy s) (<[k := mk_nhe [] 1]> (neigh_tbl s)) (trace s))
  else (err, s).

(** Modelled from the spec: [mlx5e_rep_neigh_entry_release] (neigh.c).
    A release drops one reference and destroys the entry at zero. *)
Definition mlx5e_rep_neigh_entry_release (k : Z) (s : state) : state :=
  let s := emit (EvNeighRelease k) s in
  match neigh_tbl s !! k with
  | Some n =>
      if refcnt n - 1 =? 0 then
        mk_state (entropy s) (delete k (neigh_tbl s)) (trace s)
      else
        mk_state (entropy s)
          (<[k := mk_nhe (encap_list n) (refcnt n - 1)]> (neigh_tbl s))
          (trace s)
  | None => s
  end.

(** [list_add_rcu(&e->encap_list, &nhe->encap_list)] *)
Definition encap_list_add (id k : Z) (s : state) : state :=
  mk_state (entropy s)
    (alter (λ n, mk_nhe (id :: encap_list n) (refcnt n)) k (neigh_tbl s))
    (trace s).

(** [list_del_rcu(&e->encap_list)] *)
Definition encap_list_del (id k : Z) (s : state) : state :=
  mk_state (entropy s)
    (alter (λ n, mk_nhe (filter (λ x, x ≠ id) (encap_list n)) (refcnt n)) k
       (neigh_tbl s))
    (trace s).

(** The tail of attach, from [e->nhe = nhe] on. *)
Definition attach_link (e : mlx5e_encap_entry) (k : Z) (s : state)
    : Z * mlx5e_encap_entry * state :=
  let e := set_nhe (Some k) e in
  let s := emit (EvLock (encap_list_lock k)) s in
  let s := encap_list_add (encap_id e) k s in
  let s := emit (EvUnlock (encap_list_lock k)) s in
  let s := emit (EvUnlock encap_lock) s in
  (0, e, s).

(** Returns the error code and the entry [*e] as attach leaves it. *)
Definition mlx5e_rep_encap_entry_attach (e : mlx5e_encap_entry)
    (m_neigh : Z) (neigh_dev : net_device) (s : state)
    : Z * mlx5e_encap_entry * state :=
  let '(err, s) := mlx5_tun_entropy_refcount_inc (reformat_type e) s in
  if negb (err =? 0) then (err, e, s)
  else
    let s := emit (EvLock encap_lock) s in
    let '(found, s) := mlx5e_rep_neigh_entry_lookup m_neigh s in
    match found with
    | None =>
        let '(err, s) := mlx5e_rep_neigh_entry_create m_neigh neigh_dev s in
        if negb (err =? 0) then
          let s := emit (EvUnlock encap_lock) s in
          let s := mlx5_tun_entropy_refcount_dec (reformat_type e) s in
          (err, e, s)
        else attach_link e m_neigh s
    | Some k => attach_link e k s
    end.

Definition mlx5e_rep_encap_entry_detach (e : mlx5e_encap_entry) (s : state)
    : mlx5e_encap_entry * state :=
  match nhe e with
  | None => (e, s)
  | Some k =>
      let s := emit (EvLock (encap_list_lock k)) s in
      let s := encap_list_del (encap_id e) k s in
      let s := emit (EvUnlock (encap_list_lock k)) s in
      let s := mlx5e_rep_neigh_entry_release k s in
      let e := set_nhe None e in
      let s := mlx5_tun_entropy_refcount_dec (reformat_type e) s in
      (e, s)
  end.

Definition encap_valid (e : mlx5e_encap_entry) : bool :=
  negb (Z.land (flags e) (MLX5_ENCAP_ENTRY_VALID E) =? 0).

(** Returns the entry [*e] as the update leaves it.  [flow_list] is the
    local list head: empty until the snapshot is taken. *)
Definition mlx5e_rep_update_flows (e : mlx5e_encap_entry)
    (neigh_connected : bool) (ha : mac) (s : state)
    : mlx5e_encap_entry * state :=
  let flow_list : list flow := [] in
  let s := emit EvAssertRtnl s in
  let s := emit (EvLock encap_tbl_lock) s in
  let encap_connected := encap_valid e in
  let '(e, flow_list, s) :=
    if Bool.eqb encap_connected neigh_connected
       && ether_addr_equal (h_dest e) ha
    then (e, flow_list, s)
    else
      let flow_list := take_all_encap_flows E (trace s) e in
      let s := emit (EvTakeAllEncapFlows e) s in
      let '(e, flow_list, s) :=
        if encap_valid e
           && (negb neigh_connected || negb (ether_addr_equal (h_dest e) ha))
        then (encap_flows_del E (trace s) e flow_list,
              emit (EvEncapFlowsDel e flow_list) s)
        else (e, flow_list, s) in
      let '(e, flow_list, s) :=
        if neigh_connected && negb (encap_valid e) then
          let e := set_h_dest ha e in
          let e := set_encap_header
                     (ether_addr_copy_at 0 ha (encap_header e)) e in
          let route_dev := dev_get_by_index E (trace s) (route_dev_ifindex e) in
          let s := emit (EvDevGetByIndex (route_dev_ifindex e)) s in
          let e :=
            match route_dev with
            | Some dev_addr =>
                set_encap_header
                  (ether_addr_copy_at ETH_ALEN dev_addr (encap_header e)) e
            | None => e
            end in
          (encap_flows_add E (trace s) e flow_list,
           emit (EvEncapFlowsAdd e flow_list) s)
        else (e, flow_list, s) in
      (e, flow_list, s) in
  let s := emit (EvUnlock encap_tbl_lock) s in
  let s := emit (EvPutFlowList flow_list) s in
  (e, s).

(** The hardware is touched by the teardown and reinstall calls only. *)
Definition hw_event (ev : event) : bool :=
  match ev with
  | EvEncapFlowsDel _ _ | EvEncapFlowsAdd _ _ => true
  | _ => false
  end.

(** The premises of the rollback: the increment is granted, no entry
    exists for the key, and the creation that follows reports an error. *)
Definition inc_succeeds (e : mlx5e_encap_entry) (s : state) : Prop :=
  entropy_inc_err E (trace s) (reformat_type e) = 0.

Definition create_fails (e : mlx5e_encap_entry) (k : Z) (dev : net_device)
    (s : state) (err : Z) : Prop :=
  neigh_tbl s !! k = None
  ∧ err ≠ 0
  ∧ neigh_create_err E
      (EvNeighLookup k :: EvLock encap_lock
       :: EvEntropyInc (reformat_type e) :: trace s) k dev = err.

Lemma entropy_count_inc_dec (m : gmap Z Z) t t' :
  default 0 (<[t := default 0 (<[t := default 0 (m !! t) + 1]> m !! t) - 1]>
               (<[t := default 0 (m !! t) + 1]> m) !! t')
  = default 0 (m !! t').
Proof.
  destruct (decide (t = t')) as [->|Hne].
  - rewrite !lookup_insert_eq. simpl. lia.
  - by rewrite !lookup_insert_ne.
Qed.

(** C2.  When the entropy reference is granted and the neighbour entry
    has to be created and its creation fails, attach gives the reference
    back ([EvEntropyDec] is the last call it makes, after the increment
    and the failed creation) and returns the creation's error; every
    entropy count is what it was, the neighbour table is what it was, and
    the entry is returned as it came: no back-reference, no list
    membership. *)
Theorem attach_create_failure_rolls_back e k dev s err :
  inc_succeeds e s →
  create_fails e k dev s err →
  ∃ s',
    mlx5e_rep_encap_entry_attach e k dev s = (err, e, s')
    ∧ (∀ t, entropy_count s' t = entropy_count s t)
    ∧ neigh_tbl s' = neigh_tbl s
    ∧ trace s'
      = EvEntropyDec (reformat_type e) :: EvUnlock encap_lock
        :: EvNeighCreate k dev :: EvNeighLookup k :: EvLock encap_lock
        :: EvEntropyInc (reformat_type e) :: trace s.
Proof.
  intros Hinc (Hnone & Hne & Hcreate).
  unfold inc_succeeds in Hinc.
  unfold mlx5e_rep_encap_entry_attach, mlx5_tun_entropy_refcount_inc.
  rewrite Hinc. simpl.
  unfold mlx5e_rep_neigh_entry_lookup. simpl. rewrite Hnone.
  unfold mlx5e_rep_neigh_entry_create. simpl. rewrite Hcreate.
  assert (Hz : (err =? 0) = false) by (by apply Z.eqb_neq).
  rewrite Hz. simpl. rewrite Hz. cbn [negb].
  eexists. split; [reflexivity|]. simpl. split; [|done].
  intros t. unfold entropy_count. simpl. apply entropy_count_inc_dec.
Qed.

(** C6.  Called with the entry's own validity and destination address,
    [mlx5e_rep_update_flows] returns the entry unchanged (header bytes
    included), snapshots no flows, makes no teardown and no reinstall
    call, and releases an empty flow list; a second identical call does
    the same. *)
Theorem update_flows_same_state_is_noop e connected ha s :
  connected = encap_valid e →
  ether_addr_equal (h_dest e) ha = true →
  ∃ s',
    mlx5e_rep_update_flows e connected ha s = (e, s')
    ∧ encap_header (mlx5e_rep_update_flows e connected ha s).1
      = encap_header e
    ∧ trace s'
      = EvPutFlowList [] :: EvUnlock encap_tbl_lock
        :: EvLock encap_tbl_lock :: EvAssertRtnl :: trace s
    ∧ filter (λ ev, hw_event ev = true) (trace s')
      = filter (λ ev, hw_event ev = true) (trace s)
    ∧ (mlx5e_rep_update_flows e connected ha s').1 = e.
Proof.
  intros -> Hmac.
  assert (Hrun : ∀ s0, mlx5e_rep_update_flows e (encap_valid e) ha s0
    = (e, emit (EvPutFlowList []) (emit (EvUnlock encap_tbl_lock)
           (emit (EvLock encap_tbl_lock) (emit EvAssertRtnl s0))))).
  { intros s0. unfold mlx5e_rep_update_flows.
    rewrite Hmac. by destruct (encap_valid e). }
  eexists. split; [apply Hrun|]. rewrite !Hrun. simpl.
  repeat split; try done.
Qed.

End WithEnv.

(** ** A concrete environment, for closed examples *)

(** The valid bit is bit 0; the entropy reference is always granted;
    neighbour creation fails with [-ENOMEM] for key [13] and succeeds
    otherwise. *)
Definition env0 : env :=
  mk_env 1 (λ _ _, 0) (λ _ k _, if k =? 13 then - ENOMEM else 0)
    (λ _ _, [100; 101])
    (λ _ e fl, (mk_encap (encap_id e) (reformat_type e) (nhe e)
                  (Z.land (flags e) (Z.lnot 1)) (h_dest e) (encap_header e)
                  (route_dev_ifindex e), fl))
    (λ _ e fl, (mk_encap (encap_id e) (reformat_type e) (nhe e)
                  (Z.lor (flags e) 1) (h_dest e) (encap_header e)
                  (route_dev_ifindex e), fl))
    (λ _ _, Some [2; 0; 0; 0; 0; 1]).

Definition encap0 : mlx5e_encap_entry :=
  mk_encap 1 0 None 1 [170; 187; 204; 221; 238; 255]
    [170; 187; 204; 221; 238; 255; 2; 0; 0; 0; 0; 1; 8; 0] 4.

Definition state0 : state := mk_state ∅ ∅ [].

Lemma attach_create_failure_rolls_back_witness :
  ∃ s',
    mlx5e_rep_encap_entry_attach env0 encap0 13 4 state0
    = (- ENOMEM, encap0, s')
    ∧ (∀ t, entropy_count s' t = entropy_count state0 t)
    ∧ neigh_tbl s' = neigh_tbl state0
    ∧ trace s'
      = EvEntropyDec 0 :: EvUnlock encap_lock :: EvNeighCreate 13 4
        :: EvNeighLookup 13 :: EvLock encap_lock :: EvEntropyInc 0 :: [].
Proof.
  apply (attach_create_failure_rolls_back env0 encap0 13 4 state0 (- ENOMEM)).
  - reflexivity.
  - split; [reflexivity|]. split; [discriminate|reflexivity].
Defined.

Lemma update_flows_same_state_is_noop_witness :
  ∃ s',
    mlx5e_rep_update_flows env0 encap0 true
      [170; 187; 204; 221; 238; 255] state0 = (encap0, s')
    ∧ encap_header
        (mlx5e_rep_update_flows env0 encap0 true
           [170; 187; 204; 221; 238; 255] state0).1
      = encap_header encap0
    ∧ trace s'
      = EvPutFlowList [] :: EvUnlock encap_tbl_lock
        :: EvLock encap_tbl_lock :: EvAssertRtnl :: []
    ∧ filter (λ ev, hw_event ev = true) (trace s')
      = filter (λ ev, hw_event ev = true) (trace state0)
    ∧ (mlx5e_rep_update_flows env0 encap0 true
         [170; 187; 204; 221; 238; 255] s').1 = encap0.
Proof.
  apply (update_flows_same_state_is_noop env0 encap0 true
           [170; 187; 204; 221; 238; 255] state0); reflexivity.
Defined.

(** A reachable neighbour that becomes unreachable: the flows are
    snapshotted and torn down, nothing is reinstalled. *)
Example update_flows_disconnect :
  trace (mlx5e_rep_update_flows env0 encap0 false
           [170; 187; 204; 221; 238; 255] state0).2
  = [EvPutFlowList [100; 101]; EvUnlock encap_tbl_lock;
     EvEncapFlowsDel encap0 [100; 101]; EvTakeAllEncapFlows encap0;
     EvLock encap_tbl_lock; EvAssertRtnl].
Proof. reflexivity. Qed.

(** ** Attach and detach: success, round trip, reference counts *)

Section AttachDetach.

Context (E : env).

Lemma filter_ne_notin (id : Z) (l : list Z) :
  id ∉ l → filter (λ x, x ≠ id) l = l.
Proof.
  induction l as [|x l IH]; [done|]. intros Hnin.
  apply not_elem_of_cons in Hnin as [Hne Hnin].
  rewrite filter_cons_True by done. by rewrite IH.
Qed.

Lemma filter_ne_once (id : Z) (l : list Z) :
  NoDup l → id ∈ l →
  S (length (filter (λ x, x ≠ id) l)) = length l.
Proof.
  induction 1 as [|x l Hx Hnd IH]; [by intros ?%elem_of_nil|].
  intros [->|Hin]%elem_of_cons.
  - rewrite filter_cons_False by (intros ?; done).
    by rewrite filter_ne_notin.
  - rewrite filter_cons_True by (intros ->; done). simpl. by rewrite IH.
Qed.

(** X5.  When the entropy reference is refused, attach returns that
    error at once: no lock is taken, the neighbour table is not
    consulted, and entry, counts and table are as they were. *)
Theorem attach_entropy_refused e k dev s err :
  entropy_inc_err E (trace s) (reformat_type e) = err →
  err ≠ 0 →
  mlx5e_rep_encap_entry_attach E e k dev s
  = (err, e, emit (EvEntropyInc (reformat_type e)) s).
Proof.
  intros Herr Hne. unfold mlx5e_rep_encap_entry_attach,
    mlx5_tun_entropy_refcount_inc.
  rewrite Herr. assert (Hz : (err =? 0) = false) by (by apply Z.eqb_neq).
  rewrite Hz. simpl. by rewrite Hz.
Qed.

(** The neighbour entry attach leaves for key [k]. *)
Definition attached_nhe (e : mlx5e_encap_entry) (k : Z) (s : state)
    : mlx5e_neigh_hash_entry :=
  match neigh_tbl s !! k with
  | Some n => mk_nhe (encap_id e :: encap_list n) (refcnt n + 1)
  | None => mk_nhe [encap_id e] 1
  end.

Lemma attach_link_spec e k s :
  attach_link e k s
  = (0, set_nhe (Some k) e,
     mk_state (entropy s)
       (alter (λ n, mk_nhe (encap_id e :: encap_list n) (refcnt n)) k
          (neigh_tbl s))
       (EvUnlock encap_lock :: EvUnlock (encap_list_lock k)
        :: EvLock (encap_list_lock k) :: trace s)).
Proof. done. Qed.

(** What a successful attach leaves behind. *)
Lemma attach_success_state e k dev s e' s' :
  mlx5e_rep_encap_entry_attach E e k dev s = (0, e', s') →
  e' = set_nhe (Some k) e
  ∧ (∀ t, entropy_count s' t
          = entropy_count s t + (if decide (t = reformat_type e) then 1 else 0))
  ∧ neigh_tbl s' !! k = Some (attached_nhe e k s)
  ∧ (∀ k', k' ≠ k → neigh_tbl s' !! k' = neigh_tbl s !! k').
Proof.
  unfold mlx5e_rep_encap_entry_attach, mlx5_tun_entropy_refcount_inc,
    attached_nhe.
  destruct (Z.eqb_spec (entropy_inc_err E (trace s) (reformat_type e)) 0)
    as [Hinc|Hinc]; simpl.
  2:{ destruct (Z.eqb_spec (entropy_inc_err E (trace s) (reformat_type e)) 0);
        [done|]. simpl. by intros [= ? _ _]. }
  unfold mlx5e_rep_neigh_entry_lookup. simpl.
  assert (Hcount : ∀ t,
    default 0 (<[reformat_type e := default 0 (entropy s !! reformat_type e) + 1]>
                 (entropy s) !! t)
    = default 0 (entropy s !! t)
      + (if decide (t = reformat_type e) then 1 else 0)).
  { intros t. case_decide as Ht.
    - subst t. by rewrite lookup_insert_eq.
    - rewrite lookup_insert_ne by done. lia. }
  destruct (neigh_tbl s !! k) as [n0|] eqn:Hk.
  - rewrite attach_link_spec. intros [= <- <-]. simpl.
    split; [done|]. split; [exact Hcount|]. split.
    + by rewrite lookup_alter_eq, lookup_insert_eq.
    + intros k' Hne. by rewrite lookup_alter_ne, lookup_insert_ne.
  - unfold mlx5e_rep_neigh_entry_create. simpl.
    destruct (Z.eqb_spec (neigh_create_err E
      (EvNeighLookup k :: EvLock encap_lock
       :: EvEntropyInc (reformat_type e) :: trace s) k dev) 0) as [Hc|Hc];
      simpl.
    + rewrite attach_link_spec. intros [= <- <-]. simpl.
      split; [done|]. split; [exact Hcount|]. split.
      * by rewrite lookup_alter_eq, lookup_insert_eq.
      * intros k' Hne. by rewrite lookup_alter_ne, lookup_insert_ne.
    + destruct (Z.eqb_spec (neigh_create_err E
        (EvNeighLookup k :: EvLock encap_lock
         :: EvEntropyInc (reformat_type e) :: trace s) k dev) 0); [done|].
      simpl. by intros [= ? _ _].
Qed.

(** X6.  An attach that returns 0 has taken one entropy reference of
    the entry's reformat type and none of any other, has set the entry's
    back-reference to the neighbour key, and has left a neighbour entry
    for that key with the entry first in its list: the found entry with
    one more reference, or a new one with a single reference.  No other
    neighbour entry changes. *)
Theorem attach_success e k dev s e' s' :
  mlx5e_rep_encap_entry_attach E e k dev s = (0, e', s') →
  e' = set_nhe (Some k) e
  ∧ (∀ t, entropy_count s' t
          = entropy_count s t + (if decide (t = reformat_type e) then 1 else 0))
  ∧ neigh_tbl s' !! k = Some (attached_nhe e k s)
  ∧ (∀ k', k' ≠ k → neigh_tbl s' !! k' = neigh_tbl s !! k').
Proof. apply attach_success_state. Qed.

End AttachDetach.

Section RoundTrip.

Context (E : env).

Lemma nhe_eta n : mk_nhe (encap_list n) (refcnt n) = n.
Proof. by destruct n. Qed.

(** A failed attach leaves the neighbour table as it was. *)
Lemma attach_failure_table e k dev s :
  (mlx5e_rep_encap_entry_attach E e k dev s).1.1 ≠ 0 →
  neigh_tbl (mlx5e_rep_encap_entry_attach E e k dev s).2 = neigh_tbl s.
Proof.
  unfold mlx5e_rep_encap_entry_attach, mlx5_tun_entropy_refcount_inc.
  destruct (Z.eqb_spec (entropy_inc_err E (trace s) (reformat_type e)) 0)
    as [Hinc|Hinc]; simpl.
  2:{ by destruct (Z.eqb_spec
           (entropy_inc_err E (trace s) (reformat_type e)) 0). }
  unfold mlx5e_rep_neigh_entry_lookup. simpl.
  destruct (neigh_tbl s !! k) as [n0|] eqn:Hk; [intros H; by destruct H|].
  unfold mlx5e_rep_neigh_entry_create. simpl.
  destruct (Z.eqb_spec (neigh_create_err E
    (EvNeighLookup k :: EvLock encap_lock
     :: EvEntropyInc (reformat_type e) :: trace s) k dev) 0) as [Hc|Hc]; simpl.
  - intros H; by destruct H.
  - by destruct (Z.eqb_spec (neigh_create_err E
      (EvNeighLookup k :: EvLock encap_lock
       :: EvEntropyInc (reformat_type e) :: trace s) k dev) 0).
Qed.

(** The neighbour table after a detach. *)
Lemma detach_table e k s :
  nhe e = Some k →
  let t1 := alter (λ n, mk_nhe (filter (λ x, x ≠ encap_id e) (encap_list n))
                          (refcnt n)) k (neigh_tbl s) in
  neigh_tbl (mlx5e_rep_encap_entry_detach e s).2
  = match t1 !! k with
    | Some n => if refcnt n - 1 =? 0 then delete k t1
                else <[k := mk_nhe (encap_list n) (refcnt n - 1)]> t1
    | None => t1
    end.
Proof.
  intros Hk. unfold mlx5e_rep_encap_entry_detach. rewrite Hk. simpl.
  unfold mlx5e_rep_neigh_entry_release. simpl.
  destruct (alter _ k (neigh_tbl s) !! k) as [n|]; [|done].
  by destruct (refcnt n - 1 =? 0).
Qed.

Lemma detach_entropy e k s t :
  nhe e = Some k →
  entropy_count (mlx5e_rep_encap_entry_detach e s).2 t
  = entropy_count s t - (if decide (t = reformat_type e) then 1 else 0).
Proof.
  intros Hk. unfold mlx5e_rep_encap_entry_detach. rewrite Hk. simpl.
  unfold mlx5e_rep_neigh_entry_release. simpl.
  assert (Hc : default 0
    (<[reformat_type e := default 0 (entropy s !! reformat_type e) - 1]>
       (entropy s) !! t)
    = default 0 (entropy s !! t)
      - (if decide (t = reformat_type e) then 1 else 0)).
  { case_decide as Ht.
    - subst t. by rewrite lookup_insert_eq.
    - rewrite lookup_insert_ne by done. lia. }
  unfold entropy_count.
  destruct (alter _ k (neigh_tbl s) !! k) as [n|]; [|exact Hc].
  destruct (refcnt n - 1 =? 0); exact Hc.
Qed.

(** X7.  Attach and detach are inverse.  After an attach that returned
    0, on a neighbour entry that (if it existed) was referenced and did
    not list the encap entry yet, detaching the entry gives back the
    entropy counts and the neighbour table as they were before the
    attach, a neighbour entry created by the attach being destroyed
    again, and clears the entry's back-reference. *)
Theorem attach_detach_round_trip e k dev s e' s' :
  mlx5e_rep_encap_entry_attach E e k dev s = (0, e', s') →
  (∀ n, neigh_tbl s !! k = Some n →
        refcnt n ≠ 0 ∧ encap_id e ∉ encap_list n) →
  let r := mlx5e_rep_encap_entry_detach e' s' in
  r.1 = set_nhe None e
  ∧ (∀ t, entropy_count r.2 t = entropy_count s t)
  ∧ neigh_tbl r.2 = neigh_tbl s.
Proof.
  intros Hatt Hfresh r.
  destruct (attach_success_state E e k dev s e' s' Hatt)
    as (-> & Hcnt & Hk & Hother).
  subst r. split; [done|]. split.
  - intros t. rewrite (detach_entropy _ k) by done. rewrite Hcnt. simpl.
    case_decide; lia.
  - rewrite (detach_table _ k) by done. cbv zeta.
    rewrite lookup_alter_eq, Hk.
    apply map_eq. intros i. unfold attached_nhe.
    destruct (neigh_tbl s !! k) as [n0|] eqn:Hsk;
      cbn [fmap option_fmap option_map refcnt encap_list].
    + destruct (Hfresh n0 eq_refl) as [Hrc Hnin].
      destruct (Z.eqb_spec (refcnt n0 + 1 - 1) 0); [lia|].
      rewrite filter_cons_False by (intros ?; done).
      rewrite filter_ne_notin by done.
      replace (refcnt n0 + 1 - 1) with (refcnt n0) by lia.
      rewrite nhe_eta.
      destruct (decide (i = k)) as [->|Hik].
      * by rewrite lookup_insert_eq.
      * rewrite lookup_insert_ne, lookup_alter_ne by done. by apply Hother.
    + change (1 - 1 =? 0) with true. cbv iota.
      destruct (decide (i = k)) as [->|Hik].
      * by rewrite lookup_delete_eq.
      * rewrite lookup_delete_ne, lookup_alter_ne by done. by apply Hother.
Qed.

(** Every neighbour entry holds as many references as encap entries, at
    least one, and lists no entry twice. *)
Definition refcounts_exact (s : state) : Prop :=
  ∀ k n, neigh_tbl s !! k = Some n →
    refcnt n = Z.of_nat (length (encap_list n))
    ∧ encap_list n ≠ [] ∧ NoDup (encap_list n).

(** X8.  The reference counts stay exact.  If every neighbour entry
    counts exactly the encap entries in its list, then so it is after any
    attach, failed or not, of an entry its neighbour does not list yet,
    and after any detach of an entry its neighbour lists; an entry whose
    last member is detached is destroyed, so no entry is left with a
    count of zero. *)
Theorem attach_detach_keep_refcounts e k dev s :
  refcounts_exact s →
  ((∀ n, neigh_tbl s !! k = Some n → encap_id e ∉ encap_list n) →
   refcounts_exact (mlx5e_rep_encap_entry_attach E e k dev s).2)
  ∧ ((∀ j n, nhe e = Some j → neigh_tbl s !! j = Some n →
             encap_id e ∈ encap_list n) →
     refcounts_exact (mlx5e_rep_encap_entry_detach e s).2).
Proof.
  intros Hinv. split.
  - intros Hfresh.
    destruct (mlx5e_rep_encap_entry_attach E e k dev s) as [[err e'] s']
      eqn:Hatt.
    destruct (decide (err = 0)) as [->|Herr].
    + destruct (attach_success_state E e k dev s e' s' Hatt)
        as (_ & _ & Hk & Hother).
      intros j n Hj. simpl in Hj. destruct (decide (j = k)) as [->|Hjk].
      * rewrite Hk in Hj. injection Hj as <-. unfold attached_nhe.
        destruct (neigh_tbl s !! k) as [n0|] eqn:Hsk; simpl.
        -- destruct (Hinv k n0 Hsk) as (Hrc & _ & Hnd).
           split; [lia|]. split; [done|].
           apply NoDup_cons. split; [by apply Hfresh|done].
        -- split; [done|]. split; [done|]. apply NoDup_singleton.
      * rewrite Hother in Hj by done. by apply (Hinv j).
    + pose proof (attach_failure_table e k dev s) as Ht.
      rewrite Hatt in Ht. simpl in Ht. intros j n Hj. simpl in Hj.
      rewrite Ht in Hj by done. by apply (Hinv j).
  - intros Hlisted. destruct (nhe e) as [k0|] eqn:Hnhe.
    2:{ unfold mlx5e_rep_encap_entry_detach. rewrite Hnhe. exact Hinv. }
    intros j n. rewrite (detach_table _ k0) by done. cbv zeta.
    rewrite lookup_alter_eq.
    destruct (neigh_tbl s !! k0) as [n0|] eqn:Hsk;
      cbn [fmap option_fmap option_map refcnt encap_list].
    2:{ destruct (decide (j = k0)) as [->|Hjk].
        - by rewrite lookup_alter_eq, Hsk.
        - rewrite lookup_alter_ne by done. apply Hinv. }
    destruct (Hinv k0 n0 Hsk) as (Hrc & Hne & Hnd).
    pose proof (filter_ne_once (encap_id e) (encap_list n0) Hnd
                  (Hlisted k0 n0 eq_refl Hsk)) as Hlen.
    destruct (Z.eqb_spec (refcnt n0 - 1) 0) as [Hz|Hz].
    + destruct (decide (j = k0)) as [->|Hjk].
      * by rewrite lookup_delete_eq.
      * rewrite lookup_delete_ne, lookup_alter_ne by done. apply Hinv.
    + destruct (decide (j = k0)) as [->|Hjk].
      * rewrite lookup_insert_eq. intros [= <-]. simpl.
        split; [lia|]. split.
        -- intros Hnil. rewrite Hnil in Hlen. simpl in Hlen. lia.
        -- by apply NoDup_filter.
      * rewrite lookup_insert_ne, lookup_alter_ne by done. apply Hinv.
Qed.

End RoundTrip.

(** ** Flow update: what every run does and what it never does *)

Section UpdateFlows.

Context (E : env).


Definition teardown_event (ev : event) : bool :=
  match ev with EvEncapFlowsDel _ _ => true | _ => false end.

Definition reinstall_event (ev : event) : bool :=
  match ev with EvEncapFlowsAdd _ _ => true | _ => false end.





(** X10.  What a run never does.  A request for an unreachable
    neighbour never reinstalls flows; a run on an entry that is not
    valid never tears flows down; and an unreachable neighbour on an
    entry that is not valid leaves the entry as it was, whatever the
    address. *)
Theorem update_flows_never e connected ha s :
  let r := mlx5e_rep_update_flows E e connected ha s in
  (connected = false →
     List.filter reinstall_event (trace r.2)
     = List.filter reinstall_event (trace s))
  ∧ (encap_valid E e = false →
     List.filter teardown_event (trace r.2)
     = List.filter teardown_event (trace s))
  ∧ (connected = false → encap_valid E e = false → r.1 = e).
Proof.
  unfold mlx5e_rep_update_flows. split; [|split].
  - intros ->.
    destruct (Bool.eqb (encap_valid E e) false
              && ether_addr_equal (h_dest e) ha); [done|]. simpl.
    destruct (encap_valid E e && _); [|done].
    by destruct (encap_flows_del E _ _ _) as [e1 fl1].
  - intros Hv. rewrite Hv.
    destruct (Bool.eqb false connected && ether_addr_equal (h_dest e) ha);
      [done|]. simpl.
    destruct connected; simpl; [|done].
    rewrite Hv. simpl.
    by destruct (encap_flows_add E _ _ _) as [e2 fl2].
  - intros -> Hv. rewrite Hv. simpl.
    by destruct (ether_addr_equal (h_dest e) ha).
Qed.

End UpdateFlows.

Section Reinstall.

Context (E : env).

Lemma copy_at_0 (src buf : list Z) :
  ether_addr_copy_at 0 src buf = take ETH_ALEN src ++ drop ETH_ALEN buf.
Proof. done. Qed.

Lemma copy_at_length off (src buf : list Z) :
  (ETH_ALEN ≤ length src)%nat → (off + ETH_ALEN ≤ length buf)%nat →
  length (ether_addr_copy_at off src buf) = length buf.
Proof.
  intros Hs Hb. unfold ether_addr_copy_at.
  rewrite !length_app, !length_take, length_drop. lia.
Qed.

Lemma copy_at_0_dest (src buf : list Z) :
  (ETH_ALEN ≤ length src)%nat →
  take ETH_ALEN (ether_addr_copy_at 0 src buf) = take ETH_ALEN src
  ∧ drop ETH_ALEN (ether_addr_copy_at 0 src buf) = drop ETH_ALEN buf.
Proof.
  intros Hs. rewrite copy_at_0.
  assert (Hl : length (take ETH_ALEN src) = ETH_ALEN)
    by (rewrite length_take; lia).
  split.
  - rewrite take_app_le by lia. rewrite take_ge by lia. done.
  - rewrite drop_app_ge by lia. rewrite Hl, Nat.sub_diag. done.
Qed.

Lemma copy_at_6_source (src buf : list Z) :
  (ETH_ALEN ≤ length src)%nat → (ETH_ALEN + ETH_ALEN ≤ length buf)%nat →
  take ETH_ALEN (ether_addr_copy_at ETH_ALEN src buf) = take ETH_ALEN buf
  ∧ take ETH_ALEN (drop ETH_ALEN (ether_addr_copy_at ETH_ALEN src buf))
    = take ETH_ALEN src
  ∧ drop (ETH_ALEN + ETH_ALEN) (ether_addr_copy_at ETH_ALEN src buf)
    = drop (ETH_ALEN + ETH_ALEN) buf.
Proof.
  intros Hs Hb. unfold ether_addr_copy_at.
  assert (Hl : length (take ETH_ALEN buf) = ETH_ALEN)
    by (rewrite length_take; lia).
  assert (Hl' : length (take ETH_ALEN src) = ETH_ALEN)
    by (rewrite length_take; lia).
  split; [|split].
  - rewrite take_app_le by lia. by rewrite take_ge by lia.
  - rewrite drop_app_ge by lia. rewrite Hl, Nat.sub_diag, drop_0.
    rewrite take_app_le by lia. by rewrite take_ge by lia.
  - rewrite drop_app_ge by lia. rewrite Hl.
    replace (ETH_ALEN + ETH_ALEN - ETH_ALEN)%nat with ETH_ALEN by lia.
    rewrite drop_app_ge by lia. rewrite Hl', Nat.sub_diag. done.
Qed.

(** The entry [mlx5e_rep_update_flows] hands to the reinstall: the new
    destination address in [h_dest] and in the header, and the route
    device's address, if that device exists, as the header's source. *)
Definition reinstall_entry (e : mlx5e_encap_entry) (ha : mac)
    (route : option mac) : mlx5e_encap_entry :=
  let e := set_h_dest ha e in
  let e := set_encap_header (ether_addr_copy_at 0 ha (encap_header e)) e in
  match route with
  | Some dev_addr =>
      set_encap_header (ether_addr_copy_at ETH_ALEN dev_addr (encap_header e)) e
  | None => e
  end.

(** X11.  A reachable neighbour on an entry that is not valid: the flows
    are snapshotted, nothing is torn down, the route device is looked
    up, and the flows are reinstalled on an entry whose destination
    address is the new one, in [h_dest] and in the first six bytes of the
    encapsulation header, whose next six bytes are the route device's
    address when that device exists and are untouched when it does not,
    and whose remaining header bytes and length are as before. *)
Theorem update_flows_reinstall_header e ha s :
  encap_valid E e = false →
  (ETH_ALEN ≤ length ha)%nat →
  (ETH_ALEN + ETH_ALEN ≤ length (encap_header e))%nat →
  (∀ tr i a, dev_get_by_index E tr i = Some a → (ETH_ALEN ≤ length a)%nat) →
  let tr1 := EvLock encap_tbl_lock :: EvAssertRtnl :: trace s in
  let fl := take_all_encap_flows E tr1 e in
  let tr2 := EvTakeAllEncapFlows e :: tr1 in
  let route := dev_get_by_index E tr2 (route_dev_ifindex e) in
  let tr3 := EvDevGetByIndex (route_dev_ifindex e) :: tr2 in
  let e1 := reinstall_entry e ha route in
  let r := mlx5e_rep_update_flows E e true ha s in
  r.1 = (encap_flows_add E tr3 e1 fl).1
  ∧ trace r.2
    = EvPutFlowList (encap_flows_add E tr3 e1 fl).2
      :: EvUnlock encap_tbl_lock :: EvEncapFlowsAdd e1 fl :: tr3
  ∧ h_dest e1 = take ETH_ALEN ha
  ∧ take ETH_ALEN (encap_header e1) = take ETH_ALEN ha
  ∧ take ETH_ALEN (drop ETH_ALEN (encap_header e1))
    = match route with
      | Some a => take ETH_ALEN a
      | None => take ETH_ALEN (drop ETH_ALEN (encap_header e))
      end
  ∧ drop (ETH_ALEN + ETH_ALEN) (encap_header e1)
    = drop (ETH_ALEN + ETH_ALEN) (encap_header e)
  ∧ length (encap_header e1) = length (encap_header e).
Proof.
  intros Hv Hha Hh Hroute tr1 fl tr2 route tr3 e1 r.
  assert (Hrun : r = ((encap_flows_add E tr3 e1 fl).1,
    emit (EvPutFlowList (encap_flows_add E tr3 e1 fl).2)
      (emit (EvUnlock encap_tbl_lock)
         (emit (EvEncapFlowsAdd e1 fl)
            (emit (EvDevGetByIndex (route_dev_ifindex e))
               (emit (EvTakeAllEncapFlows e)
                  (emit (EvLock encap_tbl_lock) (emit EvAssertRtnl s)))))))).
  { subst r e1 route tr3 tr2 fl tr1.
    unfold mlx5e_rep_update_flows, reinstall_entry. rewrite Hv.
    cbn [Bool.eqb andb negb orb]. cbv zeta. rewrite Hv.
    cbn -[ether_addr_copy_at take drop ETH_ALEN].
    destruct (dev_get_by_index E _ _);
      cbn -[ether_addr_copy_at take drop ETH_ALEN];
      by destruct (encap_flows_add E _ _ _). }
  rewrite Hrun. split; [done|]. split; [done|].
  assert (Hh1 : length (ether_addr_copy_at 0 ha (encap_header e))
                = length (encap_header e))
    by (apply copy_at_length; lia).
  destruct (copy_at_0_dest ha (encap_header e) Hha) as [Ht0 Hd0].
  subst e1. unfold reinstall_entry.
  destruct route as [a|] eqn:Hr; cbn [encap_header h_dest set_encap_header
    set_h_dest].
  - pose proof (Hroute _ _ _ Hr) as Ha.
    destruct (copy_at_6_source a (ether_addr_copy_at 0 ha (encap_header e)) Ha)
      as (H1 & H2 & H3); [lia|].
    split; [done|]. split; [by rewrite H1|]. split; [done|]. split.
    + rewrite H3. rewrite <- !drop_drop. by rewrite Hd0.
    + rewrite copy_at_length by lia. done.
  - split; [done|]. split; [done|]. split; [by rewrite Hd0|]. split.
    + rewrite <- !drop_drop. by rewrite Hd0.
    + done.
Qed.

End Reinstall.

(** The environment [env0] with the entropy reference refused. *)
Definition env_refuse : env :=
  mk_env (MLX5_ENCAP_ENTRY_VALID env0) (λ _ _, - EOPNOTSUPP)
    (neigh_create_err env0) (take_all_encap_flows env0)
    (encap_flows_del env0) (encap_flows_add env0) (dev_get_by_index env0).

Lemma attach_entropy_refused_witness :
  mlx5e_rep_encap_entry_attach env_refuse encap0 5 4 state0
  = (- EOPNOTSUPP, encap0, emit (EvEntropyInc 0) state0).
Proof.
  apply (attach_entropy_refused env_refuse encap0 5 4 state0 (- EOPNOTSUPP)).
  - reflexivity.
  - discriminate.
Defined.

(** The first attach for key [5]: a new neighbour entry with one
    reference, listing the entry. *)
Lemma attach_success_witness :
  neigh_tbl (mlx5e_rep_encap_entry_attach env0 encap0 5 4 state0).2 !! 5
  = Some (mk_nhe [1] 1).
Proof.
  apply (attach_success env0 encap0 5 4 state0
           (mlx5e_rep_encap_entry_attach env0 encap0 5 4 state0).1.2
           (mlx5e_rep_encap_entry_attach env0 encap0 5 4 state0).2).
  reflexivity.
Defined.

Lemma attach_detach_round_trip_witness :
  neigh_tbl
    (mlx5e_rep_encap_entry_detach
       (mlx5e_rep_encap_entry_attach env0 encap0 5 4 state0).1.2
       (mlx5e_rep_encap_entry_attach env0 encap0 5 4 state0).2).2
  = neigh_tbl state0.
Proof.
  apply (attach_detach_round_trip env0 encap0 5 4 state0
           (mlx5e_rep_encap_entry_attach env0 encap0 5 4 state0).1.2
           (mlx5e_rep_encap_entry_attach env0 encap0 5 4 state0).2).
  - reflexivity.
  - intros n Hn. vm_compute in Hn. discriminate.
Defined.

Lemma attach_detach_keep_refcounts_witness :
  refcounts_exact (mlx5e_rep_encap_entry_attach env0 encap0 5 4 state0).2.
Proof.
  apply (attach_detach_keep_refcounts env0 encap0 5 4 state0).
  - intros k n Hn. unfold state0 in Hn. simpl in Hn.
    rewrite lookup_empty in Hn. discriminate.
  - intros n Hn. vm_compute in Hn. discriminate.
Defined.

(** An entry that is not valid yet, with an Ethernet header of fourteen
    bytes. *)
Definition encap_invalid : mlx5e_encap_entry :=
  mk_encap 2 0 None 0 [0; 0; 0; 0; 0; 0]
    [0; 0; 0; 0; 0; 0; 9; 9; 9; 9; 9; 9; 8; 0] 4.

Lemma update_flows_reinstall_header_witness :
  take ETH_ALEN
    (encap_header
       (reinstall_entry encap_invalid [170; 187; 204; 221; 238; 255]
          (dev_get_by_index env0
             [EvTakeAllEncapFlows encap_invalid; EvLock encap_tbl_lock;
              EvAssertRtnl] 4)))
  = [170; 187; 204; 221; 238; 255].
Proof.
  apply (update_flows_reinstall_header env0 encap_invalid
           [170; 187; 204; 221; 238; 255] state0).
  - reflexivity.
  - unfold ETH_ALEN. simpl. lia.
  - unfold ETH_ALEN. simpl. lia.
  - intros tr i a [= <-]. unfold ETH_ALEN. simpl. lia.
Defined.

(** The same run, computed: the header gets the new destination and the
    route device's address as source, and keeps its protocol bytes. *)
Example update_flows_reinstall :
  encap_header
    (mlx5e_rep_update_flows env0 encap_invalid true
       [170; 187; 204; 221; 238; 255] state0).1
  = [170; 187; 204; 221; 238; 255; 2; 0; 0; 0; 0; 1; 8; 0].
Proof. reflexivity. Qed.

End Encap.

(** * Indirect block registry and the action-only path *)

Module Indirect.

(** [enum flow_block_binder_type] *)
Inductive flow_block_binder_type :=
| FLOW_BLOCK_BINDER_TYPE_CLSACT_INGRESS
| FLOW_BLOCK_BINDER_TYPE_CLSACT_EGRESS
| FLOW_BLOCK_BINDER_TYPE_OTHER (raw : Z).

Global Instance binder_type_eq_dec : EqDecision flow_block_binder_type.
Proof. solve_decision. Defined.

(** [enum flow_block_command] *)
Inductive flow_block_command :=
| FLOW_BLOCK_BIND
| FLOW_BLOCK_UNBIND
| FLOW_BLOCK_OTHER (raw : Z).

(** The two callbacks this file registers on a foreign device's block. *)
Inductive flow_setup_cb :=
| mlx5e_rep_indr_setup_tc_cb
| mlx5e_rep_indr_setup_ft_cb.

Global Instance flow_setup_cb_eq_dec : EqDecision flow_setup_cb.
Proof. solve_decision. Defined.

(** [struct mlx5e_rep_indr_block_priv], with the address [kmalloc] gave
    it. *)
Record mlx5e_rep_indr_block_priv := mk_indr {
  indr_addr : Z;
  netdev : net_device;
  rpriv : net_device;          (* the owning representor, by its device *)
  binder_type : flow_block_binder_type;
}.

(** [struct flow_block_cb], as far as the registry uses it: its address,
    the callback, the identity it is looked up by, and the private
    pointer its release callback ([mlx5e_rep_indr_block_unbind]) gets. *)
Record flow_block_cb := mk_block_cb {
  cb_addr : Z;
  cb : flow_setup_cb;
  cb_ident : Z;
  cb_priv : Z;
}.

(** [struct flow_block_offload]: [block] is the callback list of the
    block the request is about ([f->block->cb_list]), [cb_list] the
    request's own list. *)
Record flow_block_offload := mk_offload {
  command : flow_block_command;
  f_binder_type : flow_block_binder_type;
  block : list flow_block_cb;
  cb_list : list flow_block_cb;
  unlocked_driver_cb : bool;
  driver_block_list_set : bool;
}.

Inductive event :=
| EvNetdevWarn (dev : net_device)
| EvKmalloc
| EvKfree (addr : Z)
| EvIndrBlockCbAlloc (setup : flow_setup_cb) (ident : Z)
| EvBlockCbAdd (addr : Z)
| EvBlockCbLookup (setup : flow_setup_cb) (ident : Z)
| EvIndrBlockCbRemove (addr : Z).

Definition log := list event.

(** The registry: [rpriv->uplink_priv.tc_indr_block_priv_list], the
    driver's [mlx5e_block_cb_list], the next address the allocator hands
    out, and the log. *)
Record state := mk_state {
  tc_indr_block_priv_list : list mlx5e_rep_indr_block_priv;
  mlx5e_block_cb_list : list flow_block_cb;
  next_addr : Z;
  trace : log;
}.

Definition emit (ev : event) (s : state) : state :=
  mk_state (tc_indr_block_priv_list s) (mlx5e_block_cb_list s) (next_addr s)
           (ev :: trace s).

(** External collaborators: what the kernel knows about a foreign device,
    and whether the two allocations succeed. *)
Record env := mk_env {
  netif_is_ovs_master : net_device → bool;
  (* mlx5e_tc_tun_device_to_offload(priv, netdev), priv by its device *)
  mlx5e_tc_tun_device_to_offload : net_device → net_device → bool;
  is_vlan_dev : net_device → bool;
  vlan_dev_real_dev : net_device → net_device;
  netif_is_macvlan : net_device → bool;
  macvlan_dev_real_dev : net_device → net_device;
  (* ((struct macvlan_dev * ) netdev_priv(dev))->mode *)
  macvlan_mode : net_device → Z;
  MACVLAN_MODE_PASSTHRU : Z;
  (* mlx5e_tc_int_port_supported(esw), esw by the representor's device *)
  mlx5e_tc_int_port_supported : net_device → bool;
  (* kmalloc: true when it returns NULL *)
  kmalloc_fails : log → bool;
  (* flow_indr_block_cb_alloc: 0, or the errno behind its ERR_PTR *)
  indr_block_cb_alloc_err : log → Z;
}.

Section WithEnv.

Context (E : env).

Definition mlx5e_rep_indr_block_priv_lookup
    (l : list mlx5e_rep_indr_block_priv) (dev : net_device)
    (bt : flow_block_binder_type) : option mlx5e_rep_indr_block_priv :=
  find (λ cb_priv, bool_decide (netdev cb_priv = dev)
                   && bool_decide (binder_type cb_priv = bt)) l.

Definition mlx5e_rep_macvlan_mode_supported (dev : net_device) : bool :=
  macvlan_mode E dev =? MACVLAN_MODE_PASSTHRU E.

(** [list_del(&indr_priv->list)]: the node at that address leaves the
    list. *)
Definition indr_list_del (addr : Z) (s : state) : state :=
  mk_state (filter (λ p, indr_addr p ≠ addr) (tc_indr_block_priv_list s))
           (mlx5e_block_cb_list s) (next_addr s) (trace s).

(** [list_add(&indr_priv->list, &...tc_indr_block_priv_list)] *)
Definition indr_list_add (p : mlx5e_rep_indr_block_priv) (s : state) : state :=
  mk_state (p :: tc_indr_block_priv_list s) (mlx5e_block_cb_list s)
           (next_addr s) (trace s).

Definition mlx5e_rep_indr_block_unbind (cb_priv : Z) (s : state) : state :=
  let s := indr_list_del cb_priv s in
  emit (EvKfree cb_priv) s.

(** [kmalloc]: NULL, or a fresh address. *)
Definition kmalloc (s : state) : option Z * state :=
  let fails := kmalloc_fails E (trace s) in
  let s := emit EvKmalloc s in
  if fails then (None, s)
  else (Some (next_addr s),
        mk_state (tc_indr_block_priv_list s) (mlx5e_block_cb_list s)
                 (next_addr s + 1) (trace s)).

(** Modelled from the spec: the generic block-callback plumbing
    (net/core/flow_offload.c) is not part of this file.
    [flow_indr_block_cb_alloc] yields a callback record carrying the
    callback, its identity and its private pointer, or an error. *)
Definition flow_indr_block_cb_alloc (setup : flow_setup_cb) (ident priv : Z)
    (s : state) : (Z + flow_block_cb) * state :=
  let err := indr_block_cb_alloc_err E (trace s) in
  let s := emit (EvIndrBlockCbAlloc setup ident) s in
  if err =? 0 then
    (inr (mk_block_cb (next_addr s) setup ident priv),
     mk_state (tc_indr_block_priv_list s) (mlx5e_block_cb_list s)
              (next_addr s + 1) (trace s))
  else (inl err, s).

(** Modelled from the spec: [flow_block_cb_add] queues the record on the
    request's list. *)
Definition flow_block_cb_add (b : flow_block_cb) (f : flow_block_offload)
    : flow_block_offload :=
  mk_offload (command f) (f_binder_type f) (block f) (cb_list f ++ [b])
             (unlocked_driver_cb f) (driver_block_list_set f).

(** Modelled from the spec: [flow_block_cb_lookup] finds the record
    registered on the block for this callback and identity. *)
Definition flow_block_cb_lookup (blk : list flow_block_cb)
    (setup : flow_setup_cb) (ident : Z) : option flow_block_cb :=
  find (λ b, bool_decide (cb b = setup) && bool_decide (cb_ident b = ident))
       blk.

(** Modelled from the spec: [flow_indr_block_cb_remove] takes the record
    off the block and queues it on the request's list, from where the
    core releases it. *)
Definition flow_indr_block_cb_remove (b : flow_block_cb)
    (f : flow_block_offload) : flow_block_offload :=
  mk_offload (command f) (f_binder_type f)
             (filter (λ x, cb_addr x ≠ cb_addr b) (block f))
             (cb_list f ++ [b])
             (unlocked_driver_cb f) (driver_block_list_set f).

Definition driver_list_add_tail (b : flow_block_cb) (s : state) : state :=
  mk_state (tc_indr_block_priv_list s) (mlx5e_block_cb_list s ++ [b])
           (next_addr s) (trace s).

Definition driver_list_del (b : flow_block_cb) (s : state) : state :=
  mk_state (tc_indr_block_priv_list s)
           (filter (λ x, cb_addr x ≠ cb_addr b) (mlx5e_block_cb_list s))
           (next_addr s) (trace s).

Definition set_driver_fields (f : flow_block_offload) : flow_block_offload :=
  mk_offload (command f) (f_binder_type f) (block f) (cb_list f) true true.

(** The device eligibility test that opens [mlx5e_rep_indr_setup_block]:
    [None] when the device passes, otherwise the error returned, and
    whether the passthru diagnostic was printed. *)
Definition device_check (dev rdev : net_device) : option (Z * bool) :=
  let is_ovs_int_port := netif_is_ovs_master E dev in
  if negb (mlx5e_tc_tun_device_to_offload E rdev dev)
     && negb (is_vlan_dev E dev && bool_decide (vlan_dev_real_dev E dev = rdev))
     && negb is_ovs_int_port
  then
    if negb (netif_is_macvlan E dev
             && bool_decide (macvlan_dev_real_dev E dev = rdev))
    then Some (- EOPNOTSUPP, false)
    else if negb (mlx5e_rep_macvlan_mode_supported dev)
    then Some (- EOPNOTSUPP, true)
    else None
  else None.

(** The [switch (f->command)] that closes [mlx5e_rep_indr_setup_block]. *)
Definition indr_block_command (dev rdev : net_device)
    (f : flow_block_offload) (setup_cb : flow_setup_cb) (s : state)
    : Z * flow_block_offload * state :=
  match command f with
  | FLOW_BLOCK_BIND =>
      match mlx5e_rep_indr_block_priv_lookup (tc_indr_block_priv_list s)
              dev (f_binder_type f) with
      | Some _ => (- EEXIST, f, s)
      | None =>
          match kmalloc s with
          | (None, s) => (- ENOMEM, f, s)
          | (Some a, s) =>
              let indr_priv := mk_indr a dev rdev (f_binder_type f) in
              let s := indr_list_add indr_priv s in
              match flow_indr_block_cb_alloc setup_cb a a s with
              | (inl err, s) =>
                  let s := indr_list_del a s in
                  let s := emit (EvKfree a) s in
                  (err, f, s)
              | (inr block_cb, s) =>
                  let s := emit (EvBlockCbAdd (cb_addr block_cb)) s in
                  let f := flow_block_cb_add block_cb f in
                  let s := driver_list_add_tail block_cb s in
                  (0, f, s)
              end
          end
      end
  | FLOW_BLOCK_UNBIND =>
      match mlx5e_rep_indr_block_priv_lookup (tc_indr_block_priv_list s)
              dev (f_binder_type f) with
      | None => (- ENOENT, f, s)
      | Some indr_priv =>
          let s := emit (EvBlockCbLookup setup_cb (indr_addr indr_priv)) s in
          match flow_block_cb_lookup (block f) setup_cb
                  (indr_addr indr_priv) with
          | None => (- ENOENT, f, s)
          | Some block_cb =>
              let s := emit (EvIndrBlockCbRemove (cb_addr block_cb)) s in
              let f := flow_indr_block_cb_remove block_cb f in
              let s := driver_list_del block_cb s in
              (0, f, s)
          end
      end
  | FLOW_BLOCK_OTHER _ => (- EOPNOTSUPP, f, s)
  end.

(** [dev] is the foreign device, [rdev] the representor's
    ([rpriv->netdev]).  [sch], [data] and [cleanup] are only handed on to
    [flow_indr_block_cb_alloc] and are left out.  Returns the error code
    and the request [*f] as the function leaves it. *)
Definition mlx5e_rep_indr_setup_block (dev rdev : net_device)
    (f : flow_block_offload) (setup_cb : flow_setup_cb) (s : state)
    : Z * flow_block_offload * state :=
  let is_ovs_int_port := netif_is_ovs_master E dev in
  match device_check dev rdev with
  | Some (err, warned) =>
      (err, f, if warned then emit (EvNetdevWarn dev) s else s)
  | None =>
  if negb (bool_decide (f_binder_type f = FLOW_BLOCK_BINDER_TYPE_CLSACT_INGRESS))
     && negb (bool_decide (f_binder_type f = FLOW_BLOCK_BINDER_TYPE_CLSACT_EGRESS))
  then (- EOPNOTSUPP, f, s)
  else if bool_decide (f_binder_type f = FLOW_BLOCK_BINDER_TYPE_CLSACT_EGRESS)
          && negb is_ovs_int_port
  then (- EOPNOTSUPP, f, s)
  else if is_ovs_int_port && negb (mlx5e_tc_int_port_supported E rdev)
  then (- EOPNOTSUPP, f, s)
  else indr_block_command dev rdev (set_driver_fields f) setup_cb s
  end.

(** Modelled from the spec: what the generic classifier-attachment
    mechanism (net/sched/cls_api.c, net/core/flow_offload.c) does around
    the driver's callback.  It builds the request for the block [blk],
    calls the driver, and on success completes the request: after a Bind
    the queued records are registered on the block; after an Unbind each
    queued record is released, which calls the release callback it was
    allocated with, [mlx5e_rep_indr_block_unbind], on its private
    pointer. *)
Definition block_request (cmd : flow_block_command) (dev rdev : net_device)
    (bt : flow_block_binder_type) (setup_cb : flow_setup_cb)
    (blk : list flow_block_cb) (s : state)
    : Z * list flow_block_cb * state :=
  let f := mk_offload cmd bt blk [] false false in
  let '(err, f, s) := mlx5e_rep_indr_setup_block dev rdev f setup_cb s in
  if err =? 0 then
    match cmd with
    | FLOW_BLOCK_BIND => (0, block f ++ cb_list f, s)
    | FLOW_BLOCK_UNBIND =>
        (0, block f,
         foldl (λ s b, mlx5e_rep_indr_block_unbind (cb_priv b) s) s (cb_list f))
    | FLOW_BLOCK_OTHER _ => (0, block f, s)
    end
  else (err, block f, s).

(** The four guards a request passes before the command is looked at. *)
Definition eligible (dev rdev : net_device) (bt : flow_block_binder_type)
    : Prop :=
  device_check dev rdev = None
  ∧ (bt = FLOW_BLOCK_BINDER_TYPE_CLSACT_INGRESS
     ∨ bt = FLOW_BLOCK_BINDER_TYPE_CLSACT_EGRESS
       ∧ netif_is_ovs_master E dev = true)
  ∧ (netif_is_ovs_master E dev = true →
     mlx5e_tc_int_port_supported E rdev = true).

Definition bound (s : state) (dev : net_device) (bt : flow_block_binder_type)
    : Prop :=
  is_Some (mlx5e_rep_indr_block_priv_lookup (tc_indr_block_priv_list s) dev bt).

(** Well-formed registry: one binding per (device, direction), one node
    per address, every address below the allocator's next one, and every
    record on the block releases the binding it is looked up by. *)
Definition binding_key (p : mlx5e_rep_indr_block_priv)
    : net_device * flow_block_binder_type :=
  (netdev p, binder_type p).

Record wf (s : state) (blk : list flow_block_cb) : Prop := mk_wf {
  wf_keys : NoDup (binding_key <$> tc_indr_block_priv_list s);
  wf_below : Forall (λ p, indr_addr p < next_addr s) (tc_indr_block_priv_list s);
  wf_release : Forall (λ b, cb_priv b = cb_ident b) blk;
}.

Lemma lookup_Some l dev bt p :
  mlx5e_rep_indr_block_priv_lookup l dev bt = Some p →
  p ∈ l ∧ binding_key p = (dev, bt).
Proof.
  unfold mlx5e_rep_indr_block_priv_lookup. intros Hf.
  apply find_some in Hf as [Hin Hp]. split; [by apply list_elem_of_In|].
  apply andb_prop in Hp as [H1 H2].
  apply bool_decide_eq_true in H1, H2. unfold binding_key. congruence.
Qed.

Lemma lookup_None l dev bt :
  mlx5e_rep_indr_block_priv_lookup l dev bt = None ↔
  ∀ p, p ∈ l → binding_key p ≠ (dev, bt).
Proof.
  unfold mlx5e_rep_indr_block_priv_lookup. split.
  - intros Hf p Hin Hk. apply list_elem_of_In in Hin.
    pose proof (find_none _ _ Hf p Hin) as Hp. simpl in Hp.
    unfold binding_key in Hk. simplify_eq.
    by rewrite !bool_decide_eq_true_2 in Hp.
  - intros Hall. induction l as [|q l IH]; [done|]. simpl.
    destruct (bool_decide (netdev q = dev) && bool_decide (binder_type q = bt))
      eqn:Hq.
    + apply andb_prop in Hq as [H1 H2].
      apply bool_decide_eq_true in H1, H2.
      destruct (Hall q); [left|]. unfold binding_key. congruence.
    + apply IH. intros p Hp. apply Hall. by right.
Qed.

Lemma binding_unique l p q :
  NoDup (binding_key <$> l) → p ∈ l → q ∈ l →
  binding_key p = binding_key q → p = q.
Proof.
  induction l as [|x l IH]; intros Hnd Hp Hq Hk; [by inversion Hp|].
  rewrite fmap_cons in Hnd. apply NoDup_cons in Hnd as [Hx Hnd].
  apply elem_of_cons in Hp as [->|Hp]; apply elem_of_cons in Hq as [->|Hq];
    try done.
  - destruct Hx. rewrite Hk. by apply list_elem_of_fmap_2.
  - destruct Hx. rewrite <- Hk. by apply list_elem_of_fmap_2.
  - by apply IH.
Qed.

(** Past the guards, the function is its [switch]. *)
Lemma setup_block_eligible dev rdev f setup_cb s :
  eligible dev rdev (f_binder_type f) →
  mlx5e_rep_indr_setup_block dev rdev f setup_cb s
  = indr_block_command dev rdev (set_driver_fields f) setup_cb s.
Proof.
  intros (Hdev & Hdir & Hint). unfold mlx5e_rep_indr_setup_block.
  rewrite Hdev.
  destruct Hdir as [->|[-> Hovs]]; simpl.
  - destruct (netif_is_ovs_master E dev); [|done].
    by rewrite Hint.
  - rewrite Hovs. simpl. by rewrite Hint.
Qed.




(** A Bind on an unbound pair succeeds when both allocations do, and
    records the binding. *)
Lemma bind_unbound_succeeds dev rdev f setup_cb s :
  eligible dev rdev (f_binder_type f) →
  command f = FLOW_BLOCK_BIND →
  ¬ bound s dev (f_binder_type f) →
  kmalloc_fails E (trace s) = false →
  indr_block_cb_alloc_err E (EvKmalloc :: trace s) = 0 →
  ∃ f' s',
    mlx5e_rep_indr_setup_block dev rdev f setup_cb s = (0, f', s')
    ∧ bound s' dev (f_binder_type f).
Proof.
  intros Hel Hcmd Hnb Hk Ha. rewrite setup_block_eligible by done.
  unfold indr_block_command. simpl. rewrite Hcmd.
  destruct (mlx5e_rep_indr_block_priv_lookup _ _ _) eqn:Hl.
  { destruct Hnb. by eexists. }
  unfold kmalloc. rewrite Hk. simpl.
  unfold flow_indr_block_cb_alloc. simpl. rewrite Ha. simpl.
  do 2 eexists. split; [reflexivity|].
  unfold bound, mlx5e_rep_indr_block_priv_lookup. simpl.
  rewrite !bool_decide_eq_true_2 by done. simpl. by eexists.
Qed.



(** The device guard, read off the four kinds of eligible device. *)
Definition tunnel_device (dev rdev : net_device) : Prop :=
  mlx5e_tc_tun_device_to_offload E rdev dev = true.

Definition vlan_on_port (dev rdev : net_device) : Prop :=
  is_vlan_dev E dev = true ∧ vlan_dev_real_dev E dev = rdev.

Definition ovs_internal_port (dev : net_device) : Prop :=
  netif_is_ovs_master E dev = true.

Definition passthru_macvlan_on_port (dev rdev : net_device) : Prop :=
  netif_is_macvlan E dev = true ∧ macvlan_dev_real_dev E dev = rdev
  ∧ macvlan_mode E dev = MACVLAN_MODE_PASSTHRU E.

Lemma device_check_rejects dev rdev :
  ¬ tunnel_device dev rdev → ¬ vlan_on_port dev rdev →
  ¬ ovs_internal_port dev → ¬ passthru_macvlan_on_port dev rdev →
  ∃ warned, device_check dev rdev = Some (- EOPNOTSUPP, warned).
Proof.
  unfold tunnel_device, vlan_on_port, ovs_internal_port,
    passthru_macvlan_on_port, device_check, mlx5e_rep_macvlan_mode_supported.
  intros Ht Hv Ho Hm.
  destruct (mlx5e_tc_tun_device_to_offload E rdev dev); [done|].
  destruct (netif_is_ovs_master E dev); [done|].
  destruct (is_vlan_dev E dev) eqn:Hvl; simpl.
  - rewrite bool_decide_eq_false_2 by (intros ?; by apply Hv). simpl.
    destruct (netif_is_macvlan E dev); simpl; [|by eexists].
    case_bool_decide; simpl; [|by eexists].
    destruct (Z.eqb_spec (macvlan_mode E dev) (MACVLAN_MODE_PASSTHRU E));
      simpl; [|by eexists].
    by destruct Hm.
  - destruct (netif_is_macvlan E dev); simpl; [|by eexists].
    case_bool_decide; simpl; [|by eexists].
    destruct (Z.eqb_spec (macvlan_mode E dev) (MACVLAN_MODE_PASSTHRU E));
      simpl; [|by eexists].
    by destruct Hm.
Qed.

(** The registry part of the state: what a rejected request must leave
    alone. *)
Definition same_registry (s s' : state) : Prop :=
  tc_indr_block_priv_list s' = tc_indr_block_priv_list s
  ∧ mlx5e_block_cb_list s' = mlx5e_block_cb_list s.

(** C8.  Whatever the command of the request: a foreign device that is
    no tunnel device, no VLAN on this port, no internal port and no
    passthru MAC-VLAN on this port is rejected with [-EOPNOTSUPP]; an
    egress request for a device that is not an internal port is rejected
    with [-EOPNOTSUPP], so an accepted egress request is for an internal
    port; a direction other than ingress or egress is rejected with
    [-EOPNOTSUPP].  A request rejected by these guards changes neither the
    request nor the registry. *)
Theorem setup_block_guards dev rdev f setup_cb s :
  let r := mlx5e_rep_indr_setup_block dev rdev f setup_cb s in
  (¬ tunnel_device dev rdev → ¬ vlan_on_port dev rdev →
   ¬ ovs_internal_port dev → ¬ passthru_macvlan_on_port dev rdev →
   r.1.1 = - EOPNOTSUPP ∧ r.1.2 = f ∧ same_registry s r.2)
  ∧ (f_binder_type f = FLOW_BLOCK_BINDER_TYPE_CLSACT_EGRESS →
     ¬ ovs_internal_port dev →
     r.1.1 = - EOPNOTSUPP ∧ r.1.2 = f ∧ same_registry s r.2)
  ∧ (f_binder_type f = FLOW_BLOCK_BINDER_TYPE_CLSACT_EGRESS →
     r.1.1 = 0 → ovs_internal_port dev)
  ∧ (f_binder_type f ≠ FLOW_BLOCK_BINDER_TYPE_CLSACT_INGRESS →
     f_binder_type f ≠ FLOW_BLOCK_BINDER_TYPE_CLSACT_EGRESS →
     r.1.1 = - EOPNOTSUPP ∧ r.1.2 = f ∧ same_registry s r.2).
Proof.
  assert (Hegress :
    f_binder_type f = FLOW_BLOCK_BINDER_TYPE_CLSACT_EGRESS →
    ¬ ovs_internal_port dev →
    let r := mlx5e_rep_indr_setup_block dev rdev f setup_cb s in
    r.1.1 = - EOPNOTSUPP ∧ r.1.2 = f ∧ same_registry s r.2).
  { intros Hbt Hovs. unfold mlx5e_rep_indr_setup_block, ovs_internal_port in *.
    destruct (device_check dev rdev) as [[err w]|] eqn:Hd.
    - unfold device_check in Hd. unfold same_registry.
      repeat case_match; simplify_eq/=; done.
    - rewrite Hbt. simpl.
      destruct (netif_is_ovs_master E dev); [done|]. by simpl. }
  intros r. repeat split.
  - destruct (device_check_rejects dev rdev) as [w Hw]; [done..|].
    subst r. unfold mlx5e_rep_indr_setup_block. by rewrite Hw.
  - destruct (device_check_rejects dev rdev) as [w Hw]; [done..|].
    subst r. unfold mlx5e_rep_indr_setup_block. by rewrite Hw.
  - destruct (device_check_rejects dev rdev) as [w Hw]; [done..|].
    subst r. unfold mlx5e_rep_indr_setup_block. rewrite Hw. by destruct w.
  - destruct (device_check_rejects dev rdev) as [w Hw]; [done..|].
    subst r. unfold mlx5e_rep_indr_setup_block. rewrite Hw. by destruct w.
  - by apply Hegress.
  - by apply Hegress.
  - by apply Hegress.
  - by apply Hegress.
  - intros Hbt H0. destruct (netif_is_ovs_master E dev) eqn:Hovs; [done|].
    destruct (Hegress Hbt) as (Herr & _).
    { unfold ovs_internal_port. by rewrite Hovs. }
    fold r in Herr. rewrite Herr in H0. done.
  - subst r. unfold mlx5e_rep_indr_setup_block.
    destruct (device_check dev rdev) as [[err w]|] eqn:Hd.
    + unfold device_check in Hd. repeat case_match; simplify_eq/=; done.
    + rewrite !bool_decide_eq_false_2 by done. done.
  - subst r. unfold mlx5e_rep_indr_setup_block.
    destruct (device_check dev rdev) as [[err w]|] eqn:Hd; [done|].
    rewrite !bool_decide_eq_false_2 by done. done.
  - subst r. unfold mlx5e_rep_indr_setup_block.
    destruct (device_check dev rdev) as [[err w]|] eqn:Hd; [by destruct w|].
    rewrite !bool_decide_eq_false_2 by done. done.
  - subst r. unfold mlx5e_rep_indr_setup_block.
    destruct (device_check dev rdev) as [[err w]|] eqn:Hd; [by destruct w|].
    rewrite !bool_decide_eq_false_2 by done. done.
Qed.

End WithEnv.

(** ** A concrete environment, for closed examples *)

(** The representor's device is [1].  Device [50] is a tunnel device,
    [60] a VLAN on the port, [70] an internal port, [80] a passthru
    MAC-VLAN on the port, [81] a MAC-VLAN on the port in another mode;
    internal ports are supported and no allocation fails. *)
Definition env0 : env :=
  mk_env (λ d, d =? 70) (λ _ d, d =? 50)
    (λ d, d =? 60) (λ _, 1)
    (λ d, (d =? 80) || (d =? 81)) (λ _, 1)
    (λ d, if d =? 80 then 8 else 4) 8
    (λ _, true) (λ _, false) (λ _, 0).

Definition state0 : state := mk_state [] [] 1000 [].

(** The registry after one Bind of the tunnel device for ingress. *)
Definition cb1 : flow_block_cb :=
  mk_block_cb 1001 mlx5e_rep_indr_setup_tc_cb 1000 1000.

Definition state1 : state :=
  mk_state [mk_indr 1000 50 1 FLOW_BLOCK_BINDER_TYPE_CLSACT_INGRESS] [cb1] 1002
    [EvBlockCbAdd 1001; EvIndrBlockCbAlloc mlx5e_rep_indr_setup_tc_cb 1000;
     EvKmalloc].

Example bind_from_empty :
  block_request env0 FLOW_BLOCK_BIND 50 1 FLOW_BLOCK_BINDER_TYPE_CLSACT_INGRESS
    mlx5e_rep_indr_setup_tc_cb [] state0
  = (0, [cb1], state1).
Proof. reflexivity. Qed.

(** The error codes of a run of requests on one pair, from a registry and
    a block. *)
Fixpoint run_requests (E : env) (dev rdev : net_device)
    (bt : flow_block_binder_type) (cmds : list flow_block_command)
    (blk : list flow_block_cb) (s : state) : list Z :=
  match cmds with
  | [] => []
  | c :: cmds =>
      let '(err, blk, s) :=
        block_request E c dev rdev bt mlx5e_rep_indr_setup_tc_cb blk s in
      err :: run_requests E dev rdev bt cmds blk s
  end.

(** Bind, Bind again, Unbind, Unbind again, Bind. *)
Example bind_unbind_scenario :
  run_requests env0 50 1 FLOW_BLOCK_BINDER_TYPE_CLSACT_INGRESS
    [FLOW_BLOCK_BIND; FLOW_BLOCK_BIND; FLOW_BLOCK_UNBIND; FLOW_BLOCK_UNBIND;
     FLOW_BLOCK_BIND] [] state0
  = [0; - EEXIST; 0; - ENOENT; 0].
Proof. reflexivity. Qed.




(** The guards at work: an unrelated device, a MAC-VLAN outside passthru
    mode (with its diagnostic), egress for a tunnel device, a direction
    that is neither ingress nor egress; and egress for an internal port,
    which is accepted. *)
Example guard_unrelated_device :
  mlx5e_rep_indr_setup_block env0 90 1
    (mk_offload FLOW_BLOCK_BIND FLOW_BLOCK_BINDER_TYPE_CLSACT_INGRESS
       [] [] false false) mlx5e_rep_indr_setup_tc_cb state0
  = (- EOPNOTSUPP,
     mk_offload FLOW_BLOCK_BIND FLOW_BLOCK_BINDER_TYPE_CLSACT_INGRESS
       [] [] false false, state0).
Proof. reflexivity. Qed.

Example guard_macvlan_mode :
  (mlx5e_rep_indr_setup_block env0 81 1
     (mk_offload FLOW_BLOCK_BIND FLOW_BLOCK_BINDER_TYPE_CLSACT_INGRESS
        [] [] false false) mlx5e_rep_indr_setup_tc_cb state0).1.1
  = - EOPNOTSUPP
  ∧ trace (mlx5e_rep_indr_setup_block env0 81 1
     (mk_offload FLOW_BLOCK_BIND FLOW_BLOCK_BINDER_TYPE_CLSACT_INGRESS
        [] [] false false) mlx5e_rep_indr_setup_tc_cb state0).2
    = [EvNetdevWarn 81].
Proof. split; reflexivity. Qed.

Example guard_egress_tunnel :
  (mlx5e_rep_indr_setup_block env0 50 1
     (mk_offload FLOW_BLOCK_BIND FLOW_BLOCK_BINDER_TYPE_CLSACT_EGRESS
        [] [] false false) mlx5e_rep_indr_setup_tc_cb state0).1.1
  = - EOPNOTSUPP.
Proof. reflexivity. Qed.

Example guard_other_direction :
  (mlx5e_rep_indr_setup_block env0 50 1
     (mk_offload FLOW_BLOCK_BIND (FLOW_BLOCK_BINDER_TYPE_OTHER 0)
        [] [] false false) mlx5e_rep_indr_setup_tc_cb state0).1.1
  = - EOPNOTSUPP.
Proof. reflexivity. Qed.

Example egress_internal_port_accepted :
  (mlx5e_rep_indr_setup_block env0 70 1
     (mk_offload FLOW_BLOCK_BIND FLOW_BLOCK_BINDER_TYPE_CLSACT_EGRESS
        [] [] false false) mlx5e_rep_indr_setup_tc_cb state0).1.1
  = 0.
Proof. reflexivity. Qed.

Lemma setup_block_guards_witness :
  let f := mk_offload FLOW_BLOCK_BIND FLOW_BLOCK_BINDER_TYPE_CLSACT_EGRESS
             [] [] false false in
  let r := mlx5e_rep_indr_setup_block env0 50 1 f
             mlx5e_rep_indr_setup_tc_cb state0 in
  r.1.1 = - EOPNOTSUPP ∧ r.1.2 = f ∧ same_registry state0 r.2.
Proof.
  intros f.
  apply (proj1 (proj2 (setup_block_guards env0 50 1 f
                         mlx5e_rep_indr_setup_tc_cb state0))).
  - reflexivity.
  - unfold ovs_internal_port. simpl. discriminate.
Defined.

(** ** The registry under every request: guards, rollback, invariants *)

Section Registry.

Context (E : env).

Lemma device_check_err dev rdev err w :
  device_check E dev rdev = Some (err, w) → err = - EOPNOTSUPP.
Proof.
  unfold device_check. repeat case_match; by intros [= <- _].
Qed.

(** X12.  The lookup of the registry finds a binding exactly when one
    for the (device, direction) pair is listed, and what it finds is a
    listed binding for that pair. *)
Theorem indr_block_priv_lookup_spec (l : list mlx5e_rep_indr_block_priv)
    dev bt :
  (∀ p, mlx5e_rep_indr_block_priv_lookup l dev bt = Some p →
        p ∈ l ∧ netdev p = dev ∧ binder_type p = bt)
  ∧ (mlx5e_rep_indr_block_priv_lookup l dev bt = None
     ↔ ∀ p, p ∈ l → ¬ (netdev p = dev ∧ binder_type p = bt)).
Proof.
  split.
  - intros p Hp. apply lookup_Some in Hp as [Hin Hk].
    unfold binding_key in Hk. by simplify_eq.
  - rewrite lookup_None. unfold binding_key. split.
    + intros H p Hin [<- <-]. by apply (H p).
    + intros H p Hin [= <- <-]. by apply (H p).
Qed.





End Registry.

Section Outcomes.

Context (E : env).

(** The binding and the callback record a successful Bind creates: the
    allocator's next two addresses. *)
Definition new_binding (dev rdev : net_device) (bt : flow_block_binder_type)
    (s : state) : mlx5e_rep_indr_block_priv :=
  mk_indr (next_addr s) dev rdev bt.

Definition new_block_cb (setup_cb : flow_setup_cb) (s : state) : flow_block_cb :=
  mk_block_cb (next_addr s + 1) setup_cb (next_addr s) (next_addr s).

(** The three ways a request can end: rejected, with block and registry
    as they were; bound; unbound and released. *)
Definition rejected (blk : list flow_block_cb) (s : state)
    (r : Z * list flow_block_cb * state) : Prop :=
  r.1.1 ≠ 0 ∧ r.1.2 = blk ∧ same_registry s r.2
  ∧ next_addr s ≤ next_addr r.2.

Definition bound_by (cmd : flow_block_command) (dev rdev : net_device)
    (bt : flow_block_binder_type) (setup_cb : flow_setup_cb)
    (blk : list flow_block_cb) (s : state)
    (r : Z * list flow_block_cb * state) : Prop :=
  cmd = FLOW_BLOCK_BIND ∧ r.1.1 = 0
  ∧ mlx5e_rep_indr_block_priv_lookup (tc_indr_block_priv_list s) dev bt = None
  ∧ tc_indr_block_priv_list r.2
    = new_binding dev rdev bt s :: tc_indr_block_priv_list s
  ∧ r.1.2 = blk ++ [new_block_cb setup_cb s]
  ∧ mlx5e_block_cb_list r.2 = mlx5e_block_cb_list s ++ [new_block_cb setup_cb s]
  ∧ next_addr r.2 = next_addr s + 2.

Definition unbound_by (cmd : flow_block_command) (dev : net_device)
    (bt : flow_block_binder_type) (setup_cb : flow_setup_cb)
    (blk : list flow_block_cb) (s : state)
    (r : Z * list flow_block_cb * state) : Prop :=
  cmd = FLOW_BLOCK_UNBIND ∧ r.1.1 = 0
  ∧ ∃ p b,
      mlx5e_rep_indr_block_priv_lookup (tc_indr_block_priv_list s) dev bt
      = Some p
      ∧ flow_block_cb_lookup blk setup_cb (indr_addr p) = Some b
      ∧ tc_indr_block_priv_list r.2
        = filter (λ q, indr_addr q ≠ indr_addr p) (tc_indr_block_priv_list s)
      ∧ r.1.2 = filter (λ x, cb_addr x ≠ cb_addr b) blk
      ∧ mlx5e_block_cb_list r.2
        = filter (λ x, cb_addr x ≠ cb_addr b) (mlx5e_block_cb_list s)
      ∧ next_addr r.2 = next_addr s.

Lemma setup_block_reject_or_switch dev rdev f setup_cb s :
  (∃ s', mlx5e_rep_indr_setup_block E dev rdev f setup_cb s
         = (- EOPNOTSUPP, f, s')
         ∧ same_registry s s' ∧ next_addr s' = next_addr s)
  ∨ mlx5e_rep_indr_setup_block E dev rdev f setup_cb s
    = indr_block_command E dev rdev (set_driver_fields f) setup_cb s.
Proof.
  unfold mlx5e_rep_indr_setup_block.
  destruct (device_check E dev rdev) as [[err w]|] eqn:Hd.
  { apply device_check_err in Hd as ->. left. eexists. split; [done|].
    by destruct w. }
  destruct (negb _ && negb _); [left; by eexists|].
  destruct (bool_decide _ && negb _); [left; by eexists|].
  destruct (netif_is_ovs_master E dev && negb _); [left; by eexists|].
  by right.
Qed.

Lemma filter_addr_fresh (a : Z) (l : list mlx5e_rep_indr_block_priv) :
  Forall (λ p, indr_addr p < a) l →
  filter (λ p, indr_addr p ≠ a) l = l.
Proof.
  induction 1 as [|p l Hp _ IH]; [done|].
  rewrite filter_cons_True by lia. by rewrite IH.
Qed.

(** Every request ends in one of the three ways. *)
Lemma block_request_outcome cmd dev rdev bt setup_cb blk s :
  Forall (λ p, indr_addr p < next_addr s) (tc_indr_block_priv_list s) →
  Forall (λ b, cb_priv b = cb_ident b) blk →
  let r := block_request E cmd dev rdev bt setup_cb blk s in
  rejected blk s r
  ∨ bound_by cmd dev rdev bt setup_cb blk s r
  ∨ unbound_by cmd dev bt setup_cb blk s r.
Proof.
  intros Hbelow Hrel. unfold block_request.
  destruct (setup_block_reject_or_switch dev rdev
              (mk_offload cmd bt blk [] false false) setup_cb s)
    as [(s' & -> & Hreg & Hna)| ->].
  { left. simpl. unfold rejected. simpl. split; [done|].
    split; [done|]. split; [done|]. lia. }
  unfold indr_block_command. simpl.
  destruct cmd as [| |raw].
  - destruct (mlx5e_rep_indr_block_priv_lookup _ _ _) as [p|] eqn:Hl.
    { left. by repeat split. }
    unfold kmalloc. destruct (kmalloc_fails E (trace s)); simpl.
    { left. by repeat split. }
    unfold flow_indr_block_cb_alloc. simpl.
    destruct (Z.eqb_spec (indr_block_cb_alloc_err E (EvKmalloc :: trace s)) 0)
      as [Ha|Ha]; simpl.
    + right; left. unfold bound_by, new_binding, new_block_cb. simpl.
      repeat split; try done. lia.
    + left. destruct (Z.eqb_spec
        (indr_block_cb_alloc_err E (EvKmalloc :: trace s)) 0); [done|].
      unfold rejected, same_registry. simpl.
      split; [done|]. split; [done|]. split; [|lia]. split; [|done].
      rewrite filter_cons_False by (intros ?; done).
      by apply filter_addr_fresh.
  - destruct (mlx5e_rep_indr_block_priv_lookup _ _ _) as [p|] eqn:Hl.
    2:{ left. by repeat split. }
    destruct (flow_block_cb_lookup blk setup_cb (indr_addr p)) as [b|] eqn:Hb.
    2:{ left. by repeat split. }
    right; right. simpl. unfold unbound_by. simpl.
    split; [done|]. split; [done|]. exists p, b.
    assert (Hpriv : cb_priv b = indr_addr p).
    { unfold flow_block_cb_lookup in Hb. apply find_some in Hb as [Hin Hp].
      apply andb_prop in Hp as [_ Hid]. apply bool_decide_eq_true in Hid.
      rewrite <- Hid. apply list_elem_of_In in Hin.
      by apply (proj1 (Forall_forall _ _) Hrel). }
    rewrite Hpriv. done.
  - left. by repeat split.
Qed.

(** Live addresses: the registry is well-formed, no two bindings share an
    address, and every address on the block or on the driver's list was
    handed out by the allocator. *)
Record live (s : state) (blk : list flow_block_cb) : Prop := mk_live {
  live_wf : wf s blk;
  live_nodes : NoDup (indr_addr <$> tc_indr_block_priv_list s);
  live_block :
    Forall (λ b, cb_addr b < next_addr s ∧ cb_ident b < next_addr s) blk;
  live_driver : Forall (λ b, cb_addr b < next_addr s) (mlx5e_block_cb_list s);
}.

Lemma NoDup_fmap_filter {A B} (f : A → B) (P : A → Prop)
    `{∀ x, Decision (P x)} (l : list A) :
  NoDup (f <$> l) → NoDup (f <$> filter P l).
Proof.
  intros Hnd. eapply sublist_NoDup; [exact Hnd|].
  apply fmap_sublist, sublist_filter.
Qed.

Lemma NoDup_fmap_eq {A B} (f : A → B) (l : list A) x y :
  NoDup (f <$> l) → x ∈ l → y ∈ l → f x = f y → x = y.
Proof.
  induction l as [|z l IH]; intros Hnd Hx Hy Hf; [by inversion Hx|].
  rewrite fmap_cons in Hnd. apply NoDup_cons in Hnd as [Hz Hnd].
  apply elem_of_cons in Hx as [->|Hx]; apply elem_of_cons in Hy as [->|Hy];
    try done.
  - destruct Hz. rewrite Hf. by apply list_elem_of_fmap_2.
  - destruct Hz. rewrite <- Hf. by apply list_elem_of_fmap_2.
  - by apply IH.
Qed.

Lemma find_filter {A} (p : A → bool) (Q : A → Prop) `{∀ x, Decision (Q x)}
    (l : list A) :
  (∀ x, x ∈ l → p x = true → Q x) →
  find p (filter Q l) = find p l.
Proof.
  induction l as [|x l IH]; intros Hq; [done|].
  rewrite filter_cons. simpl.
  assert (IH' : find p (filter Q l) = find p l).
  { apply IH. intros y Hy. apply Hq. by right. }
  destruct (decide (Q x)) as [Hx|Hx]; simpl.
  - by rewrite IH'.
  - destruct (p x) eqn:Hp; [|done].
    destruct Hx. apply Hq; [by left|done].
Qed.

Lemma Forall_filter_keep {A} (P Q : A → Prop) `{∀ x, Decision (Q x)}
    (l : list A) :
  Forall P l → Forall P (filter Q l).
Proof.
  intros Hl. apply Forall_forall. intros x Hx.
  apply list_elem_of_filter in Hx as [_ Hx].
  by apply (proj1 (Forall_forall _ _) Hl).
Qed.

Lemma filter_fresh {A} (g : A → Z) (a : Z) (l : list A) :
  Forall (λ x, g x < a) l → filter (λ x, g x ≠ a) l = l.
Proof.
  induction 1 as [|x l Hx _ IH]; [done|].
  rewrite filter_cons_True by lia. by rewrite IH.
Qed.

Ltac by_outcome Hb Hr :=
  cbv zeta;
  match goal with
  | |- context [block_request ?E ?cmd ?dev ?rdev ?bt ?cb ?blk ?s] =>
      let Hout := fresh "Hout" in
      pose proof (block_request_outcome cmd dev rdev bt cb blk s Hb Hr)
        as Hout;
      cbv zeta in Hout;
      generalize dependent (block_request E cmd dev rdev bt cb blk s);
      intros r Hout
  end.

(** X14.  On a well-formed registry a request either fails and changes
    neither the block nor the registry, or succeeds and flips the binding
    status of its (device, direction) pair: a successful request is a Bind
    of an unbound pair, bound afterwards, or an Unbind of a bound pair,
    unbound afterwards.  In particular a Bind whose second allocation
    fails leaves the registry as it was. *)
Theorem request_all_or_nothing cmd dev rdev bt setup_cb blk s :
  wf s blk →
  let r := block_request E cmd dev rdev bt setup_cb blk s in
  (r.1.1 ≠ 0 → r.1.2 = blk ∧ same_registry s r.2)
  ∧ (r.1.1 = 0 →
     cmd = FLOW_BLOCK_BIND ∧ ¬ bound s dev bt ∧ bound r.2 dev bt
     ∨ cmd = FLOW_BLOCK_UNBIND ∧ bound s dev bt ∧ ¬ bound r.2 dev bt).
Proof.
  intros [Hk Hb Hr]. by_outcome Hb Hr.
  destruct Hout
    as [(Hne & Hblk & Hreg & _)|[Hbind|Hunbind]].
  - split; [done|]. intros H0. by destruct Hne.
  - destruct Hbind as (-> & H0 & Hl & Hlist & _).
    split; [intros Hne; by destruct Hne|]. intros _. left.
    split; [done|]. unfold bound. rewrite Hl, Hlist. split.
    + by intros [? ?].
    + unfold mlx5e_rep_indr_block_priv_lookup, new_binding. simpl.
      rewrite !bool_decide_eq_true_2 by done. simpl. by eexists.
  - destruct Hunbind as (-> & H0 & p & b & Hl & _ & Hlist & _).
    split; [intros Hne; by destruct Hne|]. intros _. right.
    split; [done|]. unfold bound. rewrite Hl, Hlist.
    split; [by eexists|].
    apply lookup_Some in Hl as [Hin Hkey].
    intros [q Hq]. apply lookup_Some in Hq as [Hqin Hqk].
    apply list_elem_of_filter in Hqin as [Hne Hqin].
    destruct Hne. f_equal. apply (binding_unique _ _ _ Hk Hqin Hin).
    congruence.
Qed.

(** X15.  The two allocation failures of a Bind that passed the guards on
    an unbound pair.  When [kmalloc] fails the request returns [-ENOMEM]
    and nothing but the allocation attempt happened.  When the callback
    record cannot be allocated the request returns that allocation's
    error, the binding just linked is unlinked again and its memory
    released, and no callback record is added to the block or to the
    driver's list. *)
Theorem bind_allocation_failures dev rdev bt setup_cb blk s :
  eligible E dev rdev bt →
  ¬ bound s dev bt →
  Forall (λ p, indr_addr p < next_addr s) (tc_indr_block_priv_list s) →
  let r := block_request E FLOW_BLOCK_BIND dev rdev bt setup_cb blk s in
  (kmalloc_fails E (trace s) = true →
   r = (- ENOMEM, blk, emit EvKmalloc s))
  ∧ (kmalloc_fails E (trace s) = false →
     indr_block_cb_alloc_err E (EvKmalloc :: trace s) ≠ 0 →
     r.1.1 = indr_block_cb_alloc_err E (EvKmalloc :: trace s)
     ∧ r.1.2 = blk
     ∧ same_registry s r.2
     ∧ trace r.2
       = EvKfree (next_addr s)
         :: EvIndrBlockCbAlloc setup_cb (next_addr s)
         :: EvKmalloc :: trace s).
Proof.
  intros Hel Hnb Hbelow r. subst r. unfold block_request.
  rewrite setup_block_eligible by done.
  unfold indr_block_command. simpl.
  destruct (mlx5e_rep_indr_block_priv_lookup _ _ _) eqn:Hl.
  { destruct Hnb. by eexists. }
  unfold kmalloc. split.
  - intros ->. done.
  - intros -> Ha. simpl. unfold flow_indr_block_cb_alloc. simpl.
    assert (Hz : (indr_block_cb_alloc_err E (EvKmalloc :: trace s) =? 0)
                 = false) by (by apply Z.eqb_neq).
    rewrite Hz. simpl. rewrite Hz. simpl.
    split; [done|]. split; [done|]. split; [|done].
    split; [|done]. simpl.
    rewrite filter_cons_False by (intros ?; done).
    by apply filter_fresh.
Qed.

(** X16.  Every request, whatever its command and whether it succeeds or
    not, keeps the registry well-formed and the addresses live: one
    binding per (device, direction), no address shared by two bindings,
    and every address in use below the allocator's next one. *)
Theorem request_preserves_live cmd dev rdev bt setup_cb blk s :
  live s blk →
  let r := block_request E cmd dev rdev bt setup_cb blk s in
  live r.2 r.1.2.
Proof.
  intros [[Hk Hb Hr] Hn Hblk Hdrv]. by_outcome Hb Hr.
  destruct Hout
    as [(_ & Hblk' & [Hl Hd] & Hna)|[Hbind|Hunbind]].
  - split; [split|..]; rewrite ?Hblk', ?Hl, ?Hd; try done.
    + eapply Forall_impl; [exact Hb|]. simpl. intros; lia.
    + eapply Forall_impl; [exact Hblk|]. simpl. intros; lia.
    + eapply Forall_impl; [exact Hdrv|]. simpl. intros; lia.
  - destruct Hbind as (-> & _ & Hl & Hlist & Hblk' & Hd & Hna).
    split; [split|..]; rewrite ?Hblk', ?Hlist, ?Hd, ?Hna.
    + rewrite fmap_cons. apply NoDup_cons. split; [|done].
      intros Hin. apply list_elem_of_fmap in Hin as (q & Hq & Hqin).
      by apply (proj1 (lookup_None _ _ _) Hl q Hqin).
    + apply Forall_cons. split; [simpl; lia|].
      eapply Forall_impl; [exact Hb|]. simpl. intros; lia.
    + apply Forall_app. split; [done|]. by apply Forall_singleton.
    + rewrite fmap_cons. apply NoDup_cons. split; [|done].
      intros Hin. apply list_elem_of_fmap in Hin as (q & Hq & Hqin).
      pose proof (proj1 (Forall_forall _ _) Hb q Hqin) as Hlt.
      simpl in Hq, Hlt. lia.
    + apply Forall_app. split.
      * eapply Forall_impl; [exact Hblk|]. simpl. intros; lia.
      * apply Forall_singleton. simpl. lia.
    + apply Forall_app. split.
      * eapply Forall_impl; [exact Hdrv|]. simpl. intros; lia.
      * apply Forall_singleton. simpl. lia.
  - destruct Hunbind as (-> & _ & p & b & _ & _ & Hlist & Hblk' & Hd & Hna).
    split; [split|..]; rewrite ?Hblk', ?Hlist, ?Hd, ?Hna.
    + by apply NoDup_fmap_filter.
    + by apply Forall_filter_keep.
    + by apply Forall_filter_keep.
    + by apply NoDup_fmap_filter.
    + by apply Forall_filter_keep.
    + by apply Forall_filter_keep.
Qed.

(** X17.  A request for one (device, direction) pair leaves the binding
    of every other pair as it was, whether the request binds, unbinds or
    fails. *)
Theorem request_frame cmd dev rdev bt setup_cb blk s dev' bt' :
  live s blk →
  (dev', bt') ≠ (dev, bt) →
  let r := block_request E cmd dev rdev bt setup_cb blk s in
  mlx5e_rep_indr_block_priv_lookup (tc_indr_block_priv_list r.2) dev' bt'
  = mlx5e_rep_indr_block_priv_lookup (tc_indr_block_priv_list s) dev' bt'.
Proof.
  intros [[Hk Hb Hr] Hn _ _] Hne. by_outcome Hb Hr.
  destruct Hout
    as [(_ & _ & [Hl _] & _)|[Hbind|Hunbind]].
  - by rewrite Hl.
  - destruct Hbind as (_ & _ & _ & -> & _).
    unfold mlx5e_rep_indr_block_priv_lookup, new_binding. simpl.
    destruct (decide (dev = dev')) as [<-|Hd].
    + rewrite (bool_decide_eq_false_2 (bt = bt')) by congruence.
      by rewrite andb_false_r.
    + by rewrite (bool_decide_eq_false_2 (dev = dev')).
  - destruct Hunbind as (_ & _ & p & b & Hl & _ & -> & _).
    apply lookup_Some in Hl as [Hin Hkey].
    unfold mlx5e_rep_indr_block_priv_lookup. apply find_filter.
    intros q Hq Hp Ha.
    apply andb_prop in Hp as [H1 H2]. apply bool_decide_eq_true in H1, H2.
    assert (q = p) as -> by (by apply (NoDup_fmap_eq indr_addr _ _ _ Hn)).
    unfold binding_key in Hkey. congruence.
Qed.

(** A Bind of an unbound pair that passes the guards and gets both
    allocations. *)
Lemma bind_granted dev rdev bt setup_cb blk s :
  eligible E dev rdev bt →
  mlx5e_rep_indr_block_priv_lookup (tc_indr_block_priv_list s) dev bt = None →
  kmalloc_fails E (trace s) = false →
  indr_block_cb_alloc_err E (EvKmalloc :: trace s) = 0 →
  block_request E FLOW_BLOCK_BIND dev rdev bt setup_cb blk s
  = (0, blk ++ [new_block_cb setup_cb s],
     mk_state (new_binding dev rdev bt s :: tc_indr_block_priv_list s)
              (mlx5e_block_cb_list s ++ [new_block_cb setup_cb s])
              (next_addr s + 1 + 1)
              (EvBlockCbAdd (next_addr s + 1)
               :: EvIndrBlockCbAlloc setup_cb (next_addr s)
               :: EvKmalloc :: trace s)).
Proof.
  intros Hel Hl Hkm Ha. unfold block_request.
  rewrite setup_block_eligible by done.
  unfold indr_block_command. simpl. rewrite Hl.
  unfold kmalloc. rewrite Hkm. simpl.
  unfold flow_indr_block_cb_alloc. simpl. rewrite Ha. done.
Qed.

Lemma lookup_head dev rdev bt s l :
  mlx5e_rep_indr_block_priv_lookup (new_binding dev rdev bt s :: l) dev bt
  = Some (new_binding dev rdev bt s).
Proof.
  unfold mlx5e_rep_indr_block_priv_lookup, new_binding. simpl.
  by rewrite !bool_decide_eq_true_2.
Qed.

(** An Unbind that passes the guards, of a bound pair whose callback
    record is on the block, once the plumbing has released the record. *)
Lemma unbind_granted dev rdev bt setup_cb blk s p b :
  eligible E dev rdev bt →
  mlx5e_rep_indr_block_priv_lookup (tc_indr_block_priv_list s) dev bt
  = Some p →
  flow_block_cb_lookup blk setup_cb (indr_addr p) = Some b →
  block_request E FLOW_BLOCK_UNBIND dev rdev bt setup_cb blk s
  = (0, filter (λ x, cb_addr x ≠ cb_addr b) blk,
     mk_state (filter (λ q, indr_addr q ≠ cb_priv b)
                 (tc_indr_block_priv_list s))
              (filter (λ x, cb_addr x ≠ cb_addr b) (mlx5e_block_cb_list s))
              (next_addr s)
              (EvKfree (cb_priv b)
               :: EvIndrBlockCbRemove (cb_addr b)
               :: EvBlockCbLookup setup_cb (indr_addr p) :: trace s)).
Proof.
  intros Hel Hl Hb. unfold block_request.
  rewrite setup_block_eligible by done.
  unfold indr_block_command. simpl. rewrite Hl, Hb. done.
Qed.

(** X18.  Bind then Unbind is a round trip.  On live addresses, a Bind
    of an unbound pair that passes the guards and gets both allocations,
    followed by the Unbind of the same pair with the same callback,
    succeeds twice and gives back the block, the binding list and the
    driver's callback list exactly as they were before the Bind. *)
Theorem bind_unbind_round_trip dev rdev bt setup_cb blk s :
  live s blk →
  eligible E dev rdev bt →
  ¬ bound s dev bt →
  kmalloc_fails E (trace s) = false →
  indr_block_cb_alloc_err E (EvKmalloc :: trace s) = 0 →
  let r1 := block_request E FLOW_BLOCK_BIND dev rdev bt setup_cb blk s in
  let r2 := block_request E FLOW_BLOCK_UNBIND dev rdev bt setup_cb
              r1.1.2 r1.2 in
  r1.1.1 = 0 ∧ r2.1.1 = 0 ∧ r2.1.2 = blk ∧ same_registry s r2.2.
Proof.
  intros [[Hk Hb Hr] Hn Hblk Hdrv] Hel Hnb Hkm Ha r1 r2.
  assert (Hl : mlx5e_rep_indr_block_priv_lookup (tc_indr_block_priv_list s)
                 dev bt = None).
  { destruct (mlx5e_rep_indr_block_priv_lookup _ _ _) eqn:Hl; [|done].
    destruct Hnb. by eexists. }
  subst r2 r1. rewrite (bind_granted dev rdev bt setup_cb blk s Hel Hl Hkm Ha).
  cbn [fst snd].
  assert (Hfind : flow_block_cb_lookup (blk ++ [new_block_cb setup_cb s])
                    setup_cb (indr_addr (new_binding dev rdev bt s))
                  = Some (new_block_cb setup_cb s)).
  { unfold flow_block_cb_lookup, new_block_cb. simpl. clear -Hblk.
    induction Hblk as [|x l [_ Hx] _ IH]; simpl.
    - by rewrite !bool_decide_eq_true_2.
    - rewrite (bool_decide_eq_false_2 (cb_ident x = next_addr s)) by lia.
      by rewrite andb_false_r. }
  erewrite unbind_granted;
    [|done|apply (lookup_head dev rdev bt s)|exact Hfind].
  unfold same_registry. cbn [fst snd tc_indr_block_priv_list
    mlx5e_block_cb_list].
  unfold new_block_cb, new_binding. cbn [cb_addr cb_priv].
  split; [done|]. split; [done|]. split; [|split].
  - rewrite filter_app, filter_cons_False, filter_nil, app_nil_r
      by (intros ?; done).
    apply filter_fresh. eapply Forall_impl; [exact Hblk|].
    simpl. intros ? [? ?]. lia.
  - rewrite filter_cons_False by (intros ?; done).
    by apply filter_fresh.
  - rewrite filter_app, filter_cons_False, filter_nil, app_nil_r
      by (intros ?; done).
    apply filter_fresh. eapply Forall_impl; [exact Hdrv|].
    simpl. intros; lia.
Qed.

End Outcomes.

(** As [env0], but [kmalloc] fails. *)
Definition env_nomem : env :=
  mk_env (λ d, d =? 70) (λ _ d, d =? 50)
    (λ d, d =? 60) (λ _, 1)
    (λ d, (d =? 80) || (d =? 81)) (λ _, 1)
    (λ d, if d =? 80 then 8 else 4) 8
    (λ _, true) (λ _, true) (λ _, 0).

Lemma live_state0 : live state0 [].
Proof.
  split; [split|..]; simpl; try apply NoDup_nil_2; apply Forall_nil_2.
Defined.

Lemma live_state1 : live state1 [cb1].
Proof.
  split; [split|..]; simpl.
  - apply NoDup_singleton.
  - apply Forall_singleton. simpl. lia.
  - by apply Forall_singleton.
  - apply NoDup_singleton.
  - apply Forall_singleton. simpl. lia.
  - apply Forall_singleton. simpl. lia.
Defined.

Lemma unbound_state0 dev bt : ¬ bound state0 dev bt.
Proof. intros [p Hp]. discriminate Hp. Defined.

Lemma request_all_or_nothing_witness :
  let r := block_request env0 FLOW_BLOCK_BIND 50 1
             FLOW_BLOCK_BINDER_TYPE_CLSACT_INGRESS
             mlx5e_rep_indr_setup_tc_cb [cb1] state1 in
  r.1.2 = [cb1] ∧ same_registry state1 r.2.
Proof.
  intros r.
  apply (proj1 (request_all_or_nothing env0 FLOW_BLOCK_BIND 50 1
                  FLOW_BLOCK_BINDER_TYPE_CLSACT_INGRESS
                  mlx5e_rep_indr_setup_tc_cb [cb1] state1
                  (live_wf _ _ live_state1))).
  vm_compute. discriminate.
Defined.

Lemma bind_allocation_failures_witness :
  block_request env_nomem FLOW_BLOCK_BIND 50 1
    FLOW_BLOCK_BINDER_TYPE_CLSACT_INGRESS mlx5e_rep_indr_setup_tc_cb []
    state0
  = (- ENOMEM, [], emit EvKmalloc state0).
Proof.
  apply (proj1 (bind_allocation_failures env_nomem 50 1
                  FLOW_BLOCK_BINDER_TYPE_CLSACT_INGRESS
                  mlx5e_rep_indr_setup_tc_cb [] state0
                  ltac:(split; [reflexivity|split; [by left|done]])
                  (unbound_state0 _ _) (Forall_nil_2 _))).
  reflexivity.
Defined.

Lemma request_preserves_live_witness :
  let r := block_request env0 FLOW_BLOCK_BIND 50 1
             FLOW_BLOCK_BINDER_TYPE_CLSACT_INGRESS
             mlx5e_rep_indr_setup_tc_cb [] state0 in
  live r.2 r.1.2.
Proof.
  apply (request_preserves_live env0 FLOW_BLOCK_BIND 50 1
           FLOW_BLOCK_BINDER_TYPE_CLSACT_INGRESS
           mlx5e_rep_indr_setup_tc_cb [] state0 live_state0).
Defined.

Lemma request_frame_witness :
  let r := block_request env0 FLOW_BLOCK_UNBIND 50 1
             FLOW_BLOCK_BINDER_TYPE_CLSACT_INGRESS
             mlx5e_rep_indr_setup_tc_cb [cb1] state1 in
  mlx5e_rep_indr_block_priv_lookup (tc_indr_block_priv_list r.2) 50
    FLOW_BLOCK_BINDER_TYPE_CLSACT_EGRESS
  = mlx5e_rep_indr_block_priv_lookup (tc_indr_block_priv_list state1) 50
      FLOW_BLOCK_BINDER_TYPE_CLSACT_EGRESS.
Proof.
  apply (request_frame env0 FLOW_BLOCK_UNBIND 50 1
           FLOW_BLOCK_BINDER_TYPE_CLSACT_INGRESS
           mlx5e_rep_indr_setup_tc_cb [cb1] state1 50
           FLOW_BLOCK_BINDER_TYPE_CLSACT_EGRESS live_state1).
  discriminate.
Defined.

Lemma bind_unbind_round_trip_witness :
  let r1 := block_request env0 FLOW_BLOCK_BIND 60 1
              FLOW_BLOCK_BINDER_TYPE_CLSACT_INGRESS
              mlx5e_rep_indr_setup_tc_cb [cb1] state1 in
  let r2 := block_request env0 FLOW_BLOCK_UNBIND 60 1
              FLOW_BLOCK_BINDER_TYPE_CLSACT_INGRESS
              mlx5e_rep_indr_setup_tc_cb r1.1.2 r1.2 in
  r1.1.1 = 0 ∧ r2.1.1 = 0 ∧ r2.1.2 = [cb1] ∧ same_registry state1 r2.2.
Proof.
  apply (bind_unbind_round_trip env0 60 1
           FLOW_BLOCK_BINDER_TYPE_CLSACT_INGRESS
           mlx5e_rep_indr_setup_tc_cb [cb1] state1 live_state1).
  - split; [reflexivity|]. split; [by left|done].
  - intros [p Hp]. discriminate Hp.
  - reflexivity.
  - reflexivity.
Defined.

End Indirect.

(** * Action-only commands (no device) *)

Module Action.

(** [enum flow_act_command] *)
Inductive flow_act_command :=
| FLOW_ACT_REPLACE
| FLOW_ACT_DESTROY
| FLOW_ACT_STATS
| FLOW_ACT_OTHER (raw : Z).

Inductive mlx5_flow_namespace_type :=
| MLX5_FLOW_NAMESPACE_FDB
| MLX5_FLOW_NAMESPACE_KERNEL.

(** [esw->mode] *)
Inductive eswitch_mode :=
| MLX5_ESWITCH_LEGACY
| MLX5_ESWITCH_OFFLOADS.

Global Instance eswitch_mode_eq_dec : EqDecision eswitch_mode.
Proof. solve_decision. Defined.

(** [struct flow_action_entry]: the action kind and the rest. *)
Record flow_action_entry := mk_entry {
  id : Z;
  params : Z;
}.

(** [struct flow_offload_action]; [action] holds the entries of
    [fl_act->action], so [num_entries] is its length. *)
Record flow_offload_action := mk_fl_act {
  command : flow_act_command;
  fl_id : Z;
  fl_stats : Z;
  action : list flow_action_entry;
}.

(** [struct mlx5e_tc_act]: the three optional handlers this file calls,
    each a function pointer, here an identifier, or NULL. *)
Record mlx5e_tc_act := mk_act {
  offload_action : option Z;
  destroy_action : option Z;
  stats_action : option Z;
}.

(** [struct mlx5e_priv]: the eswitch may be absent. *)
Record mlx5e_priv := mk_priv {
  eswitch : option eswitch_mode;
}.

Inductive event :=
| EvActGet (id : Z) (ns : mlx5_flow_namespace_type)
| EvOffloadAction (handler : Z) (fl_act : flow_offload_action)
                  (a : flow_action_entry)
| EvDestroyAction (handler : Z) (fl_act : flow_offload_action)
| EvStatsAction (handler : Z) (fl_act : flow_offload_action).

Definition log := list event.

(** External collaborators: the action-binding registry
    ([mlx5e_tc_act_get], en/tc/act/act.c) and the handlers behind the
    function pointers. *)
Record env := mk_env {
  mlx5e_tc_act_get : Z → mlx5_flow_namespace_type → option mlx5e_tc_act;
  call_offload_action : log → Z → mlx5e_priv → flow_offload_action →
                        flow_action_entry → Z;
  call_destroy_action : log → Z → mlx5e_priv → flow_offload_action → Z;
  (* the stats handler writes the counters into the command *)
  call_stats_action : log → Z → mlx5e_priv → flow_offload_action →
                      Z * flow_offload_action;
}.

Section WithEnv.

Context (E : env).

(** Modelled from the spec: [flow_offload_has_one_action]
    (include/net/flow_offload.h) is not part of this file; a Replace
    requires exactly one action in the action set. *)
Definition flow_offload_has_one_action (a : list flow_action_entry) : bool :=
  (length a =? 1)%nat.

(** The body of [flow_action_for_each] in [mlx5e_rep_indr_replace_act],
    over the entries still to visit. *)
Fixpoint replace_act_loop (priv : mlx5e_priv) (ns_type : mlx5_flow_namespace_type)
    (fl_act : flow_offload_action) (entries : list flow_action_entry)
    (add : bool) (tr : log) : bool * log :=
  match entries with
  | [] => (add, tr)
  | action :: entries =>
      let act := mlx5e_tc_act_get E (id action) ns_type in
      let tr := EvActGet (id action) ns_type :: tr in
      match act with
      | None => replace_act_loop priv ns_type fl_act entries add tr
      | Some act =>
          match offload_action act with
          | None => replace_act_loop priv ns_type fl_act entries add tr
          | Some h =>
              let err := call_offload_action E tr h priv fl_act action in
              let tr := EvOffloadAction h fl_act action :: tr in
              replace_act_loop priv ns_type fl_act entries
                (if err =? 0 then true else add) tr
          end
      end
  end.

Definition mlx5e_rep_indr_replace_act (priv : mlx5e_priv)
    (fl_act : flow_offload_action) (tr : log) : Z * log :=
  let esw := eswitch priv in
  if negb (flow_offload_has_one_action (action fl_act)) then
    (- EOPNOTSUPP, tr)
  else
    let ns_type :=
      match esw with
      | Some MLX5_ESWITCH_OFFLOADS => MLX5_FLOW_NAMESPACE_FDB
      | _ => MLX5_FLOW_NAMESPACE_KERNEL
      end in
    let '(add, tr) :=
      replace_act_loop priv ns_type fl_act (action fl_act) false tr in
    (if add then 0 else - EOPNOTSUPP, tr).

Definition mlx5e_rep_indr_destroy_act (priv : mlx5e_priv)
    (fl_act : flow_offload_action) (tr : log) : Z * log :=
  let esw := eswitch priv in
  let ns_type :=
    match esw with
    | Some MLX5_ESWITCH_OFFLOADS => MLX5_FLOW_NAMESPACE_FDB
    | _ => MLX5_FLOW_NAMESPACE_KERNEL
    end in
  let act := mlx5e_tc_act_get E (fl_id fl_act) ns_type in
  let tr := EvActGet (fl_id fl_act) ns_type :: tr in
  match act with
  | None => (- EOPNOTSUPP, tr)
  | Some act =>
      match destroy_action act with
      | None => (- EOPNOTSUPP, tr)
      | Some h =>
          (call_destroy_action E tr h priv fl_act,
           EvDestroyAction h fl_act :: tr)
      end
  end.

Definition mlx5e_rep_indr_stats_act (priv : mlx5e_priv)
    (fl_act : flow_offload_action) (tr : log)
    : Z * flow_offload_action * log :=
  let esw := eswitch priv in
  let ns_type :=
    match esw with
    | Some MLX5_ESWITCH_OFFLOADS => MLX5_FLOW_NAMESPACE_FDB
    | _ => MLX5_FLOW_NAMESPACE_KERNEL
    end in
  let act := mlx5e_tc_act_get E (fl_id fl_act) ns_type in
  let tr := EvActGet (fl_id fl_act) ns_type :: tr in
  match act with
  | None => (- EOPNOTSUPP, fl_act, tr)
  | Some act =>
      match stats_action act with
      | None => (- EOPNOTSUPP, fl_act, tr)
      | Some h =>
          (call_stats_action E tr h priv fl_act, EvStatsAction h fl_act :: tr)
      end
  end.

Definition mlx5e_rep_indr_setup_act (priv : mlx5e_priv)
    (fl_act : flow_offload_action) (tr : log)
    : Z * flow_offload_action * log :=
  match command fl_act with
  | FLOW_ACT_REPLACE =>
      let '(err, tr) := mlx5e_rep_indr_replace_act priv fl_act tr in
      (err, fl_act, tr)
  | FLOW_ACT_DESTROY =>
      let '(err, tr) := mlx5e_rep_indr_destroy_act priv fl_act tr in
      (err, fl_act, tr)
  | FLOW_ACT_STATS => mlx5e_rep_indr_stats_act priv fl_act tr
  | FLOW_ACT_OTHER _ => (- EOPNOTSUPP, fl_act, tr)
  end.

(** [data] is NULL or points to the command. *)
Definition mlx5e_rep_indr_no_dev_setup (priv : mlx5e_priv)
    (type : tc_setup_type) (data : option flow_offload_action) (tr : log)
    : Z * option flow_offload_action * log :=
  match data with
  | None => (- EOPNOTSUPP, None, tr)
  | Some fl_act =>
      match type with
      | TC_SETUP_ACT =>
          let '(err, fl_act, tr) := mlx5e_rep_indr_setup_act priv fl_act tr in
          (err, Some fl_act, tr)
      | _ => (- EOPNOTSUPP, data, tr)
      end
  end.

(** The namespace the design document calls applicable: switch-offload
    when the switch is in offload mode, else kernel. *)
Definition applicable_ns (priv : mlx5e_priv) : mlx5_flow_namespace_type :=
  if bool_decide (eswitch priv = Some MLX5_ESWITCH_OFFLOADS)
  then MLX5_FLOW_NAMESPACE_FDB else MLX5_FLOW_NAMESPACE_KERNEL.

(** A registered handler for the action kind in namespace [ns] whose
    offload step, called after the lookup was logged, reports success. *)
Definition handler_accepts (priv : mlx5e_priv) (ns : mlx5_flow_namespace_type)
    (fl_act : flow_offload_action) (a : flow_action_entry) (tr : log) : Prop :=
  ∃ act h,
    mlx5e_tc_act_get E (id a) ns = Some act
    ∧ offload_action act = Some h
    ∧ call_offload_action E (EvActGet (id a) ns :: tr) h priv fl_act a = 0.

Lemma replace_act_ns priv :
  match eswitch priv with
  | Some MLX5_ESWITCH_OFFLOADS => MLX5_FLOW_NAMESPACE_FDB
  | _ => MLX5_FLOW_NAMESPACE_KERNEL
  end = applicable_ns priv.
Proof.
  unfold applicable_ns. destruct (eswitch priv) as [[]|]; done.
Qed.

Lemma replace_act_many priv fl_act tr :
  (1 < length (action fl_act))%nat →
  mlx5e_rep_indr_replace_act priv fl_act tr = (- EOPNOTSUPP, tr).
Proof.
  intros Hlen. unfold mlx5e_rep_indr_replace_act, flow_offload_has_one_action.
  destruct (Nat.eqb_spec (length (action fl_act)) 1); [lia|done].
Qed.

Lemma replace_act_single priv fl_act a tr :
  action fl_act = [a] →
  let r := mlx5e_rep_indr_replace_act priv fl_act tr in
  (r.1 = 0 ↔ handler_accepts priv (applicable_ns priv) fl_act a tr)
  ∧ (r.1 = 0 ∨ r.1 = - EOPNOTSUPP).
Proof.
  intros Ha. unfold mlx5e_rep_indr_replace_act, flow_offload_has_one_action,
    handler_accepts.
  rewrite Ha, replace_act_ns. simpl.
  destruct (mlx5e_tc_act_get E (id a) (applicable_ns priv)) as [act|] eqn:Hg.
  - destruct (offload_action act) as [h|] eqn:Ho.
    + destruct (Z.eqb_spec
        (call_offload_action E (EvActGet (id a) (applicable_ns priv) :: tr)
           h priv fl_act a) 0) as [Hz|Hz]; simpl.
      * split; [|by left]. split; [|done]. intros _. by exists act, h.
      * split; [|by right]. split; [done|].
        intros (act' & h' & ? & ? & ?). simplify_eq.
    + simpl. split; [|by right]. split; [done|].
      intros (act' & h' & ? & ? & ?). simplify_eq.
  - simpl. split; [|by right]. split; [done|].
    intros (act' & h' & ? & ? & ?). simplify_eq.
Qed.

(** C7.  An action-only Replace (no device, type [TC_SETUP_ACT]): with
    more than one action in the set it is rejected with [-EOPNOTSUPP] and
    the registry is not even consulted, whatever handlers exist; with
    exactly one action it returns [0] if and only if the registry holds
    a handler for the action kind in the applicable namespace that has an
    offload step and that step reports success, and [-EOPNOTSUPP]
    otherwise. *)
Theorem replace_act_requires_one_action priv fl_act tr :
  command fl_act = FLOW_ACT_REPLACE →
  let r := mlx5e_rep_indr_no_dev_setup priv TC_SETUP_ACT (Some fl_act) tr in
  ((1 < length (action fl_act))%nat →
     r = (- EOPNOTSUPP, Some fl_act, tr))
  ∧ (∀ a, action fl_act = [a] →
     (r.1.1 = 0 ↔ handler_accepts priv (applicable_ns priv) fl_act a tr)
     ∧ (r.1.1 = 0 ∨ r.1.1 = - EOPNOTSUPP))
  ∧ (eswitch priv = Some MLX5_ESWITCH_OFFLOADS →
     applicable_ns priv = MLX5_FLOW_NAMESPACE_FDB)
  ∧ (eswitch priv ≠ Some MLX5_ESWITCH_OFFLOADS →
     applicable_ns priv = MLX5_FLOW_NAMESPACE_KERNEL).
Proof.
  intros Hcmd r. subst r.
  unfold mlx5e_rep_indr_no_dev_setup, mlx5e_rep_indr_setup_act.
  rewrite Hcmd. split; [|split; [|split]].
  - intros Hlen. by rewrite replace_act_many.
  - intros a Ha. pose proof (replace_act_single priv fl_act a tr Ha) as Hs.
    simpl in Hs. by destruct (mlx5e_rep_indr_replace_act priv fl_act tr).
  - intros He. unfold applicable_ns. by rewrite bool_decide_eq_true_2.
  - intros He. unfold applicable_ns. by rewrite bool_decide_eq_false_2.
Qed.

End WithEnv.

(** ** A concrete registry, for closed examples *)

(** Action kind [7] has an offload handler in the switch-offload
    namespace, which accepts every action; nothing else is registered. *)
Definition env0 : env :=
  mk_env
    (λ i ns, match ns with
             | MLX5_FLOW_NAMESPACE_FDB =>
                 if i =? 7 then Some (mk_act (Some 700) None None) else None
             | MLX5_FLOW_NAMESPACE_KERNEL => None
             end)
    (λ _ _ _ _ _, 0) (λ _ _ _ _, 0) (λ _ _ _ f, (0, f)).

(** Two actions, each with a willing handler: still rejected, and the
    registry is never asked. *)
Example replace_two_actions_rejected :
  mlx5e_rep_indr_no_dev_setup env0 (mk_priv (Some MLX5_ESWITCH_OFFLOADS))
    TC_SETUP_ACT
    (Some (mk_fl_act FLOW_ACT_REPLACE 0 0 [mk_entry 7 0; mk_entry 7 1])) []
  = (- EOPNOTSUPP,
     Some (mk_fl_act FLOW_ACT_REPLACE 0 0 [mk_entry 7 0; mk_entry 7 1]), []).
Proof. reflexivity. Qed.

Example replace_one_action_accepted :
  mlx5e_rep_indr_no_dev_setup env0 (mk_priv (Some MLX5_ESWITCH_OFFLOADS))
    TC_SETUP_ACT (Some (mk_fl_act FLOW_ACT_REPLACE 0 0 [mk_entry 7 0])) []
  = (0, Some (mk_fl_act FLOW_ACT_REPLACE 0 0 [mk_entry 7 0]),
     [EvOffloadAction 700 (mk_fl_act FLOW_ACT_REPLACE 0 0 [mk_entry 7 0])
        (mk_entry 7 0);
      EvActGet 7 MLX5_FLOW_NAMESPACE_FDB]).
Proof. reflexivity. Qed.

(** The same command without an eswitch in offload mode: the kernel
    namespace has no handler. *)
Example replace_one_action_kernel_ns :
  (mlx5e_rep_indr_no_dev_setup env0 (mk_priv None)
     TC_SETUP_ACT (Some (mk_fl_act FLOW_ACT_REPLACE 0 0 [mk_entry 7 0])) []).1.1
  = - EOPNOTSUPP.
Proof. reflexivity. Qed.

Lemma replace_act_requires_one_action_witness :
  mlx5e_rep_indr_no_dev_setup env0 (mk_priv (Some MLX5_ESWITCH_OFFLOADS))
    TC_SETUP_ACT
    (Some (mk_fl_act FLOW_ACT_REPLACE 0 0 [mk_entry 7 0; mk_entry 7 1])) []
  = (- EOPNOTSUPP,
     Some (mk_fl_act FLOW_ACT_REPLACE 0 0 [mk_entry 7 0; mk_entry 7 1]), []).
Proof.
  apply (proj1 (replace_act_requires_one_action env0
                  (mk_priv (Some MLX5_ESWITCH_OFFLOADS))
                  (mk_fl_act FLOW_ACT_REPLACE 0 0 [mk_entry 7 0; mk_entry 7 1])
                  [] eq_refl)).
  simpl. lia.
Defined.

(** ** Action commands: the loop, the handlers, the gate *)

Section Handlers.

Context (E : env).

(** The log a Replace loop leaves does not depend on the flag it
    carries. *)
Lemma replace_act_loop_log priv ns fl entries add add' tr :
  (replace_act_loop E priv ns fl entries add tr).2
  = (replace_act_loop E priv ns fl entries add' tr).2.
Proof.
  revert add add' tr. induction entries as [|a l IH]; intros add add' tr;
    [done|].
  simpl. destruct (mlx5e_tc_act_get E (id a) ns) as [act|]; [|by apply IH].
  destruct (offload_action act) as [h|]; by apply IH.
Qed.

(** One turn of the loop: the flag is kept, or raised by an accepting
    handler. *)
Lemma replace_act_loop_cons priv ns fl a l add tr :
  ∃ add',
    replace_act_loop E priv ns fl (a :: l) add tr
    = replace_act_loop E priv ns fl l add'
        (replace_act_loop E priv ns fl [a] add tr).2
    ∧ (add' = true ↔ add = true ∨ handler_accepts E priv ns fl a tr).
Proof.
  unfold handler_accepts. simpl.
  destruct (mlx5e_tc_act_get E (id a) ns) as [act|] eqn:Hg.
  - destruct (offload_action act) as [h|] eqn:Ho.
    + eexists. split; [reflexivity|].
      destruct (Z.eqb_spec
        (call_offload_action E (EvActGet (id a) ns :: tr) h priv fl a) 0)
        as [Hz|Hz].
      * split; [|done]. intros _. right. by exists act, h.
      * split; [by left|]. intros [?|(act' & h' & ? & ? & ?)]; [done|].
        simplify_eq.
    + exists add. split; [done|]. split; [by left|].
      intros [?|(act' & h' & ? & ? & ?)]; [done|]. simplify_eq.
  - exists add. split; [done|]. split; [by left|].
    intros [?|(act' & h' & ? & ? & ?)]; [done|]. simplify_eq.
Qed.

Lemma replace_act_loop_snoc_log priv ns fl a l add tr :
  (replace_act_loop E priv ns fl (a :: l) add tr).2
  = (replace_act_loop E priv ns fl l add
       (replace_act_loop E priv ns fl [a] add tr).2).2.
Proof.
  destruct (replace_act_loop_cons priv ns fl a l add tr) as (add' & -> & _).
  apply replace_act_loop_log.
Qed.

(** X19.  The loop of a Replace, over any action set: it ends with the
    flag raised exactly when the flag was raised on entry or the handler
    of some entry accepted, asked at the log the loop had reached when
    it came to that entry.  A handler that refuses, or an entry without
    a handler, neither stops the loop nor lowers the flag. *)
Theorem replace_act_loop_accepts priv ns fl entries add tr :
  (replace_act_loop E priv ns fl entries add tr).1 = true
  ↔ add = true
    ∨ ∃ l1 a l2,
        entries = l1 ++ a :: l2
        ∧ handler_accepts E priv ns fl a
            (replace_act_loop E priv ns fl l1 add tr).2.
Proof.
  revert add tr. induction entries as [|a l IH]; intros add tr.
  - simpl. split; [by left|]. intros [?|(l1 & a & l2 & Hl & _)]; [done|].
    by destruct l1.
  - destruct (replace_act_loop_cons priv ns fl a l add tr)
      as (add' & -> & Hadd).
    rewrite IH, Hadd. split.
    + intros [[?|Ha]|(l1 & b & l2 & -> & Hb)].
      * by left.
      * right. by exists [], a, l.
      * right. exists (a :: l1), b, l2. split; [done|].
        rewrite replace_act_loop_snoc_log.
        by rewrite (replace_act_loop_log _ _ _ _ add add').
    + intros [?|(l1 & b & l2 & Hl & Hb)]; [by left; left|].
      destruct l1 as [|x l1]; simpl in Hl; simplify_eq.
      * by left; right.
      * right. exists l1, b, l2. split; [done|].
        rewrite replace_act_loop_snoc_log in Hb.
        by rewrite (replace_act_loop_log _ _ _ _ add' add).
Qed.

(** What an event of an action command must look like: every lookup in
    the applicable namespace, a Replace looking up the kind of an action
    of the set, a Destroy or Stats the identifier of the command; every
    handler called is the one registered for that kind, and of the sort
    the command asks for. *)
Definition event_fits (priv : mlx5e_priv) (fl : flow_offload_action)
    (ev : event) : Prop :=
  match ev with
  | EvActGet i ns =>
      ns = applicable_ns priv
      ∧ match command fl with
        | FLOW_ACT_REPLACE => ∃ a, a ∈ action fl ∧ id a = i
        | _ => i = fl_id fl
        end
  | EvOffloadAction h f a =>
      command fl = FLOW_ACT_REPLACE ∧ f = fl ∧ a ∈ action fl
      ∧ ∃ act, mlx5e_tc_act_get E (id a) (applicable_ns priv) = Some act
               ∧ offload_action act = Some h
  | EvDestroyAction h f =>
      command fl = FLOW_ACT_DESTROY ∧ f = fl
      ∧ ∃ act, mlx5e_tc_act_get E (fl_id fl) (applicable_ns priv) = Some act
               ∧ destroy_action act = Some h
  | EvStatsAction h f =>
      command fl = FLOW_ACT_STATS ∧ f = fl
      ∧ ∃ act, mlx5e_tc_act_get E (fl_id fl) (applicable_ns priv) = Some act
               ∧ stats_action act = Some h
  end.

Definition is_handler_call (ev : event) : bool :=
  match ev with
  | EvActGet _ _ => false
  | _ => true
  end.

(** What the handler behind a handler event returned, asked at the log
    [tr0] it was called on. *)
Definition handler_verdict (priv : mlx5e_priv) (tr0 : log) (ev : event) : Z :=
  match ev with
  | EvOffloadAction h f a => call_offload_action E tr0 h priv f a
  | EvDestroyAction h f => call_destroy_action E tr0 h priv f
  | EvStatsAction h f => (call_stats_action E tr0 h priv f).1
  | EvActGet _ _ => - EOPNOTSUPP
  end.

(** X20.  What an action-only request does to the outside.  It adds to
    the log nothing at all, or one registry lookup, or one registry
    lookup followed by one handler call, and never more: so the registry
    is consulted at most once and at most one handler is called, after
    the lookup.  Lookup and handler are in the applicable namespace and
    of the sort the command asks for; a Replace looks up the kind of its
    action, a Destroy or Stats the identifier of the command.  Without a
    handler call the verdict is [-EOPNOTSUPP].  With one, a Destroy or
    Stats returns what that handler returned, and a Replace returns [0]
    when that handler returned [0] and [-EOPNOTSUPP] otherwise; so a
    verdict other than [-EOPNOTSUPP] is always the value the one handler
    called has returned. *)
Theorem no_dev_setup_events priv type fl tr :
  let r := mlx5e_rep_indr_no_dev_setup E priv type (Some fl) tr in
  ∃ new,
    r.2 = new ++ tr
    ∧ Forall (event_fits priv fl) new
    ∧ (new = [] ∧ r.1.1 = - EOPNOTSUPP
       ∨ (∃ lk, new = [lk] ∧ is_handler_call lk = false
                ∧ r.1.1 = - EOPNOTSUPP)
       ∨ (∃ ev lk,
            new = [ev; lk] ∧ is_handler_call ev = true
            ∧ is_handler_call lk = false
            ∧ r.1.1 = match command fl with
                      | FLOW_ACT_REPLACE =>
                          if handler_verdict priv (lk :: tr) ev =? 0 then 0
                          else - EOPNOTSUPP
                      | _ => handler_verdict priv (lk :: tr) ev
                      end))
    ∧ (r.1.1 ≠ - EOPNOTSUPP →
       ∃ ev lk,
         new = [ev; lk] ∧ is_handler_call ev = true
         ∧ is_handler_call lk = false
         ∧ r.1.1 = handler_verdict priv (lk :: tr) ev).
Proof.
  unfold mlx5e_rep_indr_no_dev_setup, mlx5e_rep_indr_setup_act.
  assert (Hnone : ∀ (x : option flow_offload_action),
    ∃ new, (- EOPNOTSUPP, x, tr).2 = new ++ tr
      ∧ Forall (event_fits priv fl) new
      ∧ (new = [] ∧ (- EOPNOTSUPP, x, tr).1.1 = - EOPNOTSUPP
         ∨ (∃ lk, new = [lk] ∧ is_handler_call lk = false
                  ∧ (- EOPNOTSUPP, x, tr).1.1 = - EOPNOTSUPP)
         ∨ (∃ ev lk,
              new = [ev; lk] ∧ is_handler_call ev = true
              ∧ is_handler_call lk = false
              ∧ (- EOPNOTSUPP, x, tr).1.1
                = match command fl with
                  | FLOW_ACT_REPLACE =>
                      if handler_verdict priv (lk :: tr) ev =? 0 then 0
                      else - EOPNOTSUPP
                  | _ => handler_verdict priv (lk :: tr) ev
                  end))
      ∧ ((- EOPNOTSUPP, x, tr).1.1 ≠ - EOPNOTSUPP →
         ∃ ev lk,
           new = [ev; lk] ∧ is_handler_call ev = true
           ∧ is_handler_call lk = false
           ∧ (- EOPNOTSUPP, x, tr).1.1
             = handler_verdict priv (lk :: tr) ev)).
  { intros x. exists []. simpl. split; [done|]. split; [done|].
    split; [by left|done]. }
  destruct type; try apply Hnone.
  destruct (command fl) eqn:Hcmd; [| | |apply (Hnone (Some fl))]; simpl.
  - unfold mlx5e_rep_indr_replace_act, flow_offload_has_one_action.
    rewrite replace_act_ns.
    destruct (action fl) as [|a [|b l]] eqn:Hact; simpl;
      try apply (Hnone (Some fl)).
    destruct (mlx5e_tc_act_get E (id a) (applicable_ns priv)) as [act|] eqn:Hg.
    + destruct (offload_action act) as [h|] eqn:Ho.
      * exists [EvOffloadAction h fl a; EvActGet (id a) (applicable_ns priv)].
        simpl. split; [done|]. split.
        { repeat constructor; rewrite ?Hcmd, ?Hact; try done.
          - by left.
          - by exists act.
          - exists a. split; [by left|done]. }
        split.
        { right; right. do 2 eexists. repeat split.
          by destruct (_ =? 0). }
        destruct (Z.eqb_spec (call_offload_action E
          (EvActGet (id a) (applicable_ns priv) :: tr) h priv fl a) 0)
          as [Hz|Hz]; [|done].
        intros _. do 2 eexists. by repeat split.
      * exists [EvActGet (id a) (applicable_ns priv)].
        simpl. split; [done|]. split.
        { repeat constructor; rewrite ?Hcmd, ?Hact; try done.
          exists a. split; [by left|done]. }
        split; [|done]. right; left. by eexists.
    + exists [EvActGet (id a) (applicable_ns priv)].
      simpl. split; [done|]. split.
      { repeat constructor; rewrite ?Hcmd, ?Hact; try done.
        exists a. split; [by left|done]. }
      split; [|done]. right; left. by eexists.
  - unfold mlx5e_rep_indr_destroy_act. rewrite replace_act_ns.
    destruct (mlx5e_tc_act_get E (fl_id fl) (applicable_ns priv))
      as [act|] eqn:Hg.
    + destruct (destroy_action act) as [h|] eqn:Ho.
      * exists [EvDestroyAction h fl;
                EvActGet (fl_id fl) (applicable_ns priv)].
        simpl. split; [done|]. split.
        { repeat constructor; rewrite ?Hcmd; try done. by exists act. }
        split.
        { right; right. do 2 eexists. by repeat split. }
        intros _. do 2 eexists. by repeat split.
      * exists [EvActGet (fl_id fl) (applicable_ns priv)].
        simpl. split; [done|]. split.
        { repeat constructor; rewrite ?Hcmd; done. }
        split; [|done]. right; left. by eexists.
    + exists [EvActGet (fl_id fl) (applicable_ns priv)].
      simpl. split; [done|]. split.
      { repeat constructor; rewrite ?Hcmd; done. }
      split; [|done]. right; left. by eexists.
  - unfold mlx5e_rep_indr_stats_act. rewrite replace_act_ns.
    destruct (mlx5e_tc_act_get E (fl_id fl) (applicable_ns priv))
      as [act|] eqn:Hg.
    + destruct (stats_action act) as [h|] eqn:Ho.
      * destruct (call_stats_action E
          (EvActGet (fl_id fl) (applicable_ns priv) :: tr) h priv fl)
          as [err fl'] eqn:Hs.
        exists [EvStatsAction h fl;
                EvActGet (fl_id fl) (applicable_ns priv)].
        simpl. split; [done|]. split.
        { repeat constructor; rewrite ?Hcmd; try done. by exists act. }
        split.
        { right; right. do 2 eexists. repeat split.
          unfold handler_verdict. by rewrite Hs. }
        intros _. do 2 eexists. repeat split.
        unfold handler_verdict. by rewrite Hs.
      * exists [EvActGet (fl_id fl) (applicable_ns priv)].
        simpl. split; [done|]. split.
        { repeat constructor; rewrite ?Hcmd; done. }
        split; [|done]. right; left. by eexists.
    + exists [EvActGet (fl_id fl) (applicable_ns priv)].
      simpl. split; [done|]. split.
      { repeat constructor; rewrite ?Hcmd; done. }
      split; [|done]. right; left. by eexists.
Qed.

(** The requests the gate turns away before the registry is looked at:
    no command, a setup type other than [TC_SETUP_ACT], a command that
    is neither Replace, Destroy nor Stats, or a Replace whose action set
    does not hold exactly one action. *)
Definition gated (type : tc_setup_type) (data : option flow_offload_action)
    : Prop :=
  match data with
  | None => True
  | Some fl =>
      type ≠ TC_SETUP_ACT
      ∨ match command fl with
        | FLOW_ACT_REPLACE => length (action fl) ≠ 1%nat
        | FLOW_ACT_DESTROY | FLOW_ACT_STATS => False
        | FLOW_ACT_OTHER _ => True
        end
  end.

Lemma gated_rejected priv type data tr :
  gated type data →
  mlx5e_rep_indr_no_dev_setup E priv type data tr = (- EOPNOTSUPP, data, tr).
Proof.
  unfold mlx5e_rep_indr_no_dev_setup, gated. destruct data as [fl|]; [|done].
  destruct type; try done.
  unfold mlx5e_rep_indr_setup_act.
  destruct (command fl) eqn:Hcmd; try (intros [?|?]; done).
  unfold mlx5e_rep_indr_replace_act, flow_offload_has_one_action.
  destruct (Nat.eqb_spec (length (action fl)) 1) as [Hlen|Hlen]; simpl;
    [intros [?|?]; done|done].
Qed.

(** X21.  The gate of the action-only path is exact: a gated request
    returns [-EOPNOTSUPP] with the command and the log untouched, and
    every other request consults the registry. *)
Theorem no_dev_setup_gate priv type data tr :
  let r := mlx5e_rep_indr_no_dev_setup E priv type data tr in
  (gated type data → r = (- EOPNOTSUPP, data, tr))
  ∧ (r.2 = tr → gated type data).
Proof.
  split; [apply gated_rejected|].
  unfold mlx5e_rep_indr_no_dev_setup, gated. destruct data as [fl|]; [|done].
  destruct type; try (intros _; by left).
  unfold mlx5e_rep_indr_setup_act.
  destruct (command fl) eqn:Hcmd.
  - unfold mlx5e_rep_indr_replace_act, flow_offload_has_one_action.
    destruct (Nat.eqb_spec (length (action fl)) 1) as [Hlen|Hlen]; simpl.
    + destruct (action fl) as [|a [|b l]]; try done. simpl.
      intros Htr. exfalso. revert Htr.
      destruct (mlx5e_tc_act_get E (id a) _) as [act|];
        [destruct (offload_action act)|]; simpl; intros Htr;
        apply (f_equal length) in Htr; simpl in Htr; lia.
    + intros _. by right.
  - simpl. unfold mlx5e_rep_indr_destroy_act.
    destruct (mlx5e_tc_act_get E (fl_id fl) _) as [act|];
      [destruct (destroy_action act)|]; simpl; intros Htr;
      apply (f_equal length) in Htr; simpl in Htr; lia.
  - simpl. unfold mlx5e_rep_indr_stats_act.
    destruct (mlx5e_tc_act_get E (fl_id fl) _) as [act|];
      [destruct (stats_action act) as [h|];
         [destruct (call_stats_action E _ h priv fl)|]|];
      simpl; intros Htr; apply (f_equal length) in Htr; simpl in Htr; lia.
  - intros _. by right.
Qed.

End Handlers.

End Action.

(** * The indirect callback: one entry point for both paths *)

Module Entry.

(** [struct mlx5e_rep_priv] as the callback uses it: the representor's
    device, and the private data of that device. *)
Record mlx5e_rep_priv := mk_rpriv {
  rep_netdev : net_device;
  rep_priv : Action.mlx5e_priv;
}.

(** What a call leaves behind: the value returned, the block request
    behind [type_data], the action command behind [data], the binding
    registry and the log of the action path. *)
Record outcome := mk_outcome {
  verdict : Z;
  type_data_out : Indirect.flow_block_offload;
  data_out : option Action.flow_offload_action;
  registry : Indirect.state;
  act_log : Action.log;
}.

Section WithEnv.

Context (EI : Indirect.env) (EA : Action.env).

(** [mlx5e_rep_indr_setup_cb].  [netdev] may be NULL.  Without a device
    [data] is the action command; with one it is the cookie handed on to
    the block plumbing, which does not look at it. *)
Definition mlx5e_rep_indr_setup_cb (netdev : option net_device)
    (cb_priv : mlx5e_rep_priv) (type : tc_setup_type)
    (type_data : Indirect.flow_block_offload)
    (data : option Action.flow_offload_action)
    (s : Indirect.state) (tr : Action.log) : outcome :=
  match netdev with
  | None =>
      let '(err, data, tr) :=
        Action.mlx5e_rep_indr_no_dev_setup EA (rep_priv cb_priv) type data tr in
      mk_outcome err type_data data s tr
  | Some netdev =>
      match type with
      | TC_SETUP_BLOCK =>
          let '(err, f, s) :=
            Indirect.mlx5e_rep_indr_setup_block EI netdev (rep_netdev cb_priv)
              type_data Indirect.mlx5e_rep_indr_setup_tc_cb s in
          mk_outcome err f data s tr
      | TC_SETUP_FT =>
          let '(err, f, s) :=
            Indirect.mlx5e_rep_indr_setup_block EI netdev (rep_netdev cb_priv)
              type_data Indirect.mlx5e_rep_indr_setup_ft_cb s in
          mk_outcome err f data s tr
      | _ => mk_outcome (- EOPNOTSUPP) type_data data s tr
      end
  end.

(** The block as the core leaves it after a request: the records the
    driver queued are spliced in. *)
Definition block_after (f : Indirect.flow_block_offload)
    : list Indirect.flow_block_cb :=
  Indirect.block f ++ Indirect.cb_list f.

Definition block_offload (cmd : Indirect.flow_block_command)
    (bt : Indirect.flow_block_binder_type)
    (blk : list Indirect.flow_block_cb) : Indirect.flow_block_offload :=
  Indirect.mk_offload cmd bt blk [] false false.

Lemma ft_bind_granted dev rp bt blk data s tr :
  Indirect.eligible EI dev (rep_netdev rp) bt →
  Indirect.mlx5e_rep_indr_block_priv_lookup
    (Indirect.tc_indr_block_priv_list s) dev bt = None →
  Indirect.kmalloc_fails EI (Indirect.trace s) = false →
  Indirect.indr_block_cb_alloc_err EI
    (Indirect.EvKmalloc :: Indirect.trace s) = 0 →
  let r := mlx5e_rep_indr_setup_cb (Some dev) rp TC_SETUP_FT
             (block_offload Indirect.FLOW_BLOCK_BIND bt blk) data s tr in
  verdict r = 0
  ∧ block_after (type_data_out r)
    = blk ++ [Indirect.new_block_cb Indirect.mlx5e_rep_indr_setup_ft_cb s]
  ∧ Indirect.tc_indr_block_priv_list (registry r)
    = Indirect.new_binding dev (rep_netdev rp) bt s
      :: Indirect.tc_indr_block_priv_list s.
Proof.
  intros Hel Hl Hkm Ha. unfold mlx5e_rep_indr_setup_cb, block_offload.
  rewrite Indirect.setup_block_eligible by done.
  unfold Indirect.indr_block_command. simpl. rewrite Hl.
  unfold Indirect.kmalloc. rewrite Hkm. simpl.
  unfold Indirect.flow_indr_block_cb_alloc. simpl. rewrite Ha. done.
Qed.

Lemma other_callback_not_found blk setup_cb setup_cb' s :
  setup_cb' ≠ setup_cb →
  Forall (λ b, Indirect.cb_addr b < Indirect.next_addr s
               ∧ Indirect.cb_ident b < Indirect.next_addr s) blk →
  Indirect.flow_block_cb_lookup
    (blk ++ [Indirect.new_block_cb setup_cb s]) setup_cb'
    (Indirect.next_addr s) = None.
Proof.
  intros Hne Hblk. unfold Indirect.flow_block_cb_lookup, Indirect.new_block_cb.
  induction Hblk as [|x l [_ Hx] _ IH]; simpl.
  - by rewrite (bool_decide_eq_false_2 (setup_cb = setup_cb')).
  - rewrite (bool_decide_eq_false_2
               (Indirect.cb_ident x = Indirect.next_addr s)) by lia.
    by rewrite andb_false_r.
Qed.

(** X22.  The two setup types share one registry, keyed by device and
    direction only.  Once a pair has been bound through [TC_SETUP_FT],
    a Bind of the same pair through [TC_SETUP_BLOCK] returns [-EEXIST],
    and an Unbind through [TC_SETUP_BLOCK] returns [-ENOENT] and leaves
    the binding in place, since the callback record on the block belongs
    to the other callback; neither touches the registry. *)
Theorem setup_types_share_registry dev rp bt blk data s tr :
  Indirect.live s blk →
  Indirect.eligible EI dev (rep_netdev rp) bt →
  ¬ Indirect.bound s dev bt →
  Indirect.kmalloc_fails EI (Indirect.trace s) = false →
  Indirect.indr_block_cb_alloc_err EI
    (Indirect.EvKmalloc :: Indirect.trace s) = 0 →
  let r1 := mlx5e_rep_indr_setup_cb (Some dev) rp TC_SETUP_FT
              (block_offload Indirect.FLOW_BLOCK_BIND bt blk) data s tr in
  let blk1 := block_after (type_data_out r1) in
  let again cmd :=
    mlx5e_rep_indr_setup_cb (Some dev) rp TC_SETUP_BLOCK
      (block_offload cmd bt blk1) data (registry r1) tr in
  verdict r1 = 0
  ∧ verdict (again Indirect.FLOW_BLOCK_BIND) = - EEXIST
  ∧ verdict (again Indirect.FLOW_BLOCK_UNBIND) = - ENOENT
  ∧ ∀ cmd,
      cmd = Indirect.FLOW_BLOCK_BIND ∨ cmd = Indirect.FLOW_BLOCK_UNBIND →
      Indirect.same_registry (registry r1) (registry (again cmd))
      ∧ Indirect.block (type_data_out (again cmd)) = blk1
      ∧ Indirect.cb_list (type_data_out (again cmd)) = [].
Proof.
  intros [[Hk Hb Hr] Hn Hblk Hdrv] Hel Hnb Hkm Ha.
  assert (Hl : Indirect.mlx5e_rep_indr_block_priv_lookup
                 (Indirect.tc_indr_block_priv_list s) dev bt = None).
  { destruct (Indirect.mlx5e_rep_indr_block_priv_lookup _ _ _) eqn:Hl;
      [|done].
    destruct Hnb. by eexists. }
  destruct (ft_bind_granted dev rp bt blk data s tr Hel Hl Hkm Ha)
    as (Hv & Hblk1 & Hlist).
  cbv zeta. rewrite Hblk1.
  set (r1 := mlx5e_rep_indr_setup_cb (Some dev) rp TC_SETUP_FT _ data s tr)
    in *.
  assert (Hagain : ∀ cmd,
    mlx5e_rep_indr_setup_cb (Some dev) rp TC_SETUP_BLOCK
      (block_offload cmd bt
         (blk ++ [Indirect.new_block_cb Indirect.mlx5e_rep_indr_setup_ft_cb s]))
      data (registry r1) tr
    = let '(err, f, s') :=
        Indirect.indr_block_command EI dev (rep_netdev rp)
          (Indirect.set_driver_fields
             (block_offload cmd bt
                (blk ++ [Indirect.new_block_cb
                           Indirect.mlx5e_rep_indr_setup_ft_cb s])))
          Indirect.mlx5e_rep_indr_setup_tc_cb (registry r1) in
      mk_outcome err f data s' tr).
  { intros cmd. unfold mlx5e_rep_indr_setup_cb.
    by rewrite Indirect.setup_block_eligible. }
  assert (Hbind : ∀ cmd f,
    Indirect.indr_block_command EI dev (rep_netdev rp)
      (Indirect.set_driver_fields
         (block_offload cmd bt
            (blk ++ [Indirect.new_block_cb
                       Indirect.mlx5e_rep_indr_setup_ft_cb s])))
      Indirect.mlx5e_rep_indr_setup_tc_cb (registry r1) = f →
    (cmd = Indirect.FLOW_BLOCK_BIND → f.1.1 = - EEXIST)
    ∧ (cmd = Indirect.FLOW_BLOCK_UNBIND → f.1.1 = - ENOENT)
    ∧ (cmd = Indirect.FLOW_BLOCK_BIND ∨ cmd = Indirect.FLOW_BLOCK_UNBIND →
       Indirect.same_registry (registry r1) f.2
       ∧ Indirect.block f.1.2
         = blk ++ [Indirect.new_block_cb
                     Indirect.mlx5e_rep_indr_setup_ft_cb s]
       ∧ Indirect.cb_list f.1.2 = [])).
  { intros cmd f <-. unfold Indirect.indr_block_command, block_offload.
    cbn [Indirect.command Indirect.set_driver_fields Indirect.f_binder_type
         Indirect.block].
    rewrite Hlist, Indirect.lookup_head.
    rewrite (other_callback_not_found blk _ _ s) by done || by intros [=].
    destruct cmd; simpl; (split; [|split]); done. }
  split; [done|].
  rewrite !Hagain.
  split; [|split].
  - pose proof (Hbind Indirect.FLOW_BLOCK_BIND _ eq_refl) as (H1 & _ & _).
    specialize (H1 eq_refl). revert H1.
    by destruct (Indirect.indr_block_command _ _ _ _ _ _) as [[? ?] ?].
  - pose proof (Hbind Indirect.FLOW_BLOCK_UNBIND _ eq_refl) as (_ & H2 & _).
    specialize (H2 eq_refl). revert H2.
    by destruct (Indirect.indr_block_command _ _ _ _ _ _) as [[? ?] ?].
  - intros cmd Hcmd. rewrite Hagain.
    pose proof (Hbind cmd _ eq_refl) as (_ & _ & H3).
    specialize (H3 Hcmd). revert H3.
    by destruct (Indirect.indr_block_command _ _ _ _ _ _) as [[? ?] ?].
Qed.

(** X23.  The two paths of the callback never meet.  Without a device
    the call is an action-only request: the binding registry and the
    block request are left alone, and a block or flow-table setup, or
    any type other than [TC_SETUP_ACT], is refused with [-EOPNOTSUPP]
    before any registry is looked at.  With a device the action registry
    is never consulted and the cookie is handed back as it came; a setup
    type other than [TC_SETUP_BLOCK] and [TC_SETUP_FT] is refused with
    [-EOPNOTSUPP] and nothing at all is touched, even for an action
    command that would be served without a device. *)
Theorem indr_setup_cb_paths netdev rp type type_data data s tr :
  let r := mlx5e_rep_indr_setup_cb netdev rp type type_data data s tr in
  (netdev = None →
     registry r = s ∧ type_data_out r = type_data
     ∧ (verdict r, data_out r, act_log r)
       = Action.mlx5e_rep_indr_no_dev_setup EA (rep_priv rp) type data tr)
  ∧ (netdev = None → type ≠ TC_SETUP_ACT →
     r = mk_outcome (- EOPNOTSUPP) type_data data s tr)
  ∧ (netdev ≠ None → act_log r = tr ∧ data_out r = data)
  ∧ (netdev ≠ None → type ≠ TC_SETUP_BLOCK → type ≠ TC_SETUP_FT →
     r = mk_outcome (- EOPNOTSUPP) type_data data s tr).
Proof.
  unfold mlx5e_rep_indr_setup_cb. split; [|split; [|split]].
  - intros ->.
    by destruct (Action.mlx5e_rep_indr_no_dev_setup _ _ _ _ _) as [[? ?] ?].
  - intros -> Hty.
    rewrite (Action.gated_rejected EA (rep_priv rp) type data tr); [done|].
    unfold Action.gated. destruct data; [by left|done].
  - destruct netdev as [dev|]; [intros _|done].
    destruct type; try done.
    + by destruct (Indirect.mlx5e_rep_indr_setup_block _ _ _ _ _ _)
        as [[? ?] ?].
    + by destruct (Indirect.mlx5e_rep_indr_setup_block _ _ _ _ _ _)
        as [[? ?] ?].
  - destruct netdev as [dev|]; [intros _|done].
    by destruct type.
Qed.

End WithEnv.

Definition rpriv0 : mlx5e_rep_priv :=
  mk_rpriv 1 (Action.mk_priv (Some Action.MLX5_ESWITCH_OFFLOADS)).

Lemma setup_types_share_registry_witness :
  let r1 := mlx5e_rep_indr_setup_cb Indirect.env0 Action.env0 (Some 50)
              rpriv0 TC_SETUP_FT
              (block_offload Indirect.FLOW_BLOCK_BIND
                 Indirect.FLOW_BLOCK_BINDER_TYPE_CLSACT_INGRESS []) None
              Indirect.state0 [] in
  verdict r1 = 0
  ∧ verdict (mlx5e_rep_indr_setup_cb Indirect.env0 Action.env0 (Some 50)
               rpriv0 TC_SETUP_BLOCK
               (block_offload Indirect.FLOW_BLOCK_BIND
                  Indirect.FLOW_BLOCK_BINDER_TYPE_CLSACT_INGRESS
                  (block_after (type_data_out r1)))
               None (registry r1) [])
    = - EEXIST.
Proof.
  pose proof (setup_types_share_registry Indirect.env0 Action.env0 50 rpriv0
                Indirect.FLOW_BLOCK_BINDER_TYPE_CLSACT_INGRESS [] None
                Indirect.state0 [] Indirect.live_state0
                ltac:(split; [reflexivity|split; [by left|done]])
                (Indirect.unbound_state0 _ _) eq_refl eq_refl) as H.
  split; [apply H|apply H].
Defined.

(** Bound through the flow-table type, then unbound through the
    classifier type: refused. *)
Example ft_bind_tc_unbind :
  let r1 := mlx5e_rep_indr_setup_cb Indirect.env0 Action.env0 (Some 50)
              rpriv0 TC_SETUP_FT
              (block_offload Indirect.FLOW_BLOCK_BIND
                 Indirect.FLOW_BLOCK_BINDER_TYPE_CLSACT_INGRESS []) None
              Indirect.state0 [] in
  verdict (mlx5e_rep_indr_setup_cb Indirect.env0 Action.env0 (Some 50)
             rpriv0 TC_SETUP_BLOCK
             (block_offload Indirect.FLOW_BLOCK_UNBIND
                Indirect.FLOW_BLOCK_BINDER_TYPE_CLSACT_INGRESS
                (block_after (type_data_out r1)))
             None (registry r1) [])
  = - ENOENT.
Proof. reflexivity. Qed.

End Entry.

(** * Receive metadata restorer *)

Module Receive.

(** A [__be32] field as it lies in memory, most significant byte first. *)
Record be32 := mk_be32 { b0 : Z; b1 : Z; b2 : Z; b3 : Z }.

Definition be32_to_cpu (v : be32) : Z :=
  Z.lor (Z.lor (Z.shiftl (b0 v) 24) (Z.shiftl (b1 v) 16))
        (Z.lor (Z.shiftl (b2 v) 8) (b3 v)).

(** [struct mlx5_cqe64], the two fields read here. *)
Record mlx5_cqe64 := mk_cqe {
  ft_metadata : be32;
  sop_drop_qpn : be32;
}.

(** [key.enc_control.addr_type] *)
Inductive addr_type :=
| FLOW_DISSECTOR_KEY_IPV4_ADDRS
| FLOW_DISSECTOR_KEY_IPV6_ADDRS
| FLOW_DISSECTOR_KEY_OTHER (raw : Z).

(** [struct tunnel_match_key], flattened. *)
Record tunnel_match_key := mk_key {
  enc_control_addr_type : addr_type;
  enc_ipv4_src : Z;
  enc_ipv4_dst : Z;
  enc_ipv6_src : Z;
  enc_ipv6_dst : Z;
  enc_ip_tos : Z;
  enc_ip_ttl : Z;
  enc_tp_src : Z;
  enc_tp_dst : Z;
  enc_key_id_keyid : Z;
  filter_ifindex : Z;
}.

(** [struct tunnel_match_enc_opts], flattened: [key.len], [key.data],
    [key.dst_opt_type]. *)
Record tunnel_match_enc_opts := mk_enc_opts {
  opts_len : Z;
  opts_data : list Z;
  opts_dst_opt_type : Z;
}.

(** [struct tunnel_match_enc_opts enc_opts = {}] *)
Definition enc_opts_zero : tunnel_match_enc_opts := mk_enc_opts 0 [] 0.

Inductive family := AF_INET | AF_INET6.

(** Modelled from the spec: [struct metadata_dst] with its tunnel info
    (include/net/dst_metadata.h, ip_tunnels.h) is declared outside this
    file.  The design document has a tunnel-metadata descriptor rebuilt
    from the decoded key, of the key's address family, that carries the
    decoded option bytes. *)
Record metadata_dst := mk_tun_dst {
  tun_family : family;
  tun_src : Z;
  tun_dst_addr : Z;
  tun_tos : Z;
  tun_ttl : Z;
  tun_tp_dst : Z;
  tun_tp_src : Z;
  tun_flags : Z;
  tun_id : Z;
  tun_options_len : Z;
  tun_options : list Z;
}.

(** [struct tc_skb_ext] *)
Record tc_skb_ext := mk_ext { ext_chain : Z }.

(** [struct sk_buff], the fields touched on this path. *)
Record sk_buff := mk_skb {
  mark : Z;
  dev : net_device;
  dst : option metadata_dst;
  ext : option tc_skb_ext;
  payload : Z;
}.

Definition set_mark (m : Z) (skb : sk_buff) : sk_buff :=
  mk_skb m (dev skb) (dst skb) (ext skb) (payload skb).

Definition set_dev (d : net_device) (skb : sk_buff) : sk_buff :=
  mk_skb (mark skb) d (dst skb) (ext skb) (payload skb).

(** [skb_dst_set] *)
Definition skb_dst_set (skb : sk_buff) (d : metadata_dst) : sk_buff :=
  mk_skb (mark skb) (dev skb) (Some d) (ext skb) (payload skb).

Definition set_ext (x : tc_skb_ext) (skb : sk_buff) : sk_buff :=
  mk_skb (mark skb) (dev skb) (dst skb) (Some x) (payload skb).

(** [struct mlx5e_tc_update_priv] *)
Record mlx5e_tc_update_priv := mk_tc_priv { fwd_dev : option net_device }.

(** The [sample] member of [struct mlx5_mapped_obj]. *)
Record mapped_sample := mk_sample {
  group_id : Z;
  rate : Z;
  trunc_size : Z;
  tunnel_id : Z;
}.

(** [struct mlx5_mapped_obj]: the [type] tag with the union member it
    selects; any other tag value is kept as it is. *)
Inductive mlx5_mapped_obj :=
| MLX5_MAPPED_OBJ_CHAIN (chain : Z)
| MLX5_MAPPED_OBJ_SAMPLE (sample : mapped_sample)
| MLX5_MAPPED_OBJ_INT_PORT_METADATA (int_port_metadata : Z)
| MLX5_MAPPED_OBJ_OTHER (type : Z).

(** The three mapping contexts consulted. *)
Inductive mapping_ctx := tunnel_mapping | tunnel_enc_opts_mapping | reg_c0_obj_pool.

Inductive event :=
| EvMappingFind (ctx : mapping_ctx) (priv : net_device) (id : Z)
| EvTunSetDst (f : family)
| EvDevGetByIndex (ifindex : Z)
| EvTcSkbExtAlloc (skb : sk_buff)
| EvWarnOn
| EvCtRestoreFlow (skb : sk_buff) (zone_restore_id : Z)
| EvSampleSkb (skb : sk_buff) (obj : mlx5_mapped_obj)
| EvIntPortDevFwd (skb : sk_buff) (metadata : Z)
| EvDevPut (d : net_device)
| EvDevQueueXmit (skb : sk_buff)
| EvNapiGroReceive (napi : Z) (skb : sk_buff)
| EvKfreeSkb (skb : sk_buff).

Definition log := list event.

(** Constants declared in headers outside this file, and the external
    collaborators of the receive path.  [netdev_dbg] diagnostics are not
    modelled.  A private data area is identified by its device. *)
Record env := mk_env {
  ENC_OPTS_BITS : Z;
  ENC_OPTS_BITS_MASK : Z;
  ESW_TUN_OFFSET : Z;
  TUNNEL_ID_MASK : Z;
  ESW_ZONE_ID_MASK : Z;
  MLX5E_TC_FLOW_ID_MASK : Z;
  MLX5_FS_DEFAULT_FLOW_TAG : Z;
  TUNNEL_KEY : Z;
  (* IS_ENABLED(CONFIG_NET_TC_SKB_EXT) *)
  CONFIG_NET_TC_SKB_EXT : bool;
  (* mapping_find on the three contexts: the value found, if any *)
  find_tunnel : log → net_device → Z → option tunnel_match_key;
  find_enc_opts : log → net_device → Z → option tunnel_match_enc_opts;
  find_mapped_obj : log → net_device → Z → option mlx5_mapped_obj;
  key32_to_tunnel_id : Z → Z;
  (* __ip_tun_set_dst / __ipv6_tun_set_dst: true when they return NULL *)
  tun_dst_alloc_fails : log → bool;
  dev_get_by_index : log → Z → option net_device;
  (* tc_skb_ext_alloc: true when it returns NULL *)
  tc_skb_ext_alloc_fails : log → bool;
  (* mlx5e_tc_ct_restore_flow: its verdict and the packet as it leaves it *)
  mlx5e_tc_ct_restore_flow : log → sk_buff → Z → bool * sk_buff;
  (* mlx5e_tc_int_port_dev_fwd: verdict, packet and [*forward_tx] *)
  mlx5e_tc_int_port_dev_fwd : log → sk_buff → Z → bool → bool * sk_buff * bool;
  mlx5_ipsec_is_rx_flow : mlx5_cqe64 → bool;
}.

Section WithEnv.

Context (E : env).

(** Modelled from the spec: [__ip_tun_set_dst] and [__ipv6_tun_set_dst]
    (include/net/dst_metadata.h) build the descriptor of their address
    family from the decoded key, or return NULL. *)
Definition tun_set_dst (f : family) (saddr daddr tos ttl tp_dst flags id : Z)
    (tr : log) : option metadata_dst * log :=
  let fails := tun_dst_alloc_fails E tr in
  let tr := EvTunSetDst f :: tr in
  if fails then (None, tr)
  else (Some (mk_tun_dst f saddr daddr tos ttl tp_dst 0 flags id 0 []), tr).

Definition set_tp_src (p : Z) (d : metadata_dst) : metadata_dst :=
  mk_tun_dst (tun_family d) (tun_src d) (tun_dst_addr d) (tun_tos d)
    (tun_ttl d) (tun_tp_dst d) p (tun_flags d) (tun_id d)
    (tun_options_len d) (tun_options d).

(** Modelled from the spec: [ip_tunnel_info_opts_set] copies the decoded
    option bytes into the descriptor and marks their kind in its flags. *)
Definition ip_tunnel_info_opts_set (d : metadata_dst) (data : list Z)
    (len flags : Z) : metadata_dst :=
  mk_tun_dst (tun_family d) (tun_src d) (tun_dst_addr d) (tun_tos d)
    (tun_ttl d) (tun_tp_dst d) (tun_tp_src d) (Z.lor (tun_flags d) flags)
    (tun_id d) len data.

(** Returns the verdict, the packet and [*tc_priv] as the function
    leaves them. *)
Definition mlx5e_restore_tunnel (priv : net_device) (skb : sk_buff)
    (tc_priv : mlx5e_tc_update_priv) (tunnel_id : Z) (tr : log)
    : bool * sk_buff * mlx5e_tc_update_priv * log :=
  let enc_opts := enc_opts_zero in
  let enc_opts_id := Z.land tunnel_id (ENC_OPTS_BITS_MASK E) in
  let tun_id := Z.shiftr tunnel_id (ENC_OPTS_BITS E) in
  if tun_id =? 0 then (true, skb, tc_priv, tr)
  else
    let found := find_tunnel E tr priv tun_id in
    let tr := EvMappingFind tunnel_mapping priv tun_id :: tr in
    match found with
    | None => (false, skb, tc_priv, tr)
    | Some key =>
        let '(err, enc_opts, tr) :=
          if enc_opts_id =? 0 then (false, enc_opts, tr)
          else
            let found := find_enc_opts E tr priv enc_opts_id in
            let tr := EvMappingFind tunnel_enc_opts_mapping priv enc_opts_id
                      :: tr in
            match found with
            | None => (true, enc_opts, tr)
            | Some o => (false, o, tr)
            end in
        if err then (false, skb, tc_priv, tr)
        else
          let built :=
            match enc_control_addr_type key with
            | FLOW_DISSECTOR_KEY_IPV4_ADDRS =>
                Some (tun_set_dst AF_INET (enc_ipv4_src key) (enc_ipv4_dst key)
                        (enc_ip_tos key) (enc_ip_ttl key) (enc_tp_dst key)
                        (TUNNEL_KEY E)
                        (key32_to_tunnel_id E (enc_key_id_keyid key)) tr)
            | FLOW_DISSECTOR_KEY_IPV6_ADDRS =>
                Some (tun_set_dst AF_INET6 (enc_ipv6_src key) (enc_ipv6_dst key)
                        (enc_ip_tos key) (enc_ip_ttl key) (enc_tp_dst key)
                        (TUNNEL_KEY E)
                        (key32_to_tunnel_id E (enc_key_id_keyid key)) tr)
            | FLOW_DISSECTOR_KEY_OTHER _ => None
            end in
          match built with
          | None => (false, skb, tc_priv, tr)
          | Some (None, tr) => (false, skb, tc_priv, tr)
          | Some (Some tun_dst, tr) =>
              let tun_dst := set_tp_src (enc_tp_src key) tun_dst in
              let tun_dst :=
                if opts_len enc_opts =? 0 then tun_dst
                else ip_tunnel_info_opts_set tun_dst (opts_data enc_opts)
                       (opts_len enc_opts) (opts_dst_opt_type enc_opts) in
              let skb := skb_dst_set skb tun_dst in
              let d := dev_get_by_index E tr (filter_ifindex key) in
              let tr := EvDevGetByIndex (filter_ifindex key) :: tr in
              match d with
              | None => (false, skb, tc_priv, tr)
              | Some d => (true, set_dev d skb, mk_tc_priv (Some d), tr)
              end
          end
    end.

Definition mlx5e_restore_skb_chain (skb : sk_buff) (chain reg_c1 : Z)
    (tc_priv : mlx5e_tc_update_priv) (tr : log)
    : bool * sk_buff * mlx5e_tc_update_priv * log :=
  let priv := dev skb in
  let tunnel_id :=
    Z.land (Z.shiftr reg_c1 (ESW_TUN_OFFSET E)) (TUNNEL_ID_MASK E) in
  if CONFIG_NET_TC_SKB_EXT E && negb (chain =? 0) then
    let fails := tc_skb_ext_alloc_fails E tr in
    let tr := EvTcSkbExtAlloc skb :: tr in
    if fails then (false, skb, tc_priv, EvWarnOn :: tr)
    else
      let skb := set_ext (mk_ext chain) skb in
      let zone_restore_id := Z.land reg_c1 (ESW_ZONE_ID_MASK E) in
      let '(ok, skb') := mlx5e_tc_ct_restore_flow E tr skb zone_restore_id in
      let tr := EvCtRestoreFlow skb zone_restore_id :: tr in
      if negb ok then (false, skb', tc_priv, tr)
      else mlx5e_restore_tunnel priv skb' tc_priv tunnel_id tr
  else mlx5e_restore_tunnel priv skb tc_priv tunnel_id tr.

Definition mlx5_rep_tc_post_napi_receive (tc_priv : mlx5e_tc_update_priv)
    (tr : log) : log :=
  match fwd_dev tc_priv with
  | Some d => EvDevPut d :: tr
  | None => tr
  end.

Definition mlx5e_restore_skb_sample (priv : net_device) (skb : sk_buff)
    (mapped_obj : mlx5_mapped_obj) (sample_tunnel_id : Z)
    (tc_priv : mlx5e_tc_update_priv) (tr : log)
    : sk_buff * mlx5e_tc_update_priv * log :=
  let '(ok, skb, tc_priv, tr) :=
    mlx5e_restore_tunnel priv skb tc_priv sample_tunnel_id tr in
  if negb ok then (skb, tc_priv, tr)
  else
    let tr := EvSampleSkb skb mapped_obj :: tr in
    let tr := mlx5_rep_tc_post_napi_receive tc_priv tr in
    (skb, tc_priv, tr).

Definition mlx5e_restore_skb_int_port (priv : net_device) (skb : sk_buff)
    (int_port_metadata : Z) (tc_priv : mlx5e_tc_update_priv)
    (forward_tx : bool) (reg_c1 : Z) (tr : log)
    : bool * sk_buff * mlx5e_tc_update_priv * bool * log :=
  let tunnel_id :=
    Z.land (Z.shiftr reg_c1 (ESW_TUN_OFFSET E)) (TUNNEL_ID_MASK E) in
  if negb (tunnel_id =? 0) then
    let '(ok, skb, tc_priv, tr) :=
      mlx5e_restore_tunnel priv skb tc_priv tunnel_id tr in
    (ok, skb, tc_priv, forward_tx, tr)
  else
    let '(ok, skb', forward_tx) :=
      mlx5e_tc_int_port_dev_fwd E tr skb int_port_metadata forward_tx in
    let tr := EvIntPortDevFwd skb int_port_metadata :: tr in
    if ok then (true, skb', mk_tc_priv (Some (dev skb')), forward_tx, tr)
    else (false, skb', tc_priv, forward_tx, tr).

(** The label [forward:] of [mlx5e_rep_tc_receive]. *)
Definition rx_forward (napi : Z) (skb : sk_buff)
    (tc_priv : mlx5e_tc_update_priv) (forward_tx : bool) (tr : log) : log :=
  let tr :=
    if forward_tx then EvDevQueueXmit skb :: tr
    else EvNapiGroReceive napi skb :: tr in
  mlx5_rep_tc_post_napi_receive tc_priv tr.

(** The label [free_skb:]. *)
Definition rx_free_skb (skb : sk_buff) (tr : log) : log :=
  EvKfreeSkb skb :: tr.

(** [mlx5e_rep_tc_receive] from [priv = netdev_priv(skb->dev)] on: the
    lookup of the tag and the decoding of what it maps to. *)
Definition rx_decode (cqe : mlx5_cqe64) (napi : Z) (reg_c0 reg_c1 : Z)
    (skb : sk_buff) (tc_priv : mlx5e_tc_update_priv) (forward_tx : bool)
    (tr : log) : log :=
  let priv := dev skb in
  let found := find_mapped_obj E tr priv reg_c0 in
  let tr := EvMappingFind reg_c0_obj_pool priv reg_c0 :: tr in
  match found with
  | None => rx_free_skb skb tr
  | Some mapped_obj =>
      match mapped_obj with
      | MLX5_MAPPED_OBJ_CHAIN chain =>
          let '(ok, skb, tc_priv, tr) :=
            mlx5e_restore_skb_chain skb chain reg_c1 tc_priv tr in
          if negb ok && negb (mlx5_ipsec_is_rx_flow E cqe)
          then rx_free_skb skb tr
          else rx_forward napi skb tc_priv forward_tx tr
      | MLX5_MAPPED_OBJ_SAMPLE sample =>
          let '(skb, tc_priv, tr) :=
            mlx5e_restore_skb_sample priv skb mapped_obj (tunnel_id sample)
              tc_priv tr in
          rx_free_skb skb tr
      | MLX5_MAPPED_OBJ_INT_PORT_METADATA int_port_metadata =>
          let '(ok, skb, tc_priv, forward_tx, tr) :=
            mlx5e_restore_skb_int_port priv skb int_port_metadata tc_priv
              forward_tx reg_c1 tr in
          if negb ok then rx_free_skb skb tr
          else rx_forward napi skb tc_priv forward_tx tr
      | MLX5_MAPPED_OBJ_OTHER _ => rx_free_skb skb tr
      end
  end.

(** The function returns nothing; what it did to the packet is in the
    log it leaves.  [napi] is [rq->cq.napi]. *)
Definition mlx5e_rep_tc_receive (cqe : mlx5_cqe64) (napi : Z) (skb : sk_buff)
    (tr : log) : log :=
  let reg_c1 := be32_to_cpu (ft_metadata cqe) in
  let tc_priv := mk_tc_priv None in
  let forward_tx := false in
  let reg_c0 :=
    Z.land (be32_to_cpu (sop_drop_qpn cqe)) (MLX5E_TC_FLOW_ID_MASK E) in
  if (reg_c0 =? 0) || (reg_c0 =? MLX5_FS_DEFAULT_FLOW_TAG E)
  then rx_forward napi skb tc_priv forward_tx tr
  else
    let skb := set_mark 0 skb in
    rx_decode cqe napi reg_c0 reg_c1 skb tc_priv forward_tx tr.

(** Closes a goal [∃ evs, l = evs ++ tr ∧ Forall _ evs] for a log [l]
    that is [tr] with up to four events in front. *)
Ltac log_events :=
  simpl;
  first [ eexists []; split; [reflexivity|by repeat constructor]
        | eexists [_]; split; [reflexivity|by repeat constructor]
        | eexists [_; _]; split; [reflexivity|by repeat constructor]
        | eexists [_; _; _]; split; [reflexivity|by repeat constructor]
        | eexists [_; _; _; _]; split; [reflexivity|by repeat constructor] ].

(** Events that only consult a table or allocate: what tunnel restore
    logs. *)
Definition lookup_event (ev : event) : bool :=
  match ev with
  | EvMappingFind _ _ _ | EvTunSetDst _ | EvDevGetByIndex _ => true
  | _ => false
  end.

(** Events that hand the packet on: up the stack, or out on the egress
    path. *)
Definition delivery_event (ev : event) : bool :=
  match ev with
  | EvDevQueueXmit _ | EvNapiGroReceive _ _ => true
  | _ => false
  end.

Definition tunnel_id_base (tunnel_id : Z) : Z :=
  Z.shiftr tunnel_id (ENC_OPTS_BITS E).

Definition tunnel_id_opts (tunnel_id : Z) : Z :=
  Z.land tunnel_id (ENC_OPTS_BITS_MASK E).

Lemma restore_tunnel_log priv skb tc_priv tunnel_id tr :
  ∃ evs,
    (mlx5e_restore_tunnel priv skb tc_priv tunnel_id tr).2 = evs ++ tr
    ∧ Forall (λ ev, lookup_event ev = true) evs.
Proof.
  unfold mlx5e_restore_tunnel, tun_set_dst.
  destruct (Z.shiftr tunnel_id (ENC_OPTS_BITS E) =? 0); [by exists []|].
  destruct (find_tunnel E _ _ _) as [key|]; [|log_events].
  destruct (Z.land tunnel_id (ENC_OPTS_BITS_MASK E) =? 0);
    [|destruct (find_enc_opts E _ _ _) as [o|]; [|log_events]];
    (destruct (enc_control_addr_type key); [| |log_events];
     (destruct (tun_dst_alloc_fails E _); [log_events|];
      destruct (dev_get_by_index E _ _); log_events)).
Qed.

(** The deliveries a log records. *)
Definition deliveries (tr : log) : list event := List.filter delivery_event tr.

Lemma lookup_events_no_delivery evs tr :
  Forall (λ ev, lookup_event ev = true) evs →
  deliveries (evs ++ tr) = deliveries tr.
Proof.
  induction 1 as [|ev evs Hev _ IH]; [done|].
  unfold deliveries in *. simpl. rewrite IH. by destruct ev.
Qed.

(** The decoded key of a tunnel id: what the two lookups of
    [mlx5e_restore_tunnel] yield when neither misses, with the log after
    them.  A zero options id is not looked up and decodes to no options. *)
Definition tunnel_decode (priv : net_device) (tunnel_id : Z) (tr : log)
    : option (tunnel_match_key * tunnel_match_enc_opts * log) :=
  let base := tunnel_id_base tunnel_id in
  let opts := tunnel_id_opts tunnel_id in
  if base =? 0 then None
  else
    let tr1 := EvMappingFind tunnel_mapping priv base :: tr in
    match find_tunnel E tr priv base with
    | None => None
    | Some key =>
        if opts =? 0 then Some (key, enc_opts_zero, tr1)
        else
          match find_enc_opts E tr1 priv opts with
          | None => None
          | Some o =>
              Some (key, o,
                    EvMappingFind tunnel_enc_opts_mapping priv opts :: tr1)
          end
    end.

Lemma tunnel_decode_base priv tunnel_id tr key enc_opts tr2 :
  tunnel_decode priv tunnel_id tr = Some (key, enc_opts, tr2) →
  (tunnel_id_base tunnel_id =? 0) = false
  ∧ find_tunnel E tr priv (tunnel_id_base tunnel_id) = Some key.
Proof.
  unfold tunnel_decode.
  destruct (tunnel_id_base tunnel_id =? 0); [done|].
  destruct (find_tunnel E _ _ _) as [k|]; [|done].
  destruct (tunnel_id_opts tunnel_id =? 0); [by intros [= -> _ _]|].
  destruct (find_enc_opts E _ _ _); [|done]. by intros [= -> _ _].
Qed.

(** After the lookups, the function is its descriptor-building tail. *)
Lemma restore_tunnel_decoded priv skb tc_priv tunnel_id tr key enc_opts tr2 :
  tunnel_decode priv tunnel_id tr = Some (key, enc_opts, tr2) →
  let r := mlx5e_restore_tunnel priv skb tc_priv tunnel_id tr in
  (∀ raw, enc_control_addr_type key = FLOW_DISSECTOR_KEY_OTHER raw →
     r = (false, skb, tc_priv, tr2))
  ∧ (tun_dst_alloc_fails E tr2 = false →
     (enc_control_addr_type key = FLOW_DISSECTOR_KEY_IPV4_ADDRS →
        ∃ d, dst r.1.1.2 = Some d ∧ tun_family d = AF_INET
             ∧ tun_src d = enc_ipv4_src key ∧ tun_dst_addr d = enc_ipv4_dst key)
     ∧ (enc_control_addr_type key = FLOW_DISSECTOR_KEY_IPV6_ADDRS →
        ∃ d, dst r.1.1.2 = Some d ∧ tun_family d = AF_INET6
             ∧ tun_src d = enc_ipv6_src key ∧ tun_dst_addr d = enc_ipv6_dst key)).
Proof.
  intros Hdec r. subst r.
  pose proof (tunnel_decode_base _ _ _ _ _ _ Hdec) as [Hb Hk].
  unfold tunnel_decode in Hdec. rewrite Hb, Hk in Hdec.
  unfold mlx5e_restore_tunnel, tun_set_dst.
  fold (tunnel_id_base tunnel_id) (tunnel_id_opts tunnel_id).
  rewrite Hb, Hk.
  destruct (tunnel_id_opts tunnel_id =? 0).
  - injection Hdec as <- <-. split.
    + intros raw ->. done.
    + intros Ha. split; intros ->; rewrite Ha; simpl;
        destruct (dev_get_by_index E _ _); simpl; by eexists.
  - destruct (find_enc_opts E _ _ _) as [o|]; [|done].
    injection Hdec as <- <-. split.
    + intros raw ->. done.
    + intros Ha. split; intros ->; rewrite Ha; simpl;
        destruct (opts_len o =? 0); destruct (dev_get_by_index E _ _); simpl;
        by eexists.
Qed.

(** The verdicts of tunnel restore, case by case: a zero base id, a
    miss in either mapping, and a decoded key of each address family. *)
Lemma restore_tunnel_verdicts priv skb tc_priv tunnel_id tr :
  let r := mlx5e_restore_tunnel priv skb tc_priv tunnel_id tr in
  let base := tunnel_id_base tunnel_id in
  let opts := tunnel_id_opts tunnel_id in
  let tr1 := EvMappingFind tunnel_mapping priv base :: tr in
  (base = 0 → r = (true, skb, tc_priv, tr))
  ∧ (base ≠ 0 → find_tunnel E tr priv base = None →
     r = (false, skb, tc_priv, tr1))
  ∧ (base ≠ 0 → is_Some (find_tunnel E tr priv base) → opts ≠ 0 →
     find_enc_opts E tr1 priv opts = None →
     r = (false, skb, tc_priv,
          EvMappingFind tunnel_enc_opts_mapping priv opts :: tr1))
  ∧ (∀ key enc_opts tr2,
     tunnel_decode priv tunnel_id tr = Some (key, enc_opts, tr2) →
     (∀ raw, enc_control_addr_type key = FLOW_DISSECTOR_KEY_OTHER raw →
        r = (false, skb, tc_priv, tr2))
     ∧ (tun_dst_alloc_fails E tr2 = false →
        (enc_control_addr_type key = FLOW_DISSECTOR_KEY_IPV4_ADDRS →
           ∃ d, dst r.1.1.2 = Some d ∧ tun_family d = AF_INET
                ∧ tun_src d = enc_ipv4_src key
                ∧ tun_dst_addr d = enc_ipv4_dst key)
        ∧ (enc_control_addr_type key = FLOW_DISSECTOR_KEY_IPV6_ADDRS →
           ∃ d, dst r.1.1.2 = Some d ∧ tun_family d = AF_INET6
                ∧ tun_src d = enc_ipv6_src key
                ∧ tun_dst_addr d = enc_ipv6_dst key))).
Proof.
  intros r base opts tr1. subst r.
  split; [|split; [|split]].
  - intros Hb. unfold mlx5e_restore_tunnel.
    fold (tunnel_id_base tunnel_id). fold base. by rewrite Hb.
  - intros Hb Hmiss. unfold mlx5e_restore_tunnel.
    fold (tunnel_id_base tunnel_id). fold base.
    destruct (Z.eqb_spec base 0); [done|]. by rewrite Hmiss.
  - intros Hb [key Hkey] Ho Hmiss. unfold mlx5e_restore_tunnel.
    fold (tunnel_id_base tunnel_id) (tunnel_id_opts tunnel_id).
    fold base opts.
    destruct (Z.eqb_spec base 0); [done|]. rewrite Hkey.
    destruct (Z.eqb_spec opts 0); [done|]. fold tr1. by rewrite Hmiss.
  - intros key enc_opts tr2 Hdec.
    exact (restore_tunnel_decoded priv skb tc_priv tunnel_id tr key enc_opts
             tr2 Hdec).
Qed.

(** The two tags read off the completion entry. *)
Definition reg_c0_of (cqe : mlx5_cqe64) : Z :=
  Z.land (be32_to_cpu (sop_drop_qpn cqe)) (MLX5E_TC_FLOW_ID_MASK E).

Definition reg_c1_of (cqe : mlx5_cqe64) : Z := be32_to_cpu (ft_metadata cqe).

(** A tag that sends the packet through the decoder. *)
Definition tagged (cqe : mlx5_cqe64) : Prop :=
  reg_c0_of cqe ≠ 0 ∧ reg_c0_of cqe ≠ MLX5_FS_DEFAULT_FLOW_TAG E.

Lemma receive_tagged cqe napi skb tr :
  tagged cqe →
  mlx5e_rep_tc_receive cqe napi skb tr
  = rx_decode cqe napi (reg_c0_of cqe) (reg_c1_of cqe) (set_mark 0 skb)
      (mk_tc_priv None) false tr.
Proof.
  intros [H0 Hd]. unfold mlx5e_rep_tc_receive. fold (reg_c0_of cqe).
  destruct (Z.eqb_spec (reg_c0_of cqe) 0); [done|].
  destruct (Z.eqb_spec (reg_c0_of cqe) (MLX5_FS_DEFAULT_FLOW_TAG E)); done.
Qed.

Lemma receive_untagged cqe napi skb tr :
  reg_c0_of cqe = 0 ∨ reg_c0_of cqe = MLX5_FS_DEFAULT_FLOW_TAG E →
  mlx5e_rep_tc_receive cqe napi skb tr = EvNapiGroReceive napi skb :: tr.
Proof.
  intros Htag. unfold mlx5e_rep_tc_receive. fold (reg_c0_of cqe).
  destruct (Z.eqb_spec (reg_c0_of cqe) 0) as [|H0]; [done|].
  destruct (Z.eqb_spec (reg_c0_of cqe) (MLX5_FS_DEFAULT_FLOW_TAG E)) as [|Hd];
    [done|]. by destruct Htag.
Qed.

(** A failed tunnel restore leaves no forward device pending. *)
Lemma restore_tunnel_fail_tc priv skb tc_priv tunnel_id tr :
  let r := mlx5e_restore_tunnel priv skb tc_priv tunnel_id tr in
  r.1.1.1 = false → r.1.2 = tc_priv.
Proof.
  unfold mlx5e_restore_tunnel, tun_set_dst.
  destruct (Z.shiftr tunnel_id (ENC_OPTS_BITS E) =? 0); [done|].
  destruct (find_tunnel E _ _ _) as [key|]; [|done].
  destruct (Z.land tunnel_id (ENC_OPTS_BITS_MASK E) =? 0);
    [|destruct (find_enc_opts E _ _ _) as [o|]; [|done]];
    (destruct (enc_control_addr_type key); [| |done];
     (destruct (tun_dst_alloc_fails E _); [done|];
      by destruct (dev_get_by_index E _ _))).
Qed.

Lemma restore_skb_chain_fail_tc skb chain reg_c1 tc_priv tr :
  let r := mlx5e_restore_skb_chain skb chain reg_c1 tc_priv tr in
  r.1.1.1 = false → r.1.2 = tc_priv.
Proof.
  unfold mlx5e_restore_skb_chain.
  destruct (CONFIG_NET_TC_SKB_EXT E && negb (chain =? 0));
    [|apply restore_tunnel_fail_tc].
  destruct (tc_skb_ext_alloc_fails E tr); [done|].
  destruct (mlx5e_tc_ct_restore_flow E _ _ _) as [[] skb']; [|done].
  apply restore_tunnel_fail_tc.
Qed.

Lemma restore_skb_chain_log skb chain reg_c1 tc_priv tr :
  tr `suffix_of` (mlx5e_restore_skb_chain skb chain reg_c1 tc_priv tr).2.
Proof.
  unfold mlx5e_restore_skb_chain.
  assert (Htun : ∀ p s t i l, l `suffix_of` (mlx5e_restore_tunnel p s t i l).2).
  { intros p s t i l. destruct (restore_tunnel_log p s t i l) as (evs & -> & _).
    by apply suffix_app_r. }
  destruct (CONFIG_NET_TC_SKB_EXT E && negb (chain =? 0)); [|apply Htun].
  destruct (tc_skb_ext_alloc_fails E tr); simpl.
  { by do 2 apply suffix_cons_r. }
  destruct (mlx5e_tc_ct_restore_flow E _ _ _) as [[] skb']; simpl.
  - etrans; [|apply Htun]. by do 2 apply suffix_cons_r.
  - by do 2 apply suffix_cons_r.
Qed.

Lemma restore_tunnel_suffix priv skb tc_priv tunnel_id tr :
  tr `suffix_of` (mlx5e_restore_tunnel priv skb tc_priv tunnel_id tr).2.
Proof.
  destruct (restore_tunnel_log priv skb tc_priv tunnel_id tr) as (evs & -> & _).
  by apply suffix_app_r.
Qed.

Lemma rx_decode_log cqe napi reg_c0 reg_c1 skb tc_priv forward_tx tr :
  (EvMappingFind reg_c0_obj_pool (dev skb) reg_c0 :: tr)
    `suffix_of` rx_decode cqe napi reg_c0 reg_c1 skb tc_priv forward_tx tr.
Proof.
  unfold rx_decode, rx_free_skb, rx_forward, mlx5_rep_tc_post_napi_receive.
  set (tr1 := EvMappingFind reg_c0_obj_pool (dev skb) reg_c0 :: tr).
  destruct (find_mapped_obj E tr (dev skb) reg_c0) as [[chain|sample|md|ty]|].
  - pose proof (restore_skb_chain_log skb chain reg_c1 tc_priv tr1) as Hs.
    destruct (mlx5e_restore_skb_chain _ _ _ _ _) as [[[ok skb'] tc'] tr'].
    simpl in Hs.
    destruct (negb ok && negb (mlx5_ipsec_is_rx_flow E cqe));
      [by apply suffix_cons_r|].
    destruct forward_tx, (fwd_dev tc'); by repeat apply suffix_cons_r.
  - unfold mlx5e_restore_skb_sample, mlx5_rep_tc_post_napi_receive.
    pose proof (restore_tunnel_suffix (dev skb) skb tc_priv (tunnel_id sample)
                  tr1) as Hs.
    destruct (mlx5e_restore_tunnel _ _ _ _ _) as [[[ok skb'] tc'] tr'].
    simpl in Hs. destruct ok; simpl; [|by apply suffix_cons_r].
    destruct (fwd_dev tc'); by repeat apply suffix_cons_r.
  - unfold mlx5e_restore_skb_int_port.
    destruct (negb _).
    + pose proof (restore_tunnel_suffix (dev skb) skb tc_priv
        (Z.land (Z.shiftr reg_c1 (ESW_TUN_OFFSET E)) (TUNNEL_ID_MASK E)) tr1)
        as Hs.
      destruct (mlx5e_restore_tunnel _ _ _ _ _) as [[[ok skb'] tc'] tr'].
      simpl in Hs. destruct ok; simpl; [|by apply suffix_cons_r].
      destruct forward_tx, (fwd_dev tc'); by repeat apply suffix_cons_r.
    + destruct (mlx5e_tc_int_port_dev_fwd E _ _ _ _) as [[[] skb'] ftx]; simpl.
      * destruct ftx; do 3 apply suffix_cons_r; reflexivity.
      * do 2 apply suffix_cons_r. reflexivity.
  - apply suffix_cons_r. reflexivity.
  - apply suffix_cons_r. reflexivity.
Qed.

(** C10.  A packet whose tag0 is zero or the default flow tag is handed
    up the stack as it came, its mark included, and nothing else happens:
    no table is consulted, nothing is decoded, no device reference is
    dropped.  For any other tag0 the run is the decoder's run on the
    packet with its mark set to 0: the mapping lookup that opens the
    decoder comes after the reset, and the incoming mark has no influence
    on what follows. *)
Theorem receive_default_tag_forwards cqe napi skb tr :
  (reg_c0_of cqe = 0 ∨ reg_c0_of cqe = MLX5_FS_DEFAULT_FLOW_TAG E →
     mlx5e_rep_tc_receive cqe napi skb tr = EvNapiGroReceive napi skb :: tr)
  ∧ (tagged cqe →
     mlx5e_rep_tc_receive cqe napi skb tr
     = rx_decode cqe napi (reg_c0_of cqe) (reg_c1_of cqe) (set_mark 0 skb)
         (mk_tc_priv None) false tr
     ∧ mark (set_mark 0 skb) = 0
     ∧ (EvMappingFind reg_c0_obj_pool (dev skb) (reg_c0_of cqe) :: tr)
         `suffix_of` mlx5e_rep_tc_receive cqe napi skb tr
     ∧ mlx5e_rep_tc_receive cqe napi skb tr
       = mlx5e_rep_tc_receive cqe napi (set_mark 0 skb) tr).
Proof.
  split; [apply receive_untagged|].
  intros Htag. rewrite !receive_tagged by done.
  split; [done|]. split; [done|]. split; [|done].
  apply (rx_decode_log cqe napi _ _ (set_mark 0 skb)).
Qed.

(** C5, as amended.  For a packet whose tag decodes to the Sample
    variant, tunnel restore is run on the sample's tunnel id.  When it
    fails, the collector is not called and the packet is freed.  When it
    succeeds, the collector gets the packet, a pending forward device is
    released, once, and the packet is freed.  Either way the packet is
    never delivered: the run adds no stack delivery and no egress
    transmit to the log. *)
Theorem sample_restore_policy cqe napi skb tr sample :
  tagged cqe →
  find_mapped_obj E tr (dev skb) (reg_c0_of cqe)
    = Some (MLX5_MAPPED_OBJ_SAMPLE sample) →
  let tr1 := EvMappingFind reg_c0_obj_pool (dev skb) (reg_c0_of cqe) :: tr in
  let r := mlx5e_restore_tunnel (dev skb) (set_mark 0 skb) (mk_tc_priv None)
             (tunnel_id sample) tr1 in
  let out := mlx5e_rep_tc_receive cqe napi skb tr in
  (r.1.1.1 = false → out = EvKfreeSkb r.1.1.2 :: r.2)
  ∧ (r.1.1.1 = true → fwd_dev r.1.2 = None →
     out = EvKfreeSkb r.1.1.2
           :: EvSampleSkb r.1.1.2 (MLX5_MAPPED_OBJ_SAMPLE sample) :: r.2)
  ∧ (r.1.1.1 = true → ∀ d, fwd_dev r.1.2 = Some d →
     out = EvKfreeSkb r.1.1.2 :: EvDevPut d
           :: EvSampleSkb r.1.1.2 (MLX5_MAPPED_OBJ_SAMPLE sample) :: r.2)
  ∧ (∃ evs, r.2 = evs ++ tr1 ∧ Forall (λ ev, lookup_event ev = true) evs)
  ∧ deliveries out = deliveries tr.
Proof.
  intros Htag Hobj tr1 r out.
  assert (Hout : out =
    let '(skb', tc', tr') :=
      (if negb r.1.1.1 then (r.1.1.2, r.1.2, r.2)
       else (r.1.1.2, r.1.2,
             mlx5_rep_tc_post_napi_receive r.1.2
               (EvSampleSkb r.1.1.2 (MLX5_MAPPED_OBJ_SAMPLE sample) :: r.2)))
    in EvKfreeSkb skb' :: tr').
  { subst out. rewrite receive_tagged by done. unfold rx_decode.
    change (dev (set_mark 0 skb)) with (dev skb). rewrite Hobj.
    unfold mlx5e_restore_skb_sample, rx_free_skb. fold tr1. fold r.
    by destruct r as [[[[] skb'] tc'] tr']. }
  destruct (restore_tunnel_log (dev skb) (set_mark 0 skb) (mk_tc_priv None)
              (tunnel_id sample) tr1) as (evs & Hevs & Hlook).
  fold r in Hevs.
  split; [|split; [|split; [|split]]].
  - intros Hok. rewrite Hout, Hok. done.
  - intros Hok Hnone. rewrite Hout, Hok. simpl.
    unfold mlx5_rep_tc_post_napi_receive. by rewrite Hnone.
  - intros Hok d Hd. rewrite Hout, Hok. simpl.
    unfold mlx5_rep_tc_post_napi_receive. by rewrite Hd.
  - by exists evs.
  - rewrite Hout, Hevs. unfold mlx5_rep_tc_post_napi_receive.
    destruct r.1.1.1, (fwd_dev r.1.2); simpl;
      change (deliveries (evs ++ tr1) = deliveries tr);
      by rewrite (lookup_events_no_delivery evs tr1 Hlook).
Qed.

Lemma rx_decode_chain cqe napi reg_c0 reg_c1 skb tr chain :
  find_mapped_obj E tr (dev skb) reg_c0 = Some (MLX5_MAPPED_OBJ_CHAIN chain) →
  let r := mlx5e_restore_skb_chain skb chain reg_c1 (mk_tc_priv None)
             (EvMappingFind reg_c0_obj_pool (dev skb) reg_c0 :: tr) in
  rx_decode cqe napi reg_c0 reg_c1 skb (mk_tc_priv None) false tr
  = if negb r.1.1.1 && negb (mlx5_ipsec_is_rx_flow E cqe)
    then EvKfreeSkb r.1.1.2 :: r.2
    else mlx5_rep_tc_post_napi_receive r.1.2
           (EvNapiGroReceive napi r.1.1.2 :: r.2).
Proof.
  intros Hobj r. unfold rx_decode. rewrite Hobj. fold r.
  by destruct r as [[[ok skb'] tc'] tr'].
Qed.

(** C9, as amended.  For a tagged packet that decodes to the Chain
    variant with a nonzero chain, in a build with the TC skb extension:
    restore metadata is requested on the packet first; if that succeeds
    the chain is stored in it and the connection-tracking restorer is
    called with the zone-restore id, the low bits of tag1; if the request
    or the restorer fails the restore fails, and otherwise its outcome is
    that of tunnel restore on the restorer's packet.  A failed restore,
    whichever step failed, frees the packet unless the ipsec receive path
    claims it, in which case the packet is handed up the stack all the
    same; a successful restore hands the packet up the stack and then
    releases the pending forward device. *)
Theorem chain_restore_drop_policy cqe napi skb tr chain :
  tagged cqe →
  find_mapped_obj E tr (dev skb) (reg_c0_of cqe)
    = Some (MLX5_MAPPED_OBJ_CHAIN chain) →
  chain ≠ 0 →
  CONFIG_NET_TC_SKB_EXT E = true →
  let skb0 := set_mark 0 skb in
  let tc0 := mk_tc_priv None in
  let tr1 := EvMappingFind reg_c0_obj_pool (dev skb) (reg_c0_of cqe) :: tr in
  let tr2 := EvTcSkbExtAlloc skb0 :: tr1 in
  let skb1 := set_ext (mk_ext chain) skb0 in
  let zone := Z.land (reg_c1_of cqe) (ESW_ZONE_ID_MASK E) in
  let ct := mlx5e_tc_ct_restore_flow E tr2 skb1 zone in
  let tr3 := EvCtRestoreFlow skb1 zone :: tr2 in
  let tunnel_id :=
    Z.land (Z.shiftr (reg_c1_of cqe) (ESW_TUN_OFFSET E)) (TUNNEL_ID_MASK E) in
  let r := mlx5e_restore_skb_chain skb0 chain (reg_c1_of cqe) tc0 tr1 in
  let out := mlx5e_rep_tc_receive cqe napi skb tr in
  tr2 `suffix_of` r.2
  ∧ (tc_skb_ext_alloc_fails E tr1 = true →
     r = (false, skb0, tc0, EvWarnOn :: tr2))
  ∧ (tc_skb_ext_alloc_fails E tr1 = false →
     tr3 `suffix_of` r.2
     ∧ (ct.1 = false → r = (false, ct.2, tc0, tr3))
     ∧ (ct.1 = true →
        r = mlx5e_restore_tunnel (dev skb) ct.2 tc0 tunnel_id tr3))
  ∧ (r.1.1.1 = false → mlx5_ipsec_is_rx_flow E cqe = false →
     out = EvKfreeSkb r.1.1.2 :: r.2)
  ∧ (r.1.1.1 = false → mlx5_ipsec_is_rx_flow E cqe = true →
     out = EvNapiGroReceive napi r.1.1.2 :: r.2)
  ∧ (r.1.1.1 = true →
     out = mlx5_rep_tc_post_napi_receive r.1.2
             (EvNapiGroReceive napi r.1.1.2 :: r.2)).
Proof.
  intros Htag Hobj Hchain Hcfg skb0 tc0 tr1 tr2 skb1 zone ct tr3 tunnel_id r out.
  assert (Hr : r =
    if tc_skb_ext_alloc_fails E tr1 then (false, skb0, tc0, EvWarnOn :: tr2)
    else if negb ct.1 then (false, ct.2, tc0, tr3)
    else mlx5e_restore_tunnel (dev skb) ct.2 tc0 tunnel_id tr3).
  { subst r. unfold mlx5e_restore_skb_chain. rewrite Hcfg.
    destruct (Z.eqb_spec chain 0); [done|]. simpl.
    fold tr2 skb1 zone. fold ct. fold tr3. fold tunnel_id.
    destruct (tc_skb_ext_alloc_fails E tr1); [done|].
    by destruct ct as [[] skb']. }
  assert (Hout : out =
    if negb r.1.1.1 && negb (mlx5_ipsec_is_rx_flow E cqe)
    then EvKfreeSkb r.1.1.2 :: r.2
    else mlx5_rep_tc_post_napi_receive r.1.2
           (EvNapiGroReceive napi r.1.1.2 :: r.2)).
  { subst out. rewrite receive_tagged by done.
    by apply (rx_decode_chain cqe napi _ _ skb0). }
  assert (Hsuf3 : ∀ s t, tr3 `suffix_of`
            (mlx5e_restore_tunnel (dev skb) s t tunnel_id tr3).2)
    by (intros; apply restore_tunnel_suffix).
  split; [|split; [|split; [|split; [|split]]]].
  - rewrite Hr. destruct (tc_skb_ext_alloc_fails E tr1); simpl.
    { apply suffix_cons_r. reflexivity. }
    destruct (negb ct.1); simpl.
    { apply suffix_cons_r. reflexivity. }
    etrans; [|apply Hsuf3]. apply suffix_cons_r. reflexivity.
  - intros Hf. by rewrite Hr, Hf.
  - intros Hf. rewrite Hr, Hf. split; [|split].
    + destruct (negb ct.1); simpl; [reflexivity|apply Hsuf3].
    + by intros ->.
    + by intros ->.
  - intros Hfail Hips. by rewrite Hout, Hfail, Hips.
  - intros Hfail Hips. rewrite Hout, Hfail, Hips. simpl.
    pose proof (restore_skb_chain_fail_tc skb0 chain (reg_c1_of cqe) tc0 tr1)
      as Htc. fold r in Htc. simpl in Htc.
    unfold mlx5_rep_tc_post_napi_receive. by rewrite (Htc Hfail).
  - intros Hok. by rewrite Hout, Hok.
Qed.

(** Within one run of the receive function, chain restore is tunnel
    restore on the tunnel id of tag1: at once when there is no chain to
    store, after the restore metadata and the connection-tracking
    restorer otherwise. *)
Lemma restore_skb_chain_tunnel skb chain reg_c1 tc_priv tr :
  let tunnel :=
    Z.land (Z.shiftr reg_c1 (ESW_TUN_OFFSET E)) (TUNNEL_ID_MASK E) in
  let c := mlx5e_restore_skb_chain skb chain reg_c1 tc_priv tr in
  let tr2 := EvTcSkbExtAlloc skb :: tr in
  let skb1 := set_ext (mk_ext chain) skb in
  let zone := Z.land reg_c1 (ESW_ZONE_ID_MASK E) in
  let ct := mlx5e_tc_ct_restore_flow E tr2 skb1 zone in
  (chain = 0 ∨ CONFIG_NET_TC_SKB_EXT E = false →
     c = mlx5e_restore_tunnel (dev skb) skb tc_priv tunnel tr)
  ∧ (chain ≠ 0 → CONFIG_NET_TC_SKB_EXT E = true →
     tc_skb_ext_alloc_fails E tr = false → ct.1 = true →
     c = mlx5e_restore_tunnel (dev skb) ct.2 tc_priv tunnel
           (EvCtRestoreFlow skb1 zone :: tr2)).
Proof.
  unfold mlx5e_restore_skb_chain. split.
  - intros [->| ->]; [by rewrite andb_false_r|done].
  - intros Hchain -> ->. destruct (Z.eqb_spec chain 0); [done|]. simpl.
    destruct (mlx5e_tc_ct_restore_flow E _ _ _) as [ok skb']. simpl.
    by intros ->.
Qed.

(** C4, as amended.  For every invocation of tunnel restore: a tunnel
    id whose base id is zero yields success, the packet and the pending
    forward device untouched and no table consulted; a miss of the base
    id in the tunnel mapping yields failure, and so does a miss of a
    nonzero options id in the options mapping, the packet again
    untouched; a decoded key of the IPv4 (IPv6) family, once its
    descriptor is allocated, leaves a descriptor of the IPv4 (IPv6)
    family, carrying the key's addresses, attached to the packet; a
    decoded key of any other family yields failure with nothing attached.
    What a failure does to the packet is the caller's choice: in a run of
    the receive function on a tagged packet, a failed tunnel restore
    frees the packet when the tag decodes to a sample or to
    internal-port metadata; for a chain, where chain restore ends in
    tunnel restore, a failed restore frees the packet unless the ipsec
    receive path claims it, and then the packet is handed up the stack
    all the same. *)
Theorem restore_tunnel_cases priv skb tc_priv tunnel tr :
  let r := mlx5e_restore_tunnel priv skb tc_priv tunnel tr in
  let base := tunnel_id_base tunnel in
  let opts := tunnel_id_opts tunnel in
  let tr1 := EvMappingFind tunnel_mapping priv base :: tr in
  (base = 0 → r = (true, skb, tc_priv, tr))
  ∧ (base ≠ 0 → find_tunnel E tr priv base = None →
     r = (false, skb, tc_priv, tr1))
  ∧ (base ≠ 0 → is_Some (find_tunnel E tr priv base) → opts ≠ 0 →
     find_enc_opts E tr1 priv opts = None →
     r = (false, skb, tc_priv,
          EvMappingFind tunnel_enc_opts_mapping priv opts :: tr1))
  ∧ (∀ key enc_opts tr2,
     tunnel_decode priv tunnel tr = Some (key, enc_opts, tr2) →
     (∀ raw, enc_control_addr_type key = FLOW_DISSECTOR_KEY_OTHER raw →
        r = (false, skb, tc_priv, tr2))
     ∧ (tun_dst_alloc_fails E tr2 = false →
        (enc_control_addr_type key = FLOW_DISSECTOR_KEY_IPV4_ADDRS →
           ∃ d, dst r.1.1.2 = Some d ∧ tun_family d = AF_INET
                ∧ tun_src d = enc_ipv4_src key
                ∧ tun_dst_addr d = enc_ipv4_dst key)
        ∧ (enc_control_addr_type key = FLOW_DISSECTOR_KEY_IPV6_ADDRS →
           ∃ d, dst r.1.1.2 = Some d ∧ tun_family d = AF_INET6
                ∧ tun_src d = enc_ipv6_src key
                ∧ tun_dst_addr d = enc_ipv6_dst key)))
  ∧ (∀ cqe napi pkt tr0,
     tagged cqe →
     let found := find_mapped_obj E tr0 (dev pkt) (reg_c0_of cqe) in
     let tr1 :=
       EvMappingFind reg_c0_obj_pool (dev pkt) (reg_c0_of cqe) :: tr0 in
     let pkt0 := set_mark 0 pkt in
     let tc0 := mk_tc_priv None in
     let tag1_tunnel :=
       Z.land (Z.shiftr (reg_c1_of cqe) (ESW_TUN_OFFSET E))
              (TUNNEL_ID_MASK E) in
     let out := mlx5e_rep_tc_receive cqe napi pkt tr0 in
     (∀ sample, found = Some (MLX5_MAPPED_OBJ_SAMPLE sample) →
        let t := mlx5e_restore_tunnel (dev pkt) pkt0 tc0 (tunnel_id sample)
                   tr1 in
        t.1.1.1 = false → out = EvKfreeSkb t.1.1.2 :: t.2)
     ∧ (∀ md, found = Some (MLX5_MAPPED_OBJ_INT_PORT_METADATA md) →
        tag1_tunnel ≠ 0 →
        let t := mlx5e_restore_tunnel (dev pkt) pkt0 tc0 tag1_tunnel tr1 in
        t.1.1.1 = false → out = EvKfreeSkb t.1.1.2 :: t.2)
     ∧ (∀ chain, found = Some (MLX5_MAPPED_OBJ_CHAIN chain) →
        let c := mlx5e_restore_skb_chain pkt0 chain (reg_c1_of cqe) tc0
                   tr1 in
        let tr2 := EvTcSkbExtAlloc pkt0 :: tr1 in
        let pkt1 := set_ext (mk_ext chain) pkt0 in
        let zone := Z.land (reg_c1_of cqe) (ESW_ZONE_ID_MASK E) in
        let ct := mlx5e_tc_ct_restore_flow E tr2 pkt1 zone in
        (chain = 0 ∨ CONFIG_NET_TC_SKB_EXT E = false →
           c = mlx5e_restore_tunnel (dev pkt) pkt0 tc0 tag1_tunnel tr1)
        ∧ (chain ≠ 0 → CONFIG_NET_TC_SKB_EXT E = true →
           tc_skb_ext_alloc_fails E tr1 = false → ct.1 = true →
           c = mlx5e_restore_tunnel (dev pkt) ct.2 tc0 tag1_tunnel
                 (EvCtRestoreFlow pkt1 zone :: tr2))
        ∧ (c.1.1.1 = false → mlx5_ipsec_is_rx_flow E cqe = false →
           out = EvKfreeSkb c.1.1.2 :: c.2)
        ∧ (c.1.1.1 = false → mlx5_ipsec_is_rx_flow E cqe = true →
           out = EvNapiGroReceive napi c.1.1.2 :: c.2))).
Proof.
  intros r base opts tr1.
  destruct (restore_tunnel_verdicts priv skb tc_priv tunnel tr)
    as (H1 & H2 & H3 & H4).
  split; [exact H1|]. split; [exact H2|]. split; [exact H3|].
  split; [exact H4|]. clear H1 H2 H3 H4.
  intros cqe napi pkt tr0 Htag found tr1' pkt0 tc0 tag1_tunnel out.
  subst out. rewrite receive_tagged by done.
  split; [|split].
  - intros sample Hobj t Hfail. unfold rx_decode.
    change (dev (set_mark 0 pkt)) with (dev pkt). fold found.
    rewrite Hobj. unfold mlx5e_restore_skb_sample, rx_free_skb.
    fold tr1' pkt0 tc0. fold t.
    destruct t as [[[ok s] tc] l]. simpl in Hfail. by subst ok.
  - intros md Hobj Hne t Hfail. unfold rx_decode.
    change (dev (set_mark 0 pkt)) with (dev pkt). fold found.
    rewrite Hobj. unfold mlx5e_restore_skb_int_port, rx_free_skb.
    fold tag1_tunnel. destruct (Z.eqb_spec tag1_tunnel 0); [done|].
    cbn [negb]. fold tr1' pkt0 tc0. fold t.
    destruct t as [[[ok s] tc] l]. simpl in Hfail. by subst ok.
  - intros chain Hobj c tr2 pkt1 zone ct.
    pose proof (restore_skb_chain_tunnel pkt0 chain (reg_c1_of cqe) tc0 tr1')
      as [Hzero Hchain].
    split; [exact Hzero|]. split; [exact Hchain|].
    assert (Hout :
      rx_decode cqe napi (reg_c0_of cqe) (reg_c1_of cqe) pkt0 tc0 false tr0
      = if negb c.1.1.1 && negb (mlx5_ipsec_is_rx_flow E cqe)
        then EvKfreeSkb c.1.1.2 :: c.2
        else mlx5_rep_tc_post_napi_receive c.1.2
               (EvNapiGroReceive napi c.1.1.2 :: c.2)).
    { by apply (rx_decode_chain cqe napi _ _ pkt0). }
    fold pkt0 tc0. rewrite Hout. split.
    + intros Hfail Hips. by rewrite Hfail, Hips.
    + intros Hfail Hips. rewrite Hfail, Hips. simpl.
      pose proof (restore_skb_chain_fail_tc pkt0 chain (reg_c1_of cqe) tc0
                    tr1') as Htc.
      fold c in Htc. simpl in Htc.
      unfold mlx5_rep_tc_post_napi_receive. by rewrite (Htc Hfail).
Qed.

End WithEnv.

(** ** A concrete environment, for closed examples *)

Definition key0 (t : addr_type) : tunnel_match_key :=
  mk_key t 167772161 167772162 1 2 0 64 4789 4789 42 9.

(** Eleven option bits below the base id; tag1 holds the zone in its low
    byte and the tunnel id above it; tag0 is sixteen bits wide and the
    default tag is 0.  Base id [1] decodes to an IPv4 key, [2] to an IPv6
    key, [3] to a key of another family; options id [5] decodes to four
    option bytes.  Tag [10] maps to chain 3, [11] to a sample of tunnel
    base [1], [12] to a sample of the unknown tunnel base [7], [13] to
    internal-port metadata.  Interface [9] is device [900].  No allocation
    fails, the connection-tracking restorer accepts every packet, and the
    ipsec path claims the entries whose tag1 has its top bit set. *)
Definition env0 : env :=
  mk_env 11 2047 8 16777215 255 65535 0 4 true
    (λ _ _ i, if i =? 1 then Some (key0 FLOW_DISSECTOR_KEY_IPV4_ADDRS)
              else if i =? 2 then Some (key0 FLOW_DISSECTOR_KEY_IPV6_ADDRS)
              else if i =? 3 then Some (key0 (FLOW_DISSECTOR_KEY_OTHER 0))
              else None)
    (λ _ _ i, if i =? 5 then Some (mk_enc_opts 4 [1; 2; 3; 4] 8) else None)
    (λ _ _ i, if i =? 10 then Some (MLX5_MAPPED_OBJ_CHAIN 3)
              else if i =? 11
                   then Some (MLX5_MAPPED_OBJ_SAMPLE (mk_sample 1 1 0 2048))
              else if i =? 12
                   then Some (MLX5_MAPPED_OBJ_SAMPLE (mk_sample 1 1 0 14336))
              else if i =? 13 then Some (MLX5_MAPPED_OBJ_INT_PORT_METADATA 77)
              else None)
    (λ k, k) (λ _, false)
    (λ _ i, if i =? 9 then Some 900 else None)
    (λ _, false)
    (λ _ skb _, (true, skb))
    (λ _ skb _ _, (true, set_dev 500 skb, true))
    (λ cqe, 128 <=? b0 (ft_metadata cqe)).

Definition skb0 : sk_buff := mk_skb 99 7 None None 0.

Definition cqe0 (tag0 : Z) : mlx5_cqe64 :=
  mk_cqe (mk_be32 0 0 0 5) (mk_be32 0 0 0 tag0).

(** The default tag: one stack delivery of the packet as it came. *)
Example receive_default_tag :
  mlx5e_rep_tc_receive env0 (cqe0 0) 1 skb0 [] = [EvNapiGroReceive 1 skb0].
Proof. reflexivity. Qed.

(** An unmapped tag: the mark is reset, the lookup misses, the packet is
    freed. *)
Example receive_unmapped_tag :
  mlx5e_rep_tc_receive env0 (cqe0 20) 1 skb0 []
  = [EvKfreeSkb (set_mark 0 skb0); EvMappingFind reg_c0_obj_pool 7 20].
Proof. reflexivity. Qed.

(** Tunnel restore on base id 1 with options id 5: an IPv4 descriptor
    with the option bytes, the packet redirected to device 900, which is
    left pending. *)
Example restore_tunnel_ipv4 :
  mlx5e_restore_tunnel env0 7 skb0 (mk_tc_priv None) (2048 + 5) []
  = (true,
     mk_skb 99 900
       (Some (mk_tun_dst AF_INET 167772161 167772162 0 64 4789 4789 12 42 4
                [1; 2; 3; 4])) None 0,
     mk_tc_priv (Some 900),
     [EvDevGetByIndex 9; EvTunSetDst AF_INET;
      EvMappingFind tunnel_enc_opts_mapping 7 5;
      EvMappingFind tunnel_mapping 7 1]).
Proof. reflexivity. Qed.

Example restore_tunnel_ipv6_family :
  (tun_family <$> dst (mlx5e_restore_tunnel env0 7 skb0 (mk_tc_priv None)
                          4096 []).1.1.2)
  = Some AF_INET6.
Proof. reflexivity. Qed.

Example restore_tunnel_other_family :
  mlx5e_restore_tunnel env0 7 skb0 (mk_tc_priv None) 6144 []
  = (false, skb0, mk_tc_priv None, [EvMappingFind tunnel_mapping 7 3]).
Proof. reflexivity. Qed.

Lemma restore_tunnel_cases_witness :
  mlx5e_restore_tunnel env0 7 skb0 (mk_tc_priv None) 5 []
  = (true, skb0, mk_tc_priv None, []).
Proof.
  apply (proj1 (restore_tunnel_cases env0 7 skb0 (mk_tc_priv None) 5 [])).
  reflexivity.
Defined.

(** As [env0], but with a tunnel id of 23 bits, so that the top bit of
    tag1, by which the ipsec path claims an entry, lies outside it. *)
Definition env23 : env :=
  mk_env (ENC_OPTS_BITS env0) (ENC_OPTS_BITS_MASK env0) (ESW_TUN_OFFSET env0)
    8388607 (ESW_ZONE_ID_MASK env0) (MLX5E_TC_FLOW_ID_MASK env0)
    (MLX5_FS_DEFAULT_FLOW_TAG env0) (TUNNEL_KEY env0)
    (CONFIG_NET_TC_SKB_EXT env0) (find_tunnel env0) (find_enc_opts env0)
    (find_mapped_obj env0) (key32_to_tunnel_id env0)
    (tun_dst_alloc_fails env0) (dev_get_by_index env0)
    (tc_skb_ext_alloc_fails env0) (mlx5e_tc_ct_restore_flow env0)
    (mlx5e_tc_int_port_dev_fwd env0) (mlx5_ipsec_is_rx_flow env0).

(** C4 as the design document states it fails on two entries the ipsec
    path claims, both tagged for chain 3: one whose tag1 carries the
    unknown tunnel base id 7, one whose tag1 carries base id 3, which
    decodes to a key of an unsupported address family.  Tunnel restore
    fails on the miss and on the family, and the packet is not dropped:
    it is handed up the stack, and nothing frees it. *)
Lemma restore_tunnel_failure_not_dropped :
  let cqe_miss := mk_cqe (mk_be32 128 56 0 5) (mk_be32 0 0 0 10) in
  let cqe_family := mk_cqe (mk_be32 128 24 0 5) (mk_be32 0 0 0 10) in
  let skb1 := set_ext (mk_ext 3) (set_mark 0 skb0) in
  let tr3 := [EvCtRestoreFlow skb1 5; EvTcSkbExtAlloc (set_mark 0 skb0);
              EvMappingFind reg_c0_obj_pool 7 10] in
  mlx5e_restore_tunnel env23 7 skb1 (mk_tc_priv None) 14336 tr3
  = (false, skb1, mk_tc_priv None, EvMappingFind tunnel_mapping 7 7 :: tr3)
  ∧ mlx5e_rep_tc_receive env23 cqe_miss 1 skb0 []
    = EvNapiGroReceive 1 skb1 :: EvMappingFind tunnel_mapping 7 7 :: tr3
  ∧ mlx5e_restore_tunnel env23 7 skb1 (mk_tc_priv None) 6144 tr3
    = (false, skb1, mk_tc_priv None, EvMappingFind tunnel_mapping 7 3 :: tr3)
  ∧ mlx5e_rep_tc_receive env23 cqe_family 1 skb0 []
    = EvNapiGroReceive 1 skb1 :: EvMappingFind tunnel_mapping 7 3 :: tr3.
Proof. repeat split. Qed.

Lemma receive_default_tag_forwards_witness :
  mlx5e_rep_tc_receive env0 (cqe0 12) 1 skb0 []
  = mlx5e_rep_tc_receive env0 (cqe0 12) 1 (set_mark 0 skb0) [].
Proof.
  apply (proj2 (receive_default_tag_forwards env0 (cqe0 12) 1 skb0 [])).
  split; vm_compute; discriminate.
Defined.

(** A sampled packet with a restorable tunnel: restored, sampled, the
    pending device released once, the packet freed, never delivered. *)
Example receive_sample_restored :
  mlx5e_rep_tc_receive env0 (cqe0 11) 1 skb0 []
  = let skb' :=
      mk_skb 0 900
        (Some (mk_tun_dst AF_INET 167772161 167772162 0 64 4789 4789 4 42 0 []))
        None 0 in
    [EvKfreeSkb skb'; EvDevPut 900;
     EvSampleSkb skb' (MLX5_MAPPED_OBJ_SAMPLE (mk_sample 1 1 0 2048));
     EvDevGetByIndex 9; EvTunSetDst AF_INET; EvMappingFind tunnel_mapping 7 1;
     EvMappingFind reg_c0_obj_pool 7 11].
Proof. reflexivity. Qed.

Lemma sample_restore_policy_witness :
  deliveries (mlx5e_rep_tc_receive env0 (cqe0 11) 1 skb0 []) = deliveries [].
Proof.
  refine (proj2 (proj2 (proj2 (proj2
    (sample_restore_policy env0 (cqe0 11) 1 skb0 [] (mk_sample 1 1 0 2048)
       _ _))))).
  - split; vm_compute; discriminate.
  - reflexivity.
Defined.

(** C5 as the design document states it fails on a sampled packet whose
    tunnel cannot be restored: the run ends by freeing the packet,
    unsampled and undelivered. *)
Lemma sample_restore_failure_frees_packet :
  (mlx5e_restore_tunnel env0 7 (set_mark 0 skb0) (mk_tc_priv None) 14336
     [EvMappingFind reg_c0_obj_pool 7 12]).1.1.1 = false
  ∧ mlx5e_rep_tc_receive env0 (cqe0 12) 1 skb0 []
    = [EvKfreeSkb (set_mark 0 skb0); EvMappingFind tunnel_mapping 7 7;
       EvMappingFind reg_c0_obj_pool 7 12].
Proof. split; reflexivity. Qed.

(** An entry the ipsec path claims, tagged for chain 3, whose tag1
    carries an unknown tunnel id. *)
Definition cqe_ipsec : mlx5_cqe64 :=
  mk_cqe (mk_be32 128 0 0 5) (mk_be32 0 0 0 10).

Lemma chain_restore_drop_policy_witness :
  let r := mlx5e_restore_skb_chain env0 (set_mark 0 skb0) 3
             (reg_c1_of cqe_ipsec) (mk_tc_priv None)
             [EvMappingFind reg_c0_obj_pool 7 10] in
  mlx5e_rep_tc_receive env0 cqe_ipsec 1 skb0 []
  = EvNapiGroReceive 1 r.1.1.2 :: r.2.
Proof.
  intros r.
  refine (proj1 (proj2 (proj2 (proj2 (proj2
    (chain_restore_drop_policy env0 cqe_ipsec 1 skb0 [] 3 _ _ _ _))))) _ _).
  - split; vm_compute; discriminate.
  - reflexivity.
  - discriminate.
  - reflexivity.
  - reflexivity.
  - reflexivity.
Defined.

(** C9 as the design document states it fails on that entry:
    connection-tracking restore succeeds, the tunnel restore that follows
    fails, and the packet is not freed but handed up the stack. *)
Lemma chain_tunnel_failure_not_dropped :
  let skb1 := set_ext (mk_ext 3) (set_mark 0 skb0) in
  let tr3 := [EvCtRestoreFlow skb1 5; EvTcSkbExtAlloc (set_mark 0 skb0);
              EvMappingFind reg_c0_obj_pool 7 10] in
  (mlx5e_tc_ct_restore_flow env0
     [EvTcSkbExtAlloc (set_mark 0 skb0); EvMappingFind reg_c0_obj_pool 7 10]
     skb1 5).1 = true
  ∧ (mlx5e_restore_tunnel env0 7 skb1 (mk_tc_priv None) 8388608 tr3).1.1.1
    = false
  ∧ mlx5e_rep_tc_receive env0 cqe_ipsec 1 skb0 []
    = EvNapiGroReceive 1 skb1 :: EvMappingFind tunnel_mapping 7 4096 :: tr3.
Proof. repeat split. Qed.

(** ** The receive path: what a restore touches, how a run ends *)

Section Restore.

Context (E : env).

(** X24.  Tunnel restore writes two fields of the packet only, its
    device and its descriptor: mark, restore metadata and payload are
    never touched.  A failed restore neither redirects the packet nor
    leaves a device pending.  A restore that succeeds on a nonzero base
    id ends with the lookup of the key's filter device, redirects the
    packet to that device and leaves exactly that device pending for
    release, with a descriptor attached. *)
Theorem restore_tunnel_touches priv skb tc_priv tunnel_id tr :
  let r := mlx5e_restore_tunnel E priv skb tc_priv tunnel_id tr in
  (mark r.1.1.2 = mark skb ∧ ext r.1.1.2 = ext skb
   ∧ payload r.1.1.2 = payload skb)
  ∧ (r.1.1.1 = false → dev r.1.1.2 = dev skb ∧ r.1.2 = tc_priv)
  ∧ (r.1.1.1 = true → tunnel_id_base E tunnel_id ≠ 0 →
     ∃ key d,
       find_tunnel E tr priv (tunnel_id_base E tunnel_id) = Some key
       ∧ head r.2 = Some (EvDevGetByIndex (filter_ifindex key))
       ∧ dev_get_by_index E (tail r.2) (filter_ifindex key) = Some d
       ∧ r.1.2 = mk_tc_priv (Some d)
       ∧ dev r.1.1.2 = d
       ∧ is_Some (dst r.1.1.2)).
Proof.
  unfold mlx5e_restore_tunnel, tun_set_dst, tunnel_id_base.
  destruct (Z.eqb_spec (Z.shiftr tunnel_id (ENC_OPTS_BITS E)) 0) as [Hb|Hb];
    [done|].
  destruct (find_tunnel E _ _ _) as [key|]; [|done].
  destruct (Z.land tunnel_id (ENC_OPTS_BITS_MASK E) =? 0);
    [|destruct (find_enc_opts E _ _ _) as [o|]; [|done]];
    (destruct (enc_control_addr_type key); [| |done];
     (destruct (tun_dst_alloc_fails E _); [done|];
      destruct (dev_get_by_index E _ _) as [d|] eqn:Hd; simpl;
      [|done];
      (split; [done|]; split; [done|]; intros _ _;
       exists key, d; by repeat split))).
Qed.

(** X25.  The descriptor tunnel restore attaches, beyond its family and
    addresses: ports, TOS, TTL and tunnel id are the decoded key's; the
    option bytes are copied in exactly when the decoded options have a
    nonzero length, and a tunnel id without an options id decodes to no
    options.  The descriptor is attached before the filter device is
    looked up, so it is there whether or not the restore then succeeds,
    and the restore succeeds exactly when that device exists. *)
Theorem restore_tunnel_descriptor priv skb tc_priv tunnel_id tr key enc_opts
    tr2 :
  tunnel_decode E priv tunnel_id tr = Some (key, enc_opts, tr2) →
  enc_control_addr_type key = FLOW_DISSECTOR_KEY_IPV4_ADDRS
  ∨ enc_control_addr_type key = FLOW_DISSECTOR_KEY_IPV6_ADDRS →
  tun_dst_alloc_fails E tr2 = false →
  let r := mlx5e_restore_tunnel E priv skb tc_priv tunnel_id tr in
  ∃ d,
    dst r.1.1.2 = Some d
    ∧ tun_tp_src d = enc_tp_src key ∧ tun_tp_dst d = enc_tp_dst key
    ∧ tun_tos d = enc_ip_tos key ∧ tun_ttl d = enc_ip_ttl key
    ∧ tun_id d = key32_to_tunnel_id E (enc_key_id_keyid key)
    ∧ (opts_len enc_opts = 0 →
       tun_options_len d = 0 ∧ tun_options d = []
       ∧ tun_flags d = TUNNEL_KEY E)
    ∧ (opts_len enc_opts ≠ 0 →
       tun_options_len d = opts_len enc_opts
       ∧ tun_options d = opts_data enc_opts
       ∧ tun_flags d = Z.lor (TUNNEL_KEY E) (opts_dst_opt_type enc_opts))
    ∧ (tunnel_id_opts E tunnel_id = 0 → enc_opts = enc_opts_zero)
    ∧ head r.2 = Some (EvDevGetByIndex (filter_ifindex key))
    ∧ (r.1.1.1 = true
       ↔ is_Some (dev_get_by_index E (tail r.2) (filter_ifindex key))).
Proof.
  intros Hdec Hfam Ha r. subst r.
  pose proof (tunnel_decode_base _ _ _ _ _ _ _ Hdec) as [Hb Hk].
  unfold tunnel_decode in Hdec. rewrite Hb, Hk in Hdec.
  unfold mlx5e_restore_tunnel, tun_set_dst.
  fold (tunnel_id_base E tunnel_id) (tunnel_id_opts E tunnel_id).
  rewrite Hb, Hk.
  destruct (Z.eqb_spec (tunnel_id_opts E tunnel_id) 0) as [Ho|Ho].
  - injection Hdec as <- <-.
    destruct Hfam as [->| ->]; rewrite Ha; simpl;
      destruct (dev_get_by_index E _ _) as [d|] eqn:Hd; simpl;
      eexists; (split; [reflexivity|]); simpl; rewrite ?Hd;
      repeat split; try done; try (by intros [? ?]); try (by eexists).
  - destruct (find_enc_opts E _ _ _) as [o|]; [|done].
    injection Hdec as <- <-.
    destruct Hfam as [->| ->]; rewrite Ha; simpl;
      destruct (Z.eqb_spec (opts_len o) 0) as [Hz|Hz];
      destruct (dev_get_by_index E _ _) as [d|] eqn:Hd; simpl;
      eexists; (split; [reflexivity|]); simpl; rewrite ?Hd;
      repeat split; try done; try (by intros [? ?]); try (by eexists).
Qed.

Definition int_port_fwd_event (ev : event) : bool :=
  match ev with
  | EvIntPortDevFwd _ _ => true
  | _ => false
  end.

Lemma lookup_events_filter (p : event → bool) evs tr :
  (∀ ev, lookup_event ev = true → p ev = false) →
  Forall (λ ev, lookup_event ev = true) evs →
  List.filter p (evs ++ tr) = List.filter p tr.
Proof.
  intros Hp. induction 1 as [|ev evs Hev _ IH]; [done|].
  simpl. by rewrite (Hp ev Hev).
Qed.

(** X27.  Restoring a packet for an internal port, tunnel restore takes
    precedence: with a nonzero tunnel id in tag1 the outcome is tunnel
    restore's, the internal-port resolver is never called and the
    transmit flag is left as it was; with a zero tunnel id no tunnel
    table is consulted, the resolver is called once, and on success the
    device of the packet as the resolver left it is held pending. *)
Theorem int_port_restore_precedence priv skb md tc_priv forward_tx reg_c1 tr :
  let tunnel_id :=
    Z.land (Z.shiftr reg_c1 (ESW_TUN_OFFSET E)) (TUNNEL_ID_MASK E) in
  let r := mlx5e_restore_skb_int_port E priv skb md tc_priv forward_tx
             reg_c1 tr in
  (tunnel_id ≠ 0 →
     let t := mlx5e_restore_tunnel E priv skb tc_priv tunnel_id tr in
     r = (t.1.1.1, t.1.1.2, t.1.2, forward_tx, t.2)
     ∧ List.filter int_port_fwd_event r.2 = List.filter int_port_fwd_event tr)
  ∧ (tunnel_id = 0 →
     let f := mlx5e_tc_int_port_dev_fwd E tr skb md forward_tx in
     r.2 = EvIntPortDevFwd skb md :: tr
     ∧ r.1.1.1.1 = f.1.1 ∧ r.1.1.1.2 = f.1.2 ∧ r.1.2 = f.2
     ∧ r.1.1.2 = if f.1.1 then mk_tc_priv (Some (dev f.1.2)) else tc_priv).
Proof.
  intros tunnel_id r. subst r. unfold mlx5e_restore_skb_int_port.
  fold tunnel_id. split.
  - intros Hne. destruct (Z.eqb_spec tunnel_id 0); [done|]. simpl.
    destruct (restore_tunnel_log E priv skb tc_priv tunnel_id tr)
      as (evs & Hevs & Hlook).
    destruct (mlx5e_restore_tunnel E priv skb tc_priv tunnel_id tr)
      as [[[ok skb'] tc'] tr'].
    simpl in *. split; [done|]. subst tr'.
    apply lookup_events_filter; [|done]. by intros [].
  - intros ->. simpl.
    by destruct (mlx5e_tc_int_port_dev_fwd E tr skb md forward_tx)
      as [[[] skb'] ftx].
Qed.

End Restore.

Section Run.

Context (E : env).

(** Events that neither end the packet's life nor release a device. *)
Definition quiet_event (ev : event) : bool :=
  match ev with
  | EvDevPut _ | EvDevQueueXmit _ | EvNapiGroReceive _ _ | EvKfreeSkb _ =>
      false
  | _ => true
  end.

Definition xmit_event (ev : event) : bool :=
  match ev with
  | EvDevQueueXmit _ => true
  | _ => false
  end.

(** The ways a run can end, newest event first: the packet freed; the
    packet freed after the sampler's pending device was released; the
    packet handed up the stack, or out on the egress path, and then a
    pending device released. *)
Inductive ending (napi : Z) : list event → Prop :=
| ending_free s : ending napi [EvKfreeSkb s]
| ending_sampled s d : ending napi [EvKfreeSkb s; EvDevPut d]
| ending_stack s : ending napi [EvNapiGroReceive napi s]
| ending_stack_put s d : ending napi [EvDevPut d; EvNapiGroReceive napi s]
| ending_xmit_put s d : ending napi [EvDevPut d; EvDevQueueXmit s].

(** The tunnel id carried in tag1. *)
Definition reg_c1_tunnel_id (cqe : mlx5_cqe64) : Z :=
  Z.land (Z.shiftr (reg_c1_of cqe) (ESW_TUN_OFFSET E)) (TUNNEL_ID_MASK E).

(** A tagged packet whose tag maps to internal-port metadata, with no
    tunnel id in tag1: the one case in which the internal-port resolver
    is asked. *)
Definition int_port_direct (cqe : mlx5_cqe64) (skb : sk_buff) (tr : log)
    : Prop :=
  tagged E cqe
  ∧ reg_c1_tunnel_id cqe = 0
  ∧ ∃ md, find_mapped_obj E tr (dev skb) (reg_c0_of E cqe)
          = Some (MLX5_MAPPED_OBJ_INT_PORT_METADATA md).

Lemma lookup_quiet evs :
  Forall (λ ev, lookup_event ev = true) evs →
  Forall (λ ev, quiet_event ev = true) evs.
Proof. intros H. eapply Forall_impl; [exact H|]. by intros []. Qed.

Lemma restore_tunnel_quiet priv skb tc_priv tunnel_id tr :
  ∃ evs,
    (mlx5e_restore_tunnel E priv skb tc_priv tunnel_id tr).2 = evs ++ tr
    ∧ Forall (λ ev, quiet_event ev = true) evs.
Proof.
  destruct (restore_tunnel_log E priv skb tc_priv tunnel_id tr)
    as (evs & Hevs & Hlook).
  exists evs. split; [done|]. by apply lookup_quiet.
Qed.

Lemma restore_skb_chain_quiet skb chain reg_c1 tc_priv tr :
  ∃ evs,
    (mlx5e_restore_skb_chain E skb chain reg_c1 tc_priv tr).2 = evs ++ tr
    ∧ Forall (λ ev, quiet_event ev = true) evs.
Proof.
  unfold mlx5e_restore_skb_chain.
  destruct (CONFIG_NET_TC_SKB_EXT E && negb (chain =? 0));
    [|apply restore_tunnel_quiet].
  destruct (tc_skb_ext_alloc_fails E tr); simpl.
  { exists [EvWarnOn; EvTcSkbExtAlloc skb]. split; [done|].
    by repeat constructor. }
  destruct (mlx5e_tc_ct_restore_flow E _ _ _) as [[] skb']; simpl.
  - destruct (restore_tunnel_quiet (dev skb) skb' tc_priv
        (Z.land (Z.shiftr reg_c1 (ESW_TUN_OFFSET E)) (TUNNEL_ID_MASK E))
        (EvCtRestoreFlow (set_ext (mk_ext chain) skb)
           (Z.land reg_c1 (ESW_ZONE_ID_MASK E))
         :: EvTcSkbExtAlloc skb :: tr)) as (evs & -> & Hq).
    exists (evs ++ [EvCtRestoreFlow (set_ext (mk_ext chain) skb)
                      (Z.land reg_c1 (ESW_ZONE_ID_MASK E));
                    EvTcSkbExtAlloc skb]).
    split; [by rewrite <- app_assoc|].
    apply Forall_app. split; [done|]. by repeat constructor.
  - eexists [_; _]. split; [done|]. by repeat constructor.
Qed.

Ltac run_shape fin evs :=
  exists fin, evs;
  split; [simpl; rewrite <- ?app_assoc; reflexivity|];
  split; [repeat first [ apply Forall_nil_2
                       | apply Forall_cons; split; [reflexivity|]
                       | apply Forall_app; split; [assumption|] ]|];
  split; [constructor|by intros (? & ? & [=])].

Lemma receive_shape cqe napi skb tr :
  ∃ fin evs,
    mlx5e_rep_tc_receive E cqe napi skb tr = fin ++ evs ++ tr
    ∧ Forall (λ ev, quiet_event ev = true) evs
    ∧ ending napi fin
    ∧ ((∃ s d, fin = [EvDevPut d; EvDevQueueXmit s]) →
       int_port_direct cqe skb tr).
Proof.
  unfold mlx5e_rep_tc_receive. fold (reg_c0_of E cqe) (reg_c1_of cqe).
  destruct (Z.eqb_spec (reg_c0_of E cqe) 0) as [|H0]; simpl.
  { run_shape [EvNapiGroReceive napi skb] (@nil event). }
  destruct (Z.eqb_spec (reg_c0_of E cqe) (MLX5_FS_DEFAULT_FLOW_TAG E))
    as [|Hd]; simpl.
  { run_shape [EvNapiGroReceive napi skb] (@nil event). }
  unfold rx_decode, rx_free_skb, rx_forward, mlx5_rep_tc_post_napi_receive.
  change (dev (set_mark 0 skb)) with (dev skb).
  set (tr1 := EvMappingFind reg_c0_obj_pool (dev skb) (reg_c0_of E cqe)).
  destruct (find_mapped_obj E tr (dev skb) (reg_c0_of E cqe))
    as [[chain|sample|md|ty]|] eqn:Hobj.
  - destruct (restore_skb_chain_quiet (set_mark 0 skb) chain (reg_c1_of cqe)
                (mk_tc_priv None) (tr1 :: tr)) as (evs & Hevs & Hq).
    destruct (mlx5e_restore_skb_chain E _ _ _ _ _) as [[[ok skb'] tc'] tr'].
    simpl in Hevs. subst tr'.
    destruct (negb ok && negb (mlx5_ipsec_is_rx_flow E cqe)).
    + run_shape [EvKfreeSkb skb'] (evs ++ [tr1]).
    + destruct (fwd_dev tc') as [d|].
      * run_shape [EvDevPut d; EvNapiGroReceive napi skb'] (evs ++ [tr1]).
      * run_shape [EvNapiGroReceive napi skb'] (evs ++ [tr1]).
  - unfold mlx5e_restore_skb_sample, mlx5_rep_tc_post_napi_receive.
    destruct (restore_tunnel_quiet (dev skb) (set_mark 0 skb)
                (mk_tc_priv None) (tunnel_id sample) (tr1 :: tr))
      as (evs & Hevs & Hq).
    destruct (mlx5e_restore_tunnel E _ _ _ _ _) as [[[ok skb'] tc'] tr'].
    simpl in Hevs. subst tr'. destruct ok; simpl.
    + destruct (fwd_dev tc') as [d|].
      * run_shape [EvKfreeSkb skb'; EvDevPut d]
          (EvSampleSkb skb' (MLX5_MAPPED_OBJ_SAMPLE sample) :: evs ++ [tr1]).
      * run_shape [EvKfreeSkb skb']
          (EvSampleSkb skb' (MLX5_MAPPED_OBJ_SAMPLE sample) :: evs ++ [tr1]).
    + run_shape [EvKfreeSkb skb'] (evs ++ [tr1]).
  - unfold mlx5e_restore_skb_int_port. fold (reg_c1_tunnel_id cqe).
    destruct (Z.eqb_spec (reg_c1_tunnel_id cqe) 0) as [Ht|Ht]; simpl.
    + destruct (mlx5e_tc_int_port_dev_fwd E _ _ _ _) as [[[] skb'] ftx];
        simpl.
      * destruct ftx.
        -- exists [EvDevPut (dev skb'); EvDevQueueXmit skb'],
             [EvIntPortDevFwd (set_mark 0 skb) md; tr1].
           split; [done|]. split; [by repeat constructor|].
           split; [constructor|]. intros _.
           split; [done|]. split; [done|]. by exists md.
        -- run_shape [EvDevPut (dev skb'); EvNapiGroReceive napi skb']
             [EvIntPortDevFwd (set_mark 0 skb) md; tr1].
      * run_shape [EvKfreeSkb skb']
          [EvIntPortDevFwd (set_mark 0 skb) md; tr1].
    + destruct (restore_tunnel_quiet (dev skb) (set_mark 0 skb)
                  (mk_tc_priv None) (reg_c1_tunnel_id cqe) (tr1 :: tr))
        as (evs & Hevs & Hq).
      destruct (mlx5e_restore_tunnel E _ _ _ _ _) as [[[ok skb'] tc'] tr'].
      simpl in Hevs. subst tr'. destruct ok; simpl.
      * destruct (fwd_dev tc') as [d|].
        -- run_shape [EvDevPut d; EvNapiGroReceive napi skb'] (evs ++ [tr1]).
        -- run_shape [EvNapiGroReceive napi skb'] (evs ++ [tr1]).
      * run_shape [EvKfreeSkb skb'] (evs ++ [tr1]).
  - run_shape [EvKfreeSkb (set_mark 0 skb)] [tr1].
  - run_shape [EvKfreeSkb (set_mark 0 skb)] [tr1].
Qed.

(** X26.  Three runs of a tagged packet in closed form.  A tag that maps
    to nothing, or to an object of a kind the driver does not know,
    frees the packet, its mark reset, after the one lookup.  A tag that
    maps to chain 0 (or any chain in a build without the TC skb
    extension), with no tunnel id in tag1, hands the packet up the stack
    with its mark reset and nothing else restored or released. *)
Theorem receive_closed_runs cqe napi skb tr :
  tagged E cqe →
  let found := find_mapped_obj E tr (dev skb) (reg_c0_of E cqe) in
  let tr1 := EvMappingFind reg_c0_obj_pool (dev skb) (reg_c0_of E cqe) :: tr in
  let out := mlx5e_rep_tc_receive E cqe napi skb tr in
  (found = None → out = EvKfreeSkb (set_mark 0 skb) :: tr1)
  ∧ (∀ ty, found = Some (MLX5_MAPPED_OBJ_OTHER ty) →
     out = EvKfreeSkb (set_mark 0 skb) :: tr1)
  ∧ (∀ chain, found = Some (MLX5_MAPPED_OBJ_CHAIN chain) →
     chain = 0 ∨ CONFIG_NET_TC_SKB_EXT E = false →
     tunnel_id_base E (reg_c1_tunnel_id cqe) = 0 →
     out = EvNapiGroReceive napi (set_mark 0 skb) :: tr1).
Proof.
  intros Htag found tr1 out. subst out found.
  rewrite receive_tagged by done. unfold rx_decode.
  change (dev (set_mark 0 skb)) with (dev skb).
  split; [|split].
  - by intros ->.
  - by intros ty ->.
  - intros chain -> Hchain Hbase.
    assert (Hskip : CONFIG_NET_TC_SKB_EXT E && negb (chain =? 0) = false).
    { destruct Hchain as [->| ->]; [by rewrite andb_false_r|done]. }
    unfold mlx5e_restore_skb_chain. rewrite Hskip.
    fold (reg_c1_tunnel_id cqe).
    unfold mlx5e_restore_tunnel. fold (tunnel_id_base E (reg_c1_tunnel_id cqe)).
    by rewrite Hbase.
Qed.

(** X28.  The egress path is entered in one case only.  Unless the
    packet is tagged, its tag maps to internal-port metadata and tag1
    holds no tunnel id, a run never transmits the packet: it adds no
    [dev_queue_xmit] to the log. *)
Theorem transmit_only_for_int_port cqe napi skb tr :
  ¬ int_port_direct cqe skb tr →
  List.filter xmit_event (mlx5e_rep_tc_receive E cqe napi skb tr)
  = List.filter xmit_event tr.
Proof.
  intros Hno.
  destruct (receive_shape cqe napi skb tr) as (fin & evs & -> & Hq & Hend & Hx).
  rewrite !List.filter_app.
  assert (Hevs : List.filter xmit_event evs = []).
  { clear -Hq. induction Hq as [|ev evs Hev _ IH]; [done|].
    simpl. rewrite IH. by destruct ev. }
  rewrite Hevs.
  destruct Hend; try done.
  destruct Hno. apply Hx. by do 2 eexists.
Qed.

(** X29.  Every run of the receive function ends the packet's life
    exactly once, and releases at most one device: its log is the old
    log, then events that neither deliver, free nor release, then one of
    five endings: the packet freed; the packet freed right after the
    sampler's pending device was released; the packet handed up the
    stack; or handed up the stack, or out on the egress path, and a
    pending device released afterwards.  A packet is never both freed
    and delivered, and never delivered twice. *)
Theorem receive_run_ends_once cqe napi skb tr :
  ∃ fin evs,
    mlx5e_rep_tc_receive E cqe napi skb tr = fin ++ evs ++ tr
    ∧ Forall (λ ev, quiet_event ev = true) evs
    ∧ ending napi fin.
Proof.
  destruct (receive_shape cqe napi skb tr) as (fin & evs & H & Hq & Hend & _).
  by exists fin, evs.
Qed.

End Run.

Lemma restore_tunnel_descriptor_witness :
  ∃ d,
    dst (mlx5e_restore_tunnel env0 7 skb0 (mk_tc_priv None) 2053 []).1.1.2
    = Some d
    ∧ tun_options d = [1; 2; 3; 4].
Proof.
  destruct (restore_tunnel_descriptor env0 7 skb0 (mk_tc_priv None) 2053 []
              (key0 FLOW_DISSECTOR_KEY_IPV4_ADDRS)
              (mk_enc_opts 4 [1; 2; 3; 4] 8)
              [EvMappingFind tunnel_enc_opts_mapping 7 5;
               EvMappingFind tunnel_mapping 7 1]
              eq_refl (or_introl eq_refl) eq_refl)
    as (d & Hd & _ & _ & _ & _ & _ & _ & Hopts & _).
  exists d. split; [exact Hd|]. apply Hopts. discriminate.
Defined.

Lemma receive_closed_runs_witness :
  mlx5e_rep_tc_receive env0 (cqe0 20) 1 skb0 []
  = [EvKfreeSkb (set_mark 0 skb0); EvMappingFind reg_c0_obj_pool 7 20].
Proof.
  apply (proj1 (receive_closed_runs env0 (cqe0 20) 1 skb0 []
                  ltac:(split; vm_compute; discriminate))).
  reflexivity.
Defined.

Lemma transmit_only_for_int_port_witness :
  List.filter xmit_event (mlx5e_rep_tc_receive env0 (cqe0 10) 1 skb0 [])
  = List.filter xmit_event [].
Proof.
  apply (transmit_only_for_int_port env0 (cqe0 10) 1 skb0 []).
  intros (_ & _ & md & Hmd). vm_compute in Hmd. discriminate Hmd.
Defined.

(** A packet for an internal port, no tunnel id in tag1: the resolver
    redirects it and asks for transmission; the packet goes out on the
    egress path and the resolver's device is released. *)
Example receive_int_port_xmit :
  mlx5e_rep_tc_receive env0 (cqe0 13) 1 skb0 []
  = [EvDevPut 500; EvDevQueueXmit (mk_skb 0 500 None None 0);
     EvIntPortDevFwd (set_mark 0 skb0) 77;
     EvMappingFind reg_c0_obj_pool 7 13].
Proof. reflexivity. Qed.

End Receive.
